(** * uC-AVR-library: the 128x64 LCD driver of [library/uc-graphics/lcd.h]

    A shallow embedding of the driver: the C globals become one record,
    every [void] function becomes a state transformer on it, the
    preprocessor configuration becomes a [config] value, and the AVR
    output registers the macros are bound to become a register file.
    All C values are [Z]; an assignment to a [uint8_t] is written out
    as reduction modulo 256. Parameters typed [uint8_t] in the source
    are meant in the range [0, 256). Busy-wait delays ([_delay_us])
    have no effect on the state and are left out. *)

From Stdlib Require Import ZArith Lia Bool.
From stdpp Require Import base list gmap.

Local Open Scope Z_scope.

(** ** Machine integers *)

Definition u8 (z : Z) : Z := z mod 256.

(** ** Build-time configuration (the macros of the header) *)

Inductive draw_mode := LCD_MODE_BUFFERED | LCD_MODE_IMMEDIATE.

Inductive data_mode :=
| LCD_DMP_CONTROL_TOGETHER     (* LCD_DATA_MODE_PARALLEL, one control register *)
| LCD_DMP_CONTROL_INDIVIDUAL   (* LCD_DATA_MODE_PARALLEL, one register per line *)
| LCD_DATA_MODE_SERIAL.

(** Registers are named by their I/O address, pins by their bit number. *)
Record config := {
  lcd_mode : draw_mode;
  lcd_data_mode : data_mode;
  (* parallel, both variants *)
  LCD_DMP_DDR_DATA : Z;
  LCD_DMP_PORT_DATA : Z;
  LCD_DMP_PIN_CSEL1 : Z;
  LCD_DMP_PIN_CSEL2 : Z;
  LCD_DMP_PIN_COMMAND_DATA : Z;
  LCD_DMP_PIN_ENABLE : Z;
  (* parallel, control lines together *)
  LCD_DMP_DDR_CONTROL : Z;
  LCD_DMP_PORT_CONTROL : Z;
  (* parallel, control lines individual *)
  LCD_DMP_DDR_CSEL1 : Z;
  LCD_DMP_DDR_CSEL2 : Z;
  LCD_DMP_DDR_COMMAND_DATA : Z;
  LCD_DMP_DDR_ENABLE : Z;
  LCD_DMP_PORT_CSEL1 : Z;
  LCD_DMP_PORT_CSEL2 : Z;
  LCD_DMP_PORT_COMMAND_DATA : Z;
  LCD_DMP_PORT_ENABLE : Z;
  (* serial *)
  LCD_DMS_DDR_CLOCK : Z;
  LCD_DMS_DDR_SERIAL : Z;
  LCD_DMS_DDR_ENABLE : Z;
  LCD_DMS_PORT_CLOCK : Z;
  LCD_DMS_PORT_SERIAL : Z;
  LCD_DMS_PORT_ENABLE : Z;
  LCD_DMS_PIN_CLOCK : Z;
  LCD_DMS_PIN_SERIAL : Z;
  LCD_DMS_PIN_ENABLE : Z;
  LCD_DMS_SR_BIT_CSEL1 : Z;
  LCD_DMS_SR_BIT_CSEL2 : Z;
  LCD_DMS_SR_BIT_COMMAND_DATA : Z
}.

(** ** Hardware: output registers and the shift-register chain *)

(** [io] holds the 8-bit I/O registers (a register never written reads 0).
    [sr_shift] and [sr_out] are the sixteen shift stages and the sixteen
    output latches of the two chained shift registers of serial mode,
    stage 0 being Qa of the first register and stage 8 Qa of the second. *)
Record hardware := {
  io : gmap Z Z;
  sr_shift : list bool;
  sr_out : list bool
}.

Definition reg_read (r : Z) (h : hardware) : Z := default 0 (io h !! r).

Definition pin_level (r p : Z) (h : hardware) : bool := Z.testbit (reg_read r h) p.

(** The wiring described in the header: register clock and shift clock are
    connected together, so a rising clock edge copies the stages into the
    output latches and then shifts the level of the serial line in. *)
Definition sr_clock_edge (ser : bool) (h : hardware) : hardware :=
  {| io := io h;
     sr_shift := ser :: removelast (sr_shift h);
     sr_out := sr_shift h |}.

(** A store to an output register. In serial mode the chain reacts when the
    store raises the clock line. *)
Definition reg_write (cfg : config) (r v : Z) (h : hardware) : hardware :=
  let h' := {| io := <[r := u8 v]> (io h); sr_shift := sr_shift h; sr_out := sr_out h |} in
  match lcd_data_mode cfg with
  | LCD_DATA_MODE_SERIAL =>
      let clk := pin_level (LCD_DMS_PORT_CLOCK cfg) (LCD_DMS_PIN_CLOCK cfg) in
      if negb (clk h) && clk h'
      then sr_clock_edge (pin_level (LCD_DMS_PORT_SERIAL cfg) (LCD_DMS_PIN_SERIAL cfg) h') h'
      else h'
  | _ => h'
  end.

(** [REG |= v] and [REG &= ~v] *)
Definition reg_or (cfg : config) (r v : Z) (h : hardware) : hardware :=
  reg_write cfg r (Z.lor (reg_read r h) v) h.

Definition reg_and_not (cfg : config) (r v : Z) (h : hardware) : hardware :=
  reg_write cfg r (Z.land (reg_read r h) (Z.lnot v)) h.

Section Transport.
Context (cfg : config).

Definition LCD_TURN_ON_CLOCK : hardware -> hardware :=
  reg_or cfg (LCD_DMS_PORT_CLOCK cfg) (Z.shiftl 1 (LCD_DMS_PIN_CLOCK cfg)).
Definition LCD_TURN_OFF_CLOCK : hardware -> hardware :=
  reg_and_not cfg (LCD_DMS_PORT_CLOCK cfg) (Z.shiftl 1 (LCD_DMS_PIN_CLOCK cfg)).
Definition LCD_TURN_ON_SERIAL : hardware -> hardware :=
  reg_or cfg (LCD_DMS_PORT_SERIAL cfg) (Z.shiftl 1 (LCD_DMS_PIN_SERIAL cfg)).
Definition LCD_TURN_OFF_SERIAL : hardware -> hardware :=
  reg_and_not cfg (LCD_DMS_PORT_SERIAL cfg) (Z.shiftl 1 (LCD_DMS_PIN_SERIAL cfg)).
Definition LCD_TOGGLE_CLOCK (h : hardware) : hardware :=
  LCD_TURN_OFF_CLOCK (LCD_TURN_ON_CLOCK h).

(** One step of [uc_lcd_shift_out]:
    [if ( v & mask ) LCD_TURN_ON_SERIAL else LCD_TURN_OFF_SERIAL
     LCD_TOGGLE_CLOCK] *)
Definition shift_bit (v mask : Z) (h : hardware) : hardware :=
  LCD_TOGGLE_CLOCK
    (if Z.land v mask =? 0 then LCD_TURN_OFF_SERIAL h else LCD_TURN_ON_SERIAL h).

Definition uc_lcd_shift_out (instructions data : Z) (h : hardware) : hardware :=
  (* Three instruction bits *)
  let h := shift_bit instructions 4 h in
  let instructions := u8 (Z.shiftl instructions 1) in
  let h := shift_bit instructions 4 h in
  let instructions := u8 (Z.shiftl instructions 1) in
  let h := shift_bit instructions 4 h in
  (* 8 data bits *)
  let h := shift_bit data 128 h in
  let data := u8 (Z.shiftl data 1) in
  let h := shift_bit data 128 h in
  let data := u8 (Z.shiftl data 1) in
  let h := shift_bit data 128 h in
  let data := u8 (Z.shiftl data 1) in
  let h := shift_bit data 128 h in
  let data := u8 (Z.shiftl data 1) in
  let h := shift_bit data 128 h in
  let data := u8 (Z.shiftl data 1) in
  let h := shift_bit data 128 h in
  let data := u8 (Z.shiftl data 1) in
  let h := shift_bit data 128 h in
  let data := u8 (Z.shiftl data 1) in
  let h := shift_bit data 128 h in
  (* Additional clock pulse: stages to output latches *)
  LCD_TOGGLE_CLOCK h.

(** The register traffic of [uc_lcd_send], one branch per [#ifdef]. *)
Definition uc_lcd_send_hw (csel1 csel2 command_data data : Z) (h : hardware) : hardware :=
  match lcd_data_mode cfg with
  | LCD_DMP_CONTROL_TOGETHER =>
      let h := reg_write cfg (LCD_DMP_PORT_DATA cfg) data h in
      let h := reg_or cfg (LCD_DMP_PORT_CONTROL cfg)
                 (Z.lor (Z.lor (Z.shiftl csel1 (LCD_DMP_PIN_CSEL1 cfg))
                               (Z.shiftl csel2 (LCD_DMP_PIN_CSEL2 cfg)))
                        (Z.shiftl command_data (LCD_DMP_PIN_COMMAND_DATA cfg))) h in
      let h := reg_or cfg (LCD_DMP_PORT_CONTROL cfg) (Z.shiftl 1 (LCD_DMP_PIN_ENABLE cfg)) h in
      reg_and_not cfg (LCD_DMP_PORT_CONTROL cfg) (Z.shiftl 1 (LCD_DMP_PIN_ENABLE cfg)) h
  | LCD_DMP_CONTROL_INDIVIDUAL =>
      let h := reg_write cfg (LCD_DMP_PORT_DATA cfg) data h in
      let h := reg_or cfg (LCD_DMP_PORT_CSEL1 cfg) (Z.shiftl csel1 (LCD_DMP_PIN_CSEL1 cfg)) h in
      let h := reg_or cfg (LCD_DMP_PORT_CSEL2 cfg) (Z.shiftl csel1 (LCD_DMP_PIN_CSEL2 cfg)) h in
      let h := reg_or cfg (LCD_DMP_PORT_COMMAND_DATA cfg)
                 (Z.shiftl csel1 (LCD_DMP_PIN_COMMAND_DATA cfg)) h in
      let h := reg_or cfg (LCD_DMP_PORT_ENABLE cfg) (Z.shiftl 1 (LCD_DMP_PIN_ENABLE cfg)) h in
      reg_and_not cfg (LCD_DMP_PORT_ENABLE cfg) (Z.shiftl 1 (LCD_DMP_PIN_ENABLE cfg)) h
  | LCD_DATA_MODE_SERIAL =>
      let h := uc_lcd_shift_out
                 (u8 (Z.lor (Z.lor (Z.shiftl csel1 (LCD_DMS_SR_BIT_CSEL1 cfg))
                                   (Z.shiftl csel2 (LCD_DMS_SR_BIT_CSEL2 cfg)))
                            (Z.shiftl command_data (LCD_DMS_SR_BIT_COMMAND_DATA cfg))))
                 data h in
      let h := reg_or cfg (LCD_DMS_PORT_ENABLE cfg) (Z.shiftl 1 (LCD_DMS_PIN_ENABLE cfg)) h in
      reg_and_not cfg (LCD_DMS_PORT_ENABLE cfg) (Z.shiftl 1 (LCD_DMS_PIN_ENABLE cfg)) h
  end.

(** What the display sees on its CSEL1, CSEL2, Command/Data and DB0..DB7
    inputs: register bits in parallel mode, output latches of the chain in
    serial mode (first register = data byte, Qa = LSB; second register =
    the three control lines at their configured positions). *)
Definition bits_to_Z (bs : list bool) : Z :=
  foldr (fun (b : bool) acc => (if b then 1 else 0) + 2 * acc) 0 bs.

Definition sr_q (k : Z) (h : hardware) : bool :=
  default false (sr_out h !! Z.to_nat k).

Record lcd_lines := {
  line_csel1 : bool;
  line_csel2 : bool;
  line_command_data : bool;
  line_data : Z
}.

Definition device_lines (h : hardware) : lcd_lines :=
  match lcd_data_mode cfg with
  | LCD_DMP_CONTROL_TOGETHER =>
      {| line_csel1 := pin_level (LCD_DMP_PORT_CONTROL cfg) (LCD_DMP_PIN_CSEL1 cfg) h;
         line_csel2 := pin_level (LCD_DMP_PORT_CONTROL cfg) (LCD_DMP_PIN_CSEL2 cfg) h;
         line_command_data :=
           pin_level (LCD_DMP_PORT_CONTROL cfg) (LCD_DMP_PIN_COMMAND_DATA cfg) h;
         line_data := reg_read (LCD_DMP_PORT_DATA cfg) h |}
  | LCD_DMP_CONTROL_INDIVIDUAL =>
      {| line_csel1 := pin_level (LCD_DMP_PORT_CSEL1 cfg) (LCD_DMP_PIN_CSEL1 cfg) h;
         line_csel2 := pin_level (LCD_DMP_PORT_CSEL2 cfg) (LCD_DMP_PIN_CSEL2 cfg) h;
         line_command_data :=
           pin_level (LCD_DMP_PORT_COMMAND_DATA cfg) (LCD_DMP_PIN_COMMAND_DATA cfg) h;
         line_data := reg_read (LCD_DMP_PORT_DATA cfg) h |}
  | LCD_DATA_MODE_SERIAL =>
      {| line_csel1 := sr_q (8 + LCD_DMS_SR_BIT_CSEL1 cfg) h;
         line_csel2 := sr_q (8 + LCD_DMS_SR_BIT_CSEL2 cfg) h;
         line_command_data := sr_q (8 + LCD_DMS_SR_BIT_COMMAND_DATA cfg) h;
         line_data := bits_to_Z (take 8 (sr_out h)) |}
  end.
End Transport.

(** ** Driver state: the globals of the header *)

(** One call of [uc_lcd_send], as the layers above the transport see it. *)
Record transfer := {
  t_csel1 : Z;
  t_csel2 : Z;
  t_command_data : Z;   (* Command = 0 (LOW), Data = 1 (HIGH) *)
  t_data : Z
}.

(** Both groups of mode-specific variables are kept; each is touched in its
    own mode only. [sent] is a history variable: the calls of [uc_lcd_send]
    so far, oldest first. *)
Record lcd_state := {
  uc_lcd_buffer : list Z;
  uc_lcd_inverted : Z;
  uc_lcd_current_column_chip1 : Z;
  uc_lcd_current_column_chip2 : Z;
  uc_lcd_current_page_chip1 : Z;
  uc_lcd_current_page_chip2 : Z;
  uc_lcd_grouped_pixel_actions_level : Z;
  uc_lcd_data_changed : Z;
  hw : hardware;
  sent : list transfer
}.

Definition set_buffer (b : list Z) (st : lcd_state) : lcd_state :=
  {| uc_lcd_buffer := b;
     uc_lcd_inverted := uc_lcd_inverted st;
     uc_lcd_current_column_chip1 := uc_lcd_current_column_chip1 st;
     uc_lcd_current_column_chip2 := uc_lcd_current_column_chip2 st;
     uc_lcd_current_page_chip1 := uc_lcd_current_page_chip1 st;
     uc_lcd_current_page_chip2 := uc_lcd_current_page_chip2 st;
     uc_lcd_grouped_pixel_actions_level := uc_lcd_grouped_pixel_actions_level st;
     uc_lcd_data_changed := uc_lcd_data_changed st;
     hw := hw st;
     sent := sent st |}.

Definition set_inverted (v : Z) (st : lcd_state) : lcd_state :=
  {| uc_lcd_buffer := uc_lcd_buffer st;
     uc_lcd_inverted := v;
     uc_lcd_current_column_chip1 := uc_lcd_current_column_chip1 st;
     uc_lcd_current_column_chip2 := uc_lcd_current_column_chip2 st;
     uc_lcd_current_page_chip1 := uc_lcd_current_page_chip1 st;
     uc_lcd_current_page_chip2 := uc_lcd_current_page_chip2 st;
     uc_lcd_grouped_pixel_actions_level := uc_lcd_grouped_pixel_actions_level st;
     uc_lcd_data_changed := uc_lcd_data_changed st;
     hw := hw st;
     sent := sent st |}.

Definition set_current_column_chip1 (v : Z) (st : lcd_state) : lcd_state :=
  {| uc_lcd_buffer := uc_lcd_buffer st;
     uc_lcd_inverted := uc_lcd_inverted st;
     uc_lcd_current_column_chip1 := v;
     uc_lcd_current_column_chip2 := uc_lcd_current_column_chip2 st;
     uc_lcd_current_page_chip1 := uc_lcd_current_page_chip1 st;
     uc_lcd_current_page_chip2 := uc_lcd_current_page_chip2 st;
     uc_lcd_grouped_pixel_actions_level := uc_lcd_grouped_pixel_actions_level st;
     uc_lcd_data_changed := uc_lcd_data_changed st;
     hw := hw st;
     sent := sent st |}.

Definition set_current_column_chip2 (v : Z) (st : lcd_state) : lcd_state :=
  {| uc_lcd_buffer := uc_lcd_buffer st;
     uc_lcd_inverted := uc_lcd_inverted st;
     uc_lcd_current_column_chip1 := uc_lcd_current_column_chip1 st;
     uc_lcd_current_column_chip2 := v;
     uc_lcd_current_page_chip1 := uc_lcd_current_page_chip1 st;
     uc_lcd_current_page_chip2 := uc_lcd_current_page_chip2 st;
     uc_lcd_grouped_pixel_actions_level := uc_lcd_grouped_pixel_actions_level st;
     uc_lcd_data_changed := uc_lcd_data_changed st;
     hw := hw st;
     sent := sent st |}.

Definition set_current_page_chip1 (v : Z) (st : lcd_state) : lcd_state :=
  {| uc_lcd_buffer := uc_lcd_buffer st;
     uc_lcd_inverted := uc_lcd_inverted st;
     uc_lcd_current_column_chip1 := uc_lcd_current_column_chip1 st;
     uc_lcd_current_column_chip2 := uc_lcd_current_column_chip2 st;
     uc_lcd_current_page_chip1 := v;
     uc_lcd_current_page_chip2 := uc_lcd_current_page_chip2 st;
     uc_lcd_grouped_pixel_actions_level := uc_lcd_grouped_pixel_actions_level st;
     uc_lcd_data_changed := uc_lcd_data_changed st;
     hw := hw st;
     sent := sent st |}.

Definition set_current_page_chip2 (v : Z) (st : lcd_state) : lcd_state :=
  {| uc_lcd_buffer := uc_lcd_buffer st;
     uc_lcd_inverted := uc_lcd_inverted st;
     uc_lcd_current_column_chip1 := uc_lcd_current_column_chip1 st;
     uc_lcd_current_column_chip2 := uc_lcd_current_column_chip2 st;
     uc_lcd_current_page_chip1 := uc_lcd_current_page_chip1 st;
     uc_lcd_current_page_chip2 := v;
     uc_lcd_grouped_pixel_actions_level := uc_lcd_grouped_pixel_actions_level st;
     uc_lcd_data_changed := uc_lcd_data_changed st;
     hw := hw st;
     sent := sent st |}.

Definition set_grouped_pixel_actions_level (v : Z) (st : lcd_state) : lcd_state :=
  {| uc_lcd_buffer := uc_lcd_buffer st;
     uc_lcd_inverted := uc_lcd_inverted st;
     uc_lcd_current_column_chip1 := uc_lcd_current_column_chip1 st;
     uc_lcd_current_column_chip2 := uc_lcd_current_column_chip2 st;
     uc_lcd_current_page_chip1 := uc_lcd_current_page_chip1 st;
     uc_lcd_current_page_chip2 := uc_lcd_current_page_chip2 st;
     uc_lcd_grouped_pixel_actions_level := v;
     uc_lcd_data_changed := uc_lcd_data_changed st;
     hw := hw st;
     sent := sent st |}.

Definition set_data_changed (v : Z) (st : lcd_state) : lcd_state :=
  {| uc_lcd_buffer := uc_lcd_buffer st;
     uc_lcd_inverted := uc_lcd_inverted st;
     uc_lcd_current_column_chip1 := uc_lcd_current_column_chip1 st;
     uc_lcd_current_column_chip2 := uc_lcd_current_column_chip2 st;
     uc_lcd_current_page_chip1 := uc_lcd_current_page_chip1 st;
     uc_lcd_current_page_chip2 := uc_lcd_current_page_chip2 st;
     uc_lcd_grouped_pixel_actions_level := uc_lcd_grouped_pixel_actions_level st;
     uc_lcd_data_changed := v;
     hw := hw st;
     sent := sent st |}.

Definition set_hw_logged (h : hardware) (t : transfer) (st : lcd_state) : lcd_state :=
  {| uc_lcd_buffer := uc_lcd_buffer st;
     uc_lcd_inverted := uc_lcd_inverted st;
     uc_lcd_current_column_chip1 := uc_lcd_current_column_chip1 st;
     uc_lcd_current_column_chip2 := uc_lcd_current_column_chip2 st;
     uc_lcd_current_page_chip1 := uc_lcd_current_page_chip1 st;
     uc_lcd_current_page_chip2 := uc_lcd_current_page_chip2 st;
     uc_lcd_grouped_pixel_actions_level := uc_lcd_grouped_pixel_actions_level st;
     uc_lcd_data_changed := uc_lcd_data_changed st;
     hw := h;
     sent := sent st ++ [t] |}.

Definition set_hw (h : hardware) (st : lcd_state) : lcd_state :=
  {| uc_lcd_buffer := uc_lcd_buffer st;
     uc_lcd_inverted := uc_lcd_inverted st;
     uc_lcd_current_column_chip1 := uc_lcd_current_column_chip1 st;
     uc_lcd_current_column_chip2 := uc_lcd_current_column_chip2 st;
     uc_lcd_current_page_chip1 := uc_lcd_current_page_chip1 st;
     uc_lcd_current_page_chip2 := uc_lcd_current_page_chip2 st;
     uc_lcd_grouped_pixel_actions_level := uc_lcd_grouped_pixel_actions_level st;
     uc_lcd_data_changed := uc_lcd_data_changed st;
     hw := h;
     sent := sent st |}.

(** [uc_lcd_buffer[i]] as an rvalue and as an lvalue. Every index the
    driver computes is below 1024, the size of the array. *)
Definition buf_get (b : list Z) (i : Z) : Z := default 0 (b !! Z.to_nat i).
Definition buf_set (b : list Z) (i v : Z) : list Z := <[Z.to_nat i := u8 v]> b.

(** [for ( i = 0; i < n; i++ ) body] *)
Definition for_loop {S : Type} (n : nat) (body : Z -> S -> S) (s : S) : S :=
  foldl (fun s i => body (Z.of_nat i) s) s (seq 0 n).

(** ** The driver functions *)

Section Driver.
Context (cfg : config).

Definition uc_lcd_send (csel1 csel2 command_data data : Z) (st : lcd_state) : lcd_state :=
  set_hw_logged (uc_lcd_send_hw cfg csel1 csel2 command_data data (hw st))
    {| t_csel1 := csel1; t_csel2 := csel2; t_command_data := command_data; t_data := data |}
    st.

Definition uc_lcd_turn_on : lcd_state -> lcd_state := uc_lcd_send 1 1 0 0x3F.

Definition uc_lcd_turn_off : lcd_state -> lcd_state := uc_lcd_send 1 1 0 0x3E.

Definition uc_lcd_set_startline (startline : Z) : lcd_state -> lcd_state :=
  uc_lcd_send 1 1 0 (Z.lor 0xC0 startline).

Definition uc_lcd_set_page_chip_1 (page : Z) (st : lcd_state) : lcd_state :=
  match lcd_mode cfg with
  | LCD_MODE_IMMEDIATE =>
      if negb (page =? uc_lcd_current_page_chip1 st) then
        let st := uc_lcd_send 1 0 0 (Z.lor 0xB8 (Z.land page 0x07)) st in
        set_current_page_chip1 page st
      else st
  | LCD_MODE_BUFFERED =>
      uc_lcd_send 1 0 0 (Z.lor 0xB8 (Z.land page 0x07)) st
  end.

Definition uc_lcd_set_page_chip_2 (page : Z) (st : lcd_state) : lcd_state :=
  match lcd_mode cfg with
  | LCD_MODE_IMMEDIATE =>
      if negb (page =? uc_lcd_current_page_chip2 st) then
        let st := uc_lcd_send 0 1 0 (Z.lor 0xB8 (Z.land page 0x07)) st in
        set_current_page_chip2 page st
      else st
  | LCD_MODE_BUFFERED =>
      uc_lcd_send 0 1 0 (Z.lor 0xB8 (Z.land page 0x07)) st
  end.

(** The guard reads [uc_lcd_current_page_chip1], as the source does. *)
Definition uc_lcd_set_column_chip_1 (column : Z) (st : lcd_state) : lcd_state :=
  match lcd_mode cfg with
  | LCD_MODE_IMMEDIATE =>
      if negb (column =? uc_lcd_current_page_chip1 st) then
        let st := uc_lcd_send 1 0 0 (Z.lor 0x40 (Z.land column 0x3F)) st in
        set_current_column_chip1 column st
      else st
  | LCD_MODE_BUFFERED =>
      uc_lcd_send 1 0 0 (Z.lor 0x40 (Z.land column 0x3F)) st
  end.

(** The guard reads [uc_lcd_current_page_chip2], as the source does. *)
Definition uc_lcd_set_column_chip_2 (column : Z) (st : lcd_state) : lcd_state :=
  match lcd_mode cfg with
  | LCD_MODE_IMMEDIATE =>
      if negb (column =? uc_lcd_current_page_chip2 st) then
        let st := uc_lcd_send 0 1 0 (Z.lor 0x40 (Z.land column 0x3F)) st in
        set_current_column_chip2 column st
      else st
  | LCD_MODE_BUFFERED =>
      uc_lcd_send 0 1 0 (Z.lor 0x40 (Z.land column 0x3F)) st
  end.

Definition uc_lcd_write_chip1 (data : Z) (st : lcd_state) : lcd_state :=
  let st := uc_lcd_send 1 0 1 data st in
  match lcd_mode cfg with
  | LCD_MODE_IMMEDIATE =>
      set_current_column_chip1 (u8 ((uc_lcd_current_column_chip1 st + 1) mod 64)) st
  | LCD_MODE_BUFFERED => st
  end.

Definition uc_lcd_write_chip2 (data : Z) (st : lcd_state) : lcd_state :=
  let st := uc_lcd_send 0 1 1 data st in
  match lcd_mode cfg with
  | LCD_MODE_IMMEDIATE =>
      set_current_column_chip2 (u8 ((uc_lcd_current_column_chip2 st + 1) mod 64)) st
  | LCD_MODE_BUFFERED => st
  end.

Definition uc_lcd_write (csel1 csel2 data : Z) (st : lcd_state) : lcd_state :=
  let st := uc_lcd_send csel1 csel2 1 data st in
  match lcd_mode cfg with
  | LCD_MODE_IMMEDIATE =>
      let st := if csel1 =? 0 then st else
        set_current_column_chip1 (u8 ((uc_lcd_current_column_chip1 st + 1) mod 64)) st in
      if csel2 =? 0 then st else
        set_current_column_chip2 (u8 ((uc_lcd_current_column_chip2 st + 1) mod 64)) st
  | LCD_MODE_BUFFERED => st
  end.

(** The inner loop of [uc_lcd_send_buffer_to_lcd]; the local [index] is
    threaded through together with the state. *)
Definition send_page_columns (csel1 csel2 : Z) (s : Z * lcd_state) : Z * lcd_state :=
  for_loop 64
    (fun (column : Z) '(index, st) =>
       (index + 1, uc_lcd_send csel1 csel2 1 (buf_get (uc_lcd_buffer st) index) st))
    s.

Definition uc_lcd_send_buffer_to_lcd (st : lcd_state) : lcd_state :=
  let index := 0 in
  let st := uc_lcd_set_column_chip_1 0 st in
  let '(index, st) :=
    for_loop 8
      (fun (page : Z) '(index, st) =>
         send_page_columns 1 0 (index, uc_lcd_set_page_chip_1 page st))
      (index, st) in
  let st := uc_lcd_set_column_chip_2 0 st in
  let '(index, st) :=
    for_loop 8
      (fun (page : Z) '(index, st) =>
         send_page_columns 0 1 (index, uc_lcd_set_page_chip_2 page st))
      (index, st) in
  (* Reset page *)
  let st := uc_lcd_set_page_chip_1 0 st in
  uc_lcd_set_page_chip_2 0 st.

(** Buffered mode only. *)
Definition uc_lcd_flush (st : lcd_state) : lcd_state :=
  if negb (uc_lcd_data_changed st =? 0) then
    let st := uc_lcd_send_buffer_to_lcd st in
    set_data_changed 0 st
  else st.

Definition uc_lcd_is_inverted (st : lcd_state) : Z := uc_lcd_inverted st.

(** The mode-dependent tail shared by the global operations: full send
    in immediate mode, changed flag in buffered mode. *)
Definition refresh_per_mode (st : lcd_state) : lcd_state :=
  match lcd_mode cfg with
  | LCD_MODE_IMMEDIATE => uc_lcd_send_buffer_to_lcd st
  | LCD_MODE_BUFFERED => set_data_changed 1 st
  end.

Definition uc_lcd_set_inverted (invert : Z) (st : lcd_state) : lcd_state :=
  if negb (invert =? uc_lcd_inverted st) then
    let st :=
      for_loop 1024
        (fun i st =>
           set_buffer (buf_set (uc_lcd_buffer st) i (Z.lnot (buf_get (uc_lcd_buffer st) i))) st)
        st in
    let st := set_inverted invert st in
    refresh_per_mode st
  else st.

Definition uc_lcd_clear (st : lcd_state) : lcd_state :=
  let st :=
    if negb (uc_lcd_inverted st =? 0) then
      for_loop 1024 (fun i st => set_buffer (buf_set (uc_lcd_buffer st) i 0xFF) st) st
    else
      for_loop 1024 (fun i st => set_buffer (buf_set (uc_lcd_buffer st) i 0x00) st) st in
  refresh_per_mode st.

Definition uc_lcd_fill (st : lcd_state) : lcd_state :=
  let st :=
    if negb (uc_lcd_inverted st =? 0) then
      for_loop 1024 (fun i st => set_buffer (buf_set (uc_lcd_buffer st) i 0x00) st) st
    else
      for_loop 1024 (fun i st => set_buffer (buf_set (uc_lcd_buffer st) i 0xFF) st) st in
  refresh_per_mode st.

(** Immediate mode only. *)
Definition uc_lcd_enter_grouped_pixel_changes (st : lcd_state) : lcd_state :=
  set_grouped_pixel_actions_level (u8 (uc_lcd_grouped_pixel_actions_level st + 1)) st.

Definition uc_lcd_leave_grouped_pixel_changes (st : lcd_state) : lcd_state :=
  let st := set_grouped_pixel_actions_level (u8 (uc_lcd_grouped_pixel_actions_level st - 1)) st in
  if uc_lcd_grouped_pixel_actions_level st =? 0 then uc_lcd_send_buffer_to_lcd st else st.

(** The body of [uc_lcd_set_pixel] on the values of its three [uint8_t]
    parameters, numbers in [0, 256). An [int] argument is converted to
    [uint8_t] by the call, before the body runs. *)
Definition uc_lcd_set_pixel (x y pixel : Z) (st : lcd_state) : lcd_state :=
  if x >? 127 then st else
  if y >? 63 then st else
  let chip_1 := x <? 64 in
  let column := x mod 64 in
  let page := y / 8 in
  let bit := y mod 8 in
  let buffer_index := column + (page * 64) in
  let buffer_index := if negb chip_1 then buffer_index + 512 else buffer_index in
  let data := buf_get (uc_lcd_buffer st) buffer_index in
  let data :=
    if negb (uc_lcd_inverted st =? 0) then
      if negb (pixel =? 0) then u8 (Z.land data (Z.lnot (Z.shiftl 1 bit)))
      else u8 (Z.lor data (Z.shiftl 1 bit))
    else
      if negb (pixel =? 0) then u8 (Z.lor data (Z.shiftl 1 bit))
      else u8 (Z.land data (Z.lnot (Z.shiftl 1 bit))) in
  let st := set_buffer (buf_set (uc_lcd_buffer st) buffer_index data) st in
  match lcd_mode cfg with
  | LCD_MODE_BUFFERED => set_data_changed 1 st
  | LCD_MODE_IMMEDIATE =>
      if uc_lcd_grouped_pixel_actions_level st =? 0 then
        if chip_1 then
          let st := uc_lcd_set_page_chip_1 page st in
          let st := uc_lcd_set_column_chip_1 column st in
          uc_lcd_write_chip1 data st
        else
          let st := uc_lcd_set_page_chip_2 page st in
          let st := uc_lcd_set_column_chip_2 column st in
          uc_lcd_write_chip2 data st
      else st
  end.

Definition uc_lcd_reset (st : lcd_state) : lcd_state :=
  let st := uc_lcd_set_inverted 0 st in
  let st := uc_lcd_set_startline 0 st in
  let st := uc_lcd_set_page_chip_1 0 st in
  let st := uc_lcd_set_page_chip_2 0 st in
  let st := uc_lcd_set_column_chip_1 0 st in
  let st := uc_lcd_set_column_chip_2 0 st in
  let st :=
    match lcd_mode cfg with
    | LCD_MODE_IMMEDIATE => set_grouped_pixel_actions_level 0 st
    | LCD_MODE_BUFFERED => st
    end in
  let st := uc_lcd_clear st in
  match lcd_mode cfg with
  | LCD_MODE_BUFFERED => uc_lcd_flush st
  | LCD_MODE_IMMEDIATE => st
  end.

(** Data direction registers, then all output levels LOW, then reset. *)
Definition uc_lcd_init_hw (h : hardware) : hardware :=
  match lcd_data_mode cfg with
  | LCD_DMP_CONTROL_TOGETHER =>
      let h := reg_write cfg (LCD_DMP_DDR_DATA cfg) 0xFF h in
      let h := reg_or cfg (LCD_DMP_DDR_CONTROL cfg)
                 (Z.lor (Z.lor (Z.lor (Z.shiftl 1 (LCD_DMP_PIN_CSEL1 cfg))
                                      (Z.shiftl 1 (LCD_DMP_PIN_CSEL2 cfg)))
                               (Z.shiftl 1 (LCD_DMP_PIN_COMMAND_DATA cfg)))
                        (Z.shiftl 1 (LCD_DMP_PIN_ENABLE cfg))) h in
      let h := reg_write cfg (LCD_DMP_PORT_DATA cfg) 0x00 h in
      reg_and_not cfg (LCD_DMP_PORT_CONTROL cfg)
        (Z.lor (Z.lor (Z.lor (Z.shiftl 1 (LCD_DMP_PIN_CSEL1 cfg))
                             (Z.shiftl 1 (LCD_DMP_PIN_CSEL2 cfg)))
                      (Z.shiftl 1 (LCD_DMP_PIN_COMMAND_DATA cfg)))
               (Z.shiftl 1 (LCD_DMP_PIN_ENABLE cfg))) h
  | LCD_DMP_CONTROL_INDIVIDUAL =>
      let h := reg_write cfg (LCD_DMP_DDR_DATA cfg) 0xFF h in
      let h := reg_or cfg (LCD_DMP_DDR_CSEL1 cfg) (Z.shiftl 1 (LCD_DMP_PIN_CSEL1 cfg)) h in
      let h := reg_or cfg (LCD_DMP_DDR_CSEL2 cfg) (Z.shiftl 1 (LCD_DMP_PIN_CSEL2 cfg)) h in
      let h := reg_or cfg (LCD_DMP_DDR_COMMAND_DATA cfg)
                 (Z.shiftl 1 (LCD_DMP_PIN_COMMAND_DATA cfg)) h in
      let h := reg_or cfg (LCD_DMP_DDR_ENABLE cfg) (Z.shiftl 1 (LCD_DMP_PIN_ENABLE cfg)) h in
      let h := reg_write cfg (LCD_DMP_PORT_DATA cfg) 0x00 h in
      let h := reg_and_not cfg (LCD_DMP_PORT_CSEL1 cfg) (Z.shiftl 1 (LCD_DMP_PIN_CSEL1 cfg)) h in
      let h := reg_and_not cfg (LCD_DMP_PORT_CSEL2 cfg) (Z.shiftl 1 (LCD_DMP_PIN_CSEL2 cfg)) h in
      let h := reg_and_not cfg (LCD_DMP_PORT_COMMAND_DATA cfg)
                 (Z.shiftl 1 (LCD_DMP_PIN_COMMAND_DATA cfg)) h in
      reg_and_not cfg (LCD_DMP_PORT_ENABLE cfg) (Z.shiftl 1 (LCD_DMP_PIN_ENABLE cfg)) h
  | LCD_DATA_MODE_SERIAL =>
      let h := reg_or cfg (LCD_DMS_DDR_CLOCK cfg) (Z.shiftl 1 (LCD_DMS_PIN_CLOCK cfg)) h in
      let h := reg_or cfg (LCD_DMS_DDR_SERIAL cfg) (Z.shiftl 1 (LCD_DMS_PIN_SERIAL cfg)) h in
      let h := reg_or cfg (LCD_DMS_DDR_ENABLE cfg) (Z.shiftl 1 (LCD_DMS_PIN_ENABLE cfg)) h in
      let h := reg_and_not cfg (LCD_DMS_PORT_CLOCK cfg) (Z.shiftl 1 (LCD_DMS_PIN_CLOCK cfg)) h in
      let h := reg_and_not cfg (LCD_DMS_PORT_SERIAL cfg) (Z.shiftl 1 (LCD_DMS_PIN_SERIAL cfg)) h in
      reg_and_not cfg (LCD_DMS_PORT_ENABLE cfg) (Z.shiftl 1 (LCD_DMS_PIN_ENABLE cfg)) h
  end.

Definition uc_lcd_init (st : lcd_state) : lcd_state :=
  uc_lcd_reset (set_hw (uc_lcd_init_hw (hw st)) st).
End Driver.

(** ** Rectangles of [library/uc-graphics/graphics.h] *)

Section Graphics.
Context (cfg : config).

(** [LCD_API_SET_PIXEL(x, y, pixel)] is [uc_lcd_set_pixel(x, y, pixel)]; the
    [int] arguments the callers compute are converted to its [uint8_t]
    parameters. *)
Definition LCD_API_SET_PIXEL (x y pixel : Z) (st : lcd_state) : lcd_state :=
  uc_lcd_set_pixel cfg (u8 x) (u8 y) (u8 pixel) st.

Definition uc_graphics_draw_rect (x y width height pixel : Z) (st : lcd_state) : lcd_state :=
  if (width >? 1) && (height >? 1) then
    let right_x := u8 (x + width - 1) in
    let bottom_y := u8 (y + height - 1) in
    let st := for_loop (Z.to_nat width) (fun i st => LCD_API_SET_PIXEL (x + i) y pixel st) st in
    let st := for_loop (Z.to_nat height) (fun i st => LCD_API_SET_PIXEL x (y + i) pixel st) st in
    let st :=
      for_loop (Z.to_nat height) (fun i st => LCD_API_SET_PIXEL right_x (y + i) pixel st) st in
    for_loop (Z.to_nat width) (fun i st => LCD_API_SET_PIXEL (x + i) bottom_y pixel st) st
  else if (width =? 1) && (height >? 1) then
    for_loop (Z.to_nat height) (fun i st => LCD_API_SET_PIXEL x (y + i) pixel st) st
  else if (height =? 1) && (width >? 1) then
    for_loop (Z.to_nat width) (fun i st => LCD_API_SET_PIXEL (x + i) y pixel st) st
  else if (width =? 1) && (height =? 1) then
    LCD_API_SET_PIXEL x y pixel st
  else st.

Definition uc_graphics_fill_rect (x y width height pixel : Z) (st : lcd_state) : lcd_state :=
  if (width >? 1) && (height >? 1) then
    for_loop (Z.to_nat height)
      (fun j st =>
         for_loop (Z.to_nat width) (fun i st => LCD_API_SET_PIXEL (x + i) (y + j) pixel st) st)
      st
  else if (width =? 1) && (height >? 1) then
    for_loop (Z.to_nat height) (fun i st => LCD_API_SET_PIXEL x (y + i) pixel st) st
  else if (height =? 1) && (width >? 1) then
    for_loop (Z.to_nat width) (fun i st => LCD_API_SET_PIXEL (x + i) y pixel st) st
  else if (width =? 1) && (height =? 1) then
    LCD_API_SET_PIXEL x y pixel st
  else st.
End Graphics.

(** ** Bitmap images of [library/uc-graphics/images.h] *)

Definition u16 (z : Z) : Z := z mod 65536.

(** An image in program memory is its bytes: settings, width, height, then
    the pixels, least significant bit first. Reading past the end of the
    array is not something the driver does on a well-formed image; here it
    gives 0. *)
Definition pgm_read_byte (progmem : list Z) (i : Z) : Z := default 0 (progmem !! Z.to_nat i).

Definition UC_IMG_SETTINGS_BIT_HV_MASK : Z := Z.shiftl 1 5.
Definition UC_IMG_SETTINGS_BIT_VH_MASK : Z := Z.shiftl 1 4.

Definition uc_images_get_settings (progmem_img : list Z) : Z := pgm_read_byte progmem_img 0.
Definition uc_images_get_width (progmem_img : list Z) : Z := pgm_read_byte progmem_img 1.
Definition uc_images_get_height (progmem_img : list Z) : Z := pgm_read_byte progmem_img 2.

(** The locals of [uc_images_draw] that live across loop iterations, and
    the display state. *)
Record image_cursor := {
  byte_index : Z;
  current_x : Z;
  current_y : Z;
  current_byte : Z;
  cursor_lcd : lcd_state
}.

Section Images.
Context (cfg : config).

(** The part of the loop body both pixel orders share: fetch a byte every
    eighth pixel, draw the pixel under bit 0, shift the byte. The result
    still has the coordinates of the pixel just drawn. *)
Definition draw_next_pixel (draw_white_pixels : Z) (progmem_img : list Z) (i : Z)
    (c : image_cursor) : image_cursor :=
  let '(byte_index, current_byte) :=
    if i mod 8 =? 0
    then (u16 (byte_index c + 1), pgm_read_byte progmem_img (byte_index c))
    else (byte_index c, current_byte c) in
  let pixel := Z.land current_byte 0x01 in
  let st :=
    if negb (pixel =? 0) then LCD_API_SET_PIXEL cfg (current_x c) (current_y c) 1 (cursor_lcd c)
    else if negb (draw_white_pixels =? 0)
         then LCD_API_SET_PIXEL cfg (current_x c) (current_y c) 0 (cursor_lcd c)
         else cursor_lcd c in
  {| byte_index := byte_index;
     current_x := current_x c;
     current_y := current_y c;
     current_byte := u8 (Z.shiftr current_byte 1);
     cursor_lcd := st |}.

Definition uc_images_draw (x y draw_white_pixels : Z) (progmem_img : list Z)
    (st : lcd_state) : lcd_state :=
  let settings := pgm_read_byte progmem_img 0 in
  let width := pgm_read_byte progmem_img 1 in
  let height := pgm_read_byte progmem_img 2 in
  let wh := u16 (width * height) in
  let c := {| byte_index := 3; current_x := x; current_y := y; current_byte := 0;
              cursor_lcd := st |} in
  if negb (Z.land settings UC_IMG_SETTINGS_BIT_HV_MASK =? 0) then
    cursor_lcd
      (for_loop (Z.to_nat wh)
         (fun i c =>
            let c := draw_next_pixel draw_white_pixels progmem_img i c in
            let current_x := u8 (current_x c + 1) in
            if current_x - x =? width
            then {| byte_index := byte_index c; current_x := u8 (current_x - width);
                    current_y := u8 (current_y c + 1); current_byte := current_byte c;
                    cursor_lcd := cursor_lcd c |}
            else {| byte_index := byte_index c; current_x := current_x;
                    current_y := current_y c; current_byte := current_byte c;
                    cursor_lcd := cursor_lcd c |})
         c)
  else if negb (Z.land settings UC_IMG_SETTINGS_BIT_VH_MASK =? 0) then
    cursor_lcd
      (for_loop (Z.to_nat wh)
         (fun i c =>
            let c := draw_next_pixel draw_white_pixels progmem_img i c in
            let current_y := u8 (current_y c + 1) in
            if current_y - y =? height
            then {| byte_index := byte_index c; current_x := u8 (current_x c + 1);
                    current_y := y; current_byte := current_byte c;
                    cursor_lcd := cursor_lcd c |}
            else {| byte_index := byte_index c; current_x := current_x c;
                    current_y := current_y; current_byte := current_byte c;
                    cursor_lcd := cursor_lcd c |})
         c)
  else st.
End Images.

(** Pixel number [n] of an image, in the order the pixels are stored. *)
Definition image_bit (progmem_img : list Z) (n : Z) : bool :=
  Z.testbit (pgm_read_byte progmem_img (3 + n / 8)) (n mod 8).

(** What drawing one image pixel does to a pixel of the display. *)
Definition drawn_over (draw_white_pixels : Z) (bit old : bool) : bool :=
  if bit then true else if negb (draw_white_pixels =? 0) then false else old.

(** ** Notions of the specification *)

(** AddressMapping, as the specification words it:
    [column = x mod 64], [page = y / 8], [bit = y mod 8],
    [index = column + page*64 + (chip==2 ? 512 : 0)], chip 2 being [x >= 64]. *)
Definition address_index (x y : Z) : Z :=
  x mod 64 + (y / 8) * 64 + (if 64 <=? x then 512 else 0).

Definition address_bit (y : Z) : Z := y mod 8.

(** The logical value of pixel (x, y): its stored bit, complemented when the
    inversion flag is set. *)
Definition logical_pixel (st : lcd_state) (x y : Z) : bool :=
  xorb (Z.testbit (buf_get (uc_lcd_buffer st) (address_index x y)) (address_bit y))
       (negb (uc_lcd_inverted st =? 0)).

(** The display-data transfers among a sequence of transfers. *)
Definition data_transfers (tr : list transfer) : list transfer :=
  filter (fun t => t_command_data t <> 0) tr.

Definition data_to (csel1 csel2 : Z) (b : Z) : transfer :=
  {| t_csel1 := csel1; t_csel2 := csel2; t_command_data := 1; t_data := b |}.

(** The payload of one transmission of the whole buffer: bytes [0,512) as
    data for chip 1, then bytes [512,1024) as data for chip 2. *)
Definition buffer_payload (b : list Z) : list transfer :=
  (data_to 1 0 <$> take 512 b) ++ (data_to 0 1 <$> drop 512 b).

(** A byte array of the size of [uc_lcd_buffer]. *)
Definition buffer_ok (b : list Z) : Prop :=
  length b = 1024%nat /\ Forall (fun v => 0 <= v < 256) b.

(** ** Sample configurations and the start-up state *)

Definition power_on_hw : hardware :=
  {| io := ∅; sr_shift := replicate 16 false; sr_out := replicate 16 false |}.

(** C globals are zero-initialised. *)
Definition power_on : lcd_state :=
  {| uc_lcd_buffer := replicate 1024 0;
     uc_lcd_inverted := 0;
     uc_lcd_current_column_chip1 := 0;
     uc_lcd_current_column_chip2 := 0;
     uc_lcd_current_page_chip1 := 0;
     uc_lcd_current_page_chip2 := 0;
     uc_lcd_grouped_pixel_actions_level := 0;
     uc_lcd_data_changed := 0;
     hw := power_on_hw;
     sent := [] |}.

(** Registers 0..4 stand for five distinct PORTx registers, 10..14 for the
    matching DDRx registers. *)
Definition sample_config (m : draw_mode) (d : data_mode) : config :=
  {| lcd_mode := m;
     lcd_data_mode := d;
     LCD_DMP_DDR_DATA := 10;
     LCD_DMP_PORT_DATA := 0;
     LCD_DMP_PIN_CSEL1 := 0;
     LCD_DMP_PIN_CSEL2 := 1;
     LCD_DMP_PIN_COMMAND_DATA := 2;
     LCD_DMP_PIN_ENABLE := 3;
     LCD_DMP_DDR_CONTROL := 11;
     LCD_DMP_PORT_CONTROL := 1;
     LCD_DMP_DDR_CSEL1 := 11;
     LCD_DMP_DDR_CSEL2 := 12;
     LCD_DMP_DDR_COMMAND_DATA := 13;
     LCD_DMP_DDR_ENABLE := 14;
     LCD_DMP_PORT_CSEL1 := 1;
     LCD_DMP_PORT_CSEL2 := 2;
     LCD_DMP_PORT_COMMAND_DATA := 3;
     LCD_DMP_PORT_ENABLE := 4;
     LCD_DMS_DDR_CLOCK := 11;
     LCD_DMS_DDR_SERIAL := 11;
     LCD_DMS_DDR_ENABLE := 11;
     LCD_DMS_PORT_CLOCK := 1;
     LCD_DMS_PORT_SERIAL := 1;
     LCD_DMS_PORT_ENABLE := 1;
     LCD_DMS_PIN_CLOCK := 0;
     LCD_DMS_PIN_SERIAL := 1;
     LCD_DMS_PIN_ENABLE := 2;
     LCD_DMS_SR_BIT_CSEL1 := 0;
     LCD_DMS_SR_BIT_CSEL2 := 1;
     LCD_DMS_SR_BIT_COMMAND_DATA := 2 |}.

Definition buffered_config : config := sample_config LCD_MODE_BUFFERED LCD_DMP_CONTROL_TOGETHER.
Definition immediate_config : config := sample_config LCD_MODE_IMMEDIATE LCD_DMP_CONTROL_TOGETHER.

(** ** Notions used in the statements *)

(** [emits st st' tr]: from [st] to [st'] exactly the transfers [tr] were
    sent, and the frame buffer, the inversion flag, the grouping level and
    the changed flag are as before. *)
Definition emits (st st' : lcd_state) (tr : list transfer) : Prop :=
  sent st' = sent st ++ tr /\
  uc_lcd_buffer st' = uc_lcd_buffer st /\
  uc_lcd_inverted st' = uc_lcd_inverted st /\
  uc_lcd_grouped_pixel_actions_level st' = uc_lcd_grouped_pixel_actions_level st /\
  uc_lcd_data_changed st' = uc_lcd_data_changed st.

(** The page and column setters send at most one transfer, a command. *)
Definition command_step (f : lcd_state -> lcd_state) : Prop :=
  forall st, exists tr, emits st (f st) tr /\ data_transfers tr = [].

(** A run of [set_pixel] calls, as a drawing routine issues them. *)
Definition set_pixels (cfg : config) (ps : list (Z * Z * Z)) (st : lcd_state) : lcd_state :=
  foldl (fun st '(x, y, pixel) => uc_lcd_set_pixel cfg x y pixel st) st ps.

(** [grouped_from st0 n st]: [st] is [st0] but for the frame-buffer bytes and
    a grouping level of [n]. *)
Definition grouped_from (st0 : lcd_state) (n : Z) (st : lcd_state) : Prop :=
  exists b, st = set_grouped_pixel_actions_level n (set_buffer b st0) /\
            length b = length (uc_lcd_buffer st0).

(** What a page or column setter may send: in buffered mode exactly the
    command [t], in immediate mode that command or, when the address cache
    suppresses it, nothing. *)
Definition sends_command (cfg : config) (tr : list transfer) (t : transfer) : Prop :=
  match lcd_mode cfg with
  | LCD_MODE_BUFFERED => tr = [t]
  | LCD_MODE_IMMEDIATE => tr = [] \/ tr = [t]
  end.

Definition command_to (csel1 csel2 : Z) (b : Z) : transfer :=
  {| t_csel1 := csel1; t_csel2 := csel2; t_command_data := 0; t_data := b |}.

Definition serial_wiring : config := sample_config LCD_MODE_BUFFERED LCD_DATA_MODE_SERIAL.
Definition together_wiring : config := sample_config LCD_MODE_BUFFERED LCD_DMP_CONTROL_TOGETHER.
Definition individual_wiring : config :=
  sample_config LCD_MODE_BUFFERED LCD_DMP_CONTROL_INDIVIDUAL.

(** The lines the display sees after one [uc_lcd_send] issued right after
    the output levels were initialised. *)
Definition first_send_lines (cfg : config) (csel1 csel2 command_data data : Z) : lcd_lines :=
  device_lines cfg
    (uc_lcd_send_hw cfg csel1 csel2 command_data data (uc_lcd_init_hw cfg power_on_hw)).

Definition lines_eqb (a b : lcd_lines) : bool :=
  eqb (line_csel1 a) (line_csel1 b) && eqb (line_csel2 a) (line_csel2 b) &&
  eqb (line_command_data a) (line_command_data b) && (line_data a =? line_data b).

Definition presents_arguments (cfg : config) (c1 c2 cd : bool) (d : Z) : bool :=
  lines_eqb (first_send_lines cfg (Z.b2z c1) (Z.b2z c2) (Z.b2z cd) d)
    {| line_csel1 := c1; line_csel2 := c2; line_command_data := cd; line_data := d |}.

(** The state after [init] and one pixel at (4, 0): chip 1 has been told
    column 4 and has moved on to column 5 with the data write. *)
Definition after_pixel_4_0 : lcd_state :=
  uc_lcd_set_pixel immediate_config 4 0 1 (uc_lcd_init immediate_config power_on).

(** ** The transfers of one full send *)

(** One page of one chip: the page command, then the 64 bytes of the page
    as display data. [offset] is where the chip's half of the buffer starts. *)
Definition page_transfers (csel1 csel2 : Z) (b : list Z) (offset page : nat) : list transfer :=
  command_to csel1 csel2 (Z.lor 0xB8 (Z.land (Z.of_nat page) 0x07))
  :: (data_to csel1 csel2 <$> take 64 (drop (offset + 64 * page) b)).

(** Column 0, pages 0..7 for chip 1, the same for chip 2, then page 0 for
    both chips. *)
Definition full_send_transfers (b : list Z) : list transfer :=
  [command_to 1 0 0x40] ++ concat (page_transfers 1 0 b 0 <$> seq 0 8) ++
  [command_to 0 1 0x40] ++ concat (page_transfers 0 1 b 512 <$> seq 0 8) ++
  [command_to 1 0 0xB8; command_to 0 1 0xB8].

(** ** Wirings *)

(** A usable wiring for the parallel transport with one control register:
    the data register is not the control register, and the four control
    lines are four different bits of it. *)
Definition together_wiring_ok (cfg : config) : Prop :=
  lcd_data_mode cfg = LCD_DMP_CONTROL_TOGETHER /\
  LCD_DMP_PORT_DATA cfg <> LCD_DMP_PORT_CONTROL cfg /\
  0 <= LCD_DMP_PIN_CSEL1 cfg < 8 /\ 0 <= LCD_DMP_PIN_CSEL2 cfg < 8 /\
  0 <= LCD_DMP_PIN_COMMAND_DATA cfg < 8 /\ 0 <= LCD_DMP_PIN_ENABLE cfg < 8 /\
  NoDup [LCD_DMP_PIN_CSEL1 cfg; LCD_DMP_PIN_CSEL2 cfg; LCD_DMP_PIN_COMMAND_DATA cfg;
         LCD_DMP_PIN_ENABLE cfg].

(** A usable wiring for the parallel transport with a register per control
    line: the four control lines are four different pins, none of them in
    the data register. *)
Definition individual_wiring_ok (cfg : config) : Prop :=
  lcd_data_mode cfg = LCD_DMP_CONTROL_INDIVIDUAL /\
  LCD_DMP_PORT_DATA cfg <> LCD_DMP_PORT_CSEL1 cfg /\
  LCD_DMP_PORT_DATA cfg <> LCD_DMP_PORT_CSEL2 cfg /\
  LCD_DMP_PORT_DATA cfg <> LCD_DMP_PORT_COMMAND_DATA cfg /\
  LCD_DMP_PORT_DATA cfg <> LCD_DMP_PORT_ENABLE cfg /\
  0 <= LCD_DMP_PIN_CSEL1 cfg < 8 /\ 0 <= LCD_DMP_PIN_CSEL2 cfg < 8 /\
  0 <= LCD_DMP_PIN_COMMAND_DATA cfg < 8 /\ 0 <= LCD_DMP_PIN_ENABLE cfg < 8 /\
  NoDup [(LCD_DMP_PORT_CSEL1 cfg, LCD_DMP_PIN_CSEL1 cfg);
         (LCD_DMP_PORT_CSEL2 cfg, LCD_DMP_PIN_CSEL2 cfg);
         (LCD_DMP_PORT_COMMAND_DATA cfg, LCD_DMP_PIN_COMMAND_DATA cfg);
         (LCD_DMP_PORT_ENABLE cfg, LCD_DMP_PIN_ENABLE cfg)].

(** A usable wiring for the serial transport: clock, serial and enable are
    bits of 8-bit registers, the clock line is neither the serial nor the
    enable line, and the three control lines sit on Qa, Qb, Qc of the second
    shift register in some order. *)
Definition serial_wiring_ok (cfg : config) : Prop :=
  lcd_data_mode cfg = LCD_DATA_MODE_SERIAL /\
  0 <= LCD_DMS_PIN_CLOCK cfg < 8 /\ 0 <= LCD_DMS_PIN_SERIAL cfg < 8 /\
  0 <= LCD_DMS_PIN_ENABLE cfg < 8 /\
  (LCD_DMS_PORT_CLOCK cfg, LCD_DMS_PIN_CLOCK cfg)
    <> (LCD_DMS_PORT_SERIAL cfg, LCD_DMS_PIN_SERIAL cfg) /\
  (LCD_DMS_PORT_CLOCK cfg, LCD_DMS_PIN_CLOCK cfg)
    <> (LCD_DMS_PORT_ENABLE cfg, LCD_DMS_PIN_ENABLE cfg) /\
  0 <= LCD_DMS_SR_BIT_CSEL1 cfg <= 2 /\ 0 <= LCD_DMS_SR_BIT_CSEL2 cfg <= 2 /\
  0 <= LCD_DMS_SR_BIT_COMMAND_DATA cfg <= 2 /\
  NoDup [LCD_DMS_SR_BIT_CSEL1 cfg; LCD_DMS_SR_BIT_CSEL2 cfg; LCD_DMS_SR_BIT_COMMAND_DATA cfg].

(** The serial transport between two transfers: clock line low, sixteen
    shift stages. *)
Definition serial_idle (cfg : config) (h : hardware) : Prop :=
  pin_level (LCD_DMS_PORT_CLOCK cfg) (LCD_DMS_PIN_CLOCK cfg) h = false /\
  length (sr_shift h) = 16%nat.

(** The levels [uc_lcd_shift_out] puts on the serial line for [n] bits of
    [v], first one first: the bit under [mask], then [v] is shifted left. *)
Fixpoint shifted_out_bits (v mask : Z) (n : nat) : list bool :=
  match n with
  | O => []
  | S n => negb (Z.land v mask =? 0) :: shifted_out_bits (u8 (Z.shiftl v 1)) mask n
  end.

(** [n] rounds of "put the bit under [mask] on the serial line, pulse the
    clock, shift [v] left", the pattern [uc_lcd_shift_out] repeats. *)
Fixpoint shift_n (cfg : config) (v mask : Z) (n : nat) (h : hardware) : hardware :=
  match n with
  | O => h
  | S n => shift_n cfg (u8 (Z.shiftl v 1)) mask n (shift_bit cfg v mask h)
  end.

(** The loop body of the left-to-right, top-to-bottom branch of
    [uc_images_draw], under a name. *)
Definition hv_step (cfg : config) (x width draw_white_pixels : Z) (progmem_img : list Z)
    (i : Z) (c : image_cursor) : image_cursor :=
  let c := draw_next_pixel cfg draw_white_pixels progmem_img i c in
  let current_x := u8 (current_x c + 1) in
  if current_x - x =? width
  then {| byte_index := byte_index c; current_x := u8 (current_x - width);
          current_y := u8 (current_y c + 1); current_byte := current_byte c;
          cursor_lcd := cursor_lcd c |}
  else {| byte_index := byte_index c; current_x := current_x;
          current_y := current_y c; current_byte := current_byte c;
          cursor_lcd := cursor_lcd c |}.

(** Where that loop stands after [k] pixels of an image of width [w] drawn
    at (x, y) over the display state [st]. *)
Definition hv_invariant (img : list Z) (x y w dw : Z) (st : lcd_state) (k : Z)
    (c : image_cursor) : Prop :=
  byte_index c = 3 + (k + 7) / 8 /\
  current_x c = x + k mod w /\
  current_y c = u8 (y + k / w) /\
  (k mod 8 <> 0 -> current_byte c = Z.shiftr (pgm_read_byte img (3 + k / 8)) (k mod 8)) /\
  length (uc_lcd_buffer (cursor_lcd c)) = 1024%nat /\
  forall px py, 0 <= px <= 127 -> 0 <= py <= 63 ->
    logical_pixel (cursor_lcd c) px py
    = if bool_decide (x <= px < x + w /\ y <= py /\ (py - y) * w + (px - x) < k)
      then drawn_over dw (image_bit img ((py - y) * w + (px - x))) (logical_pixel st px py)
      else logical_pixel st px py.

(** The same for the top-to-bottom, left-to-right branch. *)
Definition vh_step (cfg : config) (y height draw_white_pixels : Z) (progmem_img : list Z)
    (i : Z) (c : image_cursor) : image_cursor :=
  let c := draw_next_pixel cfg draw_white_pixels progmem_img i c in
  let current_y := u8 (current_y c + 1) in
  if current_y - y =? height
  then {| byte_index := byte_index c; current_x := u8 (current_x c + 1);
          current_y := y; current_byte := current_byte c;
          cursor_lcd := cursor_lcd c |}
  else {| byte_index := byte_index c; current_x := current_x c;
          current_y := current_y; current_byte := current_byte c;
          cursor_lcd := cursor_lcd c |}.

Definition vh_invariant (img : list Z) (x y h dw : Z) (st : lcd_state) (k : Z)
    (c : image_cursor) : Prop :=
  byte_index c = 3 + (k + 7) / 8 /\
  current_x c = u8 (x + k / h) /\
  current_y c = y + k mod h /\
  (k mod 8 <> 0 -> current_byte c = Z.shiftr (pgm_read_byte img (3 + k / 8)) (k mod 8)) /\
  length (uc_lcd_buffer (cursor_lcd c)) = 1024%nat /\
  forall px py, 0 <= px <= 127 -> 0 <= py <= 63 ->
    logical_pixel (cursor_lcd c) px py
    = if bool_decide (y <= py < y + h /\ x <= px /\ (px - x) * h + (py - y) < k)
      then drawn_over dw (image_bit img ((px - x) * h + (py - y))) (logical_pixel st px py)
      else logical_pixel st px py.

(** * Verification *)

(** ** Bytes and bits *)

Lemma u8_range z : 0 <= u8 z < 256.
Proof. unfold u8. apply Z.mod_pos_bound. lia. Qed.

Lemma u8_small z : 0 <= z < 256 -> u8 z = z.
Proof. unfold u8. intros. apply Z.mod_small. lia. Qed.

Lemma u8_idemp z : u8 (u8 z) = u8 z.
Proof. apply u8_small, u8_range. Qed.

Lemma u8_testbit z b : 0 <= b < 8 -> Z.testbit (u8 z) b = Z.testbit z b.
Proof.
  intros Hb. unfold u8. change 256 with (2 ^ 8).
  apply Z.mod_pow2_bits_low. lia.
Qed.

Lemma testbit_set_bit d b : 0 <= b < 8 -> Z.testbit (u8 (Z.lor d (Z.shiftl 1 b))) b = true.
Proof.
  intros Hb. rewrite u8_testbit by lia.
  rewrite Z.lor_spec, Z.shiftl_1_l, Z.pow2_bits_true by lia.
  apply orb_true_r.
Qed.

Lemma testbit_clear_bit d b :
  0 <= b < 8 -> Z.testbit (u8 (Z.land d (Z.lnot (Z.shiftl 1 b)))) b = false.
Proof.
  intros Hb. rewrite u8_testbit by lia.
  rewrite Z.land_spec, Z.lnot_spec, Z.shiftl_1_l, Z.pow2_bits_true by lia.
  apply andb_false_r.
Qed.

(** [(uint8_t) ~v] is [255 - v] on bytes, hence an involution. *)
Lemma u8_lnot v : 0 <= v < 256 -> u8 (Z.lnot v) = 255 - v.
Proof.
  intros Hv. unfold u8, Z.lnot.
  replace (Z.pred (- v)) with (255 - v + (-1) * 256) by lia.
  rewrite Z.mod_add by lia. apply Z.mod_small. lia.
Qed.

Lemma u8_lnot_involutive v : 0 <= v < 256 -> u8 (Z.lnot (u8 (Z.lnot v))) = v.
Proof. intros Hv. rewrite (u8_lnot v), u8_lnot by lia. lia. Qed.

(** ** Loops *)

Lemma for_loop_S {S : Type} (n : nat) (body : Z -> S -> S) (s : S) :
  for_loop (Datatypes.S n) body s = body (Z.of_nat n) (for_loop n body s).
Proof. unfold for_loop. rewrite seq_S, foldl_snoc. reflexivity. Qed.

Lemma buf_get_lookup (b : list Z) (i : nat) v :
  b !! i = Some v -> buf_get b (Z.of_nat i) = v.
Proof. unfold buf_get. rewrite Nat2Z.id. intros ->. reflexivity. Qed.

Lemma insert_take_drop_step (g : Z -> Z) (l : list Z) (n : nat) (v : Z) :
  l !! n = Some v ->
  <[n := g v]> ((g <$> take n l) ++ drop n l) = (g <$> take (S n) l) ++ drop (S n) l.
Proof.
  intros Hn.
  assert (Hlen : length (g <$> take n l) = n).
  { rewrite length_fmap, length_take. apply lookup_lt_Some in Hn. lia. }
  rewrite insert_app_r_alt by lia. rewrite Hlen, Nat.sub_diag.
  rewrite (drop_S l v n Hn). simpl.
  rewrite (take_S_r l n v Hn), fmap_app, <- app_assoc. reflexivity.
Qed.

(** A loop that rewrites [uc_lcd_buffer[i]] from its own old value, for
    [i] from 0 to [n - 1], maps the first [n] bytes. *)
Lemma buffer_loop (f : Z -> Z) (n : nat) (st : lcd_state) :
  (n <= length (uc_lcd_buffer st))%nat ->
  for_loop n
    (fun i st => set_buffer (buf_set (uc_lcd_buffer st) i (f (buf_get (uc_lcd_buffer st) i))) st)
    st
  = set_buffer (((fun v => u8 (f v)) <$> take n (uc_lcd_buffer st)) ++ drop n (uc_lcd_buffer st)) st.
Proof.
  induction n as [|n IH]; intros Hn.
  - destruct st; reflexivity.
  - rewrite for_loop_S, IH by lia.
    destruct (lookup_lt_is_Some_2 (uc_lcd_buffer st) n) as [v Hv]; [lia|].
    unfold set_buffer at 1. cbn [uc_lcd_buffer uc_lcd_inverted uc_lcd_current_column_chip1
      uc_lcd_current_column_chip2 uc_lcd_current_page_chip1 uc_lcd_current_page_chip2
      uc_lcd_grouped_pixel_actions_level uc_lcd_data_changed hw sent set_buffer].
    unfold set_buffer. f_equal.
    assert (Hget : buf_get (((fun v => u8 (f v)) <$> take n (uc_lcd_buffer st))
                            ++ drop n (uc_lcd_buffer st)) (Z.of_nat n) = v).
    { apply buf_get_lookup. rewrite lookup_app_r; rewrite length_fmap, length_take;
        [|lia]. rewrite lookup_drop.
      replace (n + (n - n `min` length (uc_lcd_buffer st)))%nat with n by lia. exact Hv. }
    rewrite Hget. unfold buf_set. rewrite Nat2Z.id.
    apply (insert_take_drop_step (fun v => u8 (f v))). exact Hv.
Qed.

Lemma buffer_loop_all (f : Z -> Z) (st : lcd_state) :
  length (uc_lcd_buffer st) = 1024%nat ->
  for_loop 1024
    (fun i st => set_buffer (buf_set (uc_lcd_buffer st) i (f (buf_get (uc_lcd_buffer st) i))) st)
    st
  = set_buffer ((fun v => u8 (f v)) <$> uc_lcd_buffer st) st.
Proof.
  intros Hlen. rewrite buffer_loop by lia.
  rewrite take_ge, drop_ge, app_nil_r by lia. reflexivity.
Qed.

(** ** What the transport path leaves alone *)

Lemma emits_refl st : emits st st [].
Proof. unfold emits. rewrite app_nil_r. auto. Qed.

Lemma emits_trans st1 st2 st3 tr1 tr2 :
  emits st1 st2 tr1 -> emits st2 st3 tr2 -> emits st1 st3 (tr1 ++ tr2).
Proof.
  unfold emits. intros (H1 & H2 & H3 & H4 & H5) (K1 & K2 & K3 & K4 & K5).
  rewrite K1, H1, app_assoc. repeat split; congruence.
Qed.

Lemma data_transfers_app tr1 tr2 :
  data_transfers (tr1 ++ tr2) = data_transfers tr1 ++ data_transfers tr2.
Proof. apply filter_app. Qed.

Section TransportFrame.
Context (cfg : config).

Lemma emits_send c1 c2 cd d st :
  emits st (uc_lcd_send cfg c1 c2 cd d st)
    [{| t_csel1 := c1; t_csel2 := c2; t_command_data := cd; t_data := d |}].
Proof. unfold emits. cbn. auto. Qed.

Lemma command_step_set_page_chip_1 page : command_step (uc_lcd_set_page_chip_1 cfg page).
Proof.
  intros st. unfold uc_lcd_set_page_chip_1.
  destruct (lcd_mode cfg); [|destruct (negb _)];
    try (eexists; split; [apply emits_refl | reflexivity]);
    (eexists; split; [unfold emits; cbn; repeat split; reflexivity | reflexivity]).
Qed.

Lemma command_step_set_page_chip_2 page : command_step (uc_lcd_set_page_chip_2 cfg page).
Proof.
  intros st. unfold uc_lcd_set_page_chip_2.
  destruct (lcd_mode cfg); [|destruct (negb _)];
    try (eexists; split; [apply emits_refl | reflexivity]);
    (eexists; split; [unfold emits; cbn; repeat split; reflexivity | reflexivity]).
Qed.

Lemma command_step_set_column_chip_1 column :
  command_step (uc_lcd_set_column_chip_1 cfg column).
Proof.
  intros st. unfold uc_lcd_set_column_chip_1.
  destruct (lcd_mode cfg); [|destruct (negb _)];
    try (eexists; split; [apply emits_refl | reflexivity]);
    (eexists; split; [unfold emits; cbn; repeat split; reflexivity | reflexivity]).
Qed.

Lemma command_step_set_column_chip_2 column :
  command_step (uc_lcd_set_column_chip_2 cfg column).
Proof.
  intros st. unfold uc_lcd_set_column_chip_2.
  destruct (lcd_mode cfg); [|destruct (negb _)];
    try (eexists; split; [apply emits_refl | reflexivity]);
    (eexists; split; [unfold emits; cbn; repeat split; reflexivity | reflexivity]).
Qed.

Lemma emits_write_chip1 d st :
  emits st (uc_lcd_write_chip1 cfg d st) [data_to 1 0 d].
Proof. unfold uc_lcd_write_chip1, emits. destruct (lcd_mode cfg); cbn; auto. Qed.

Lemma emits_write_chip2 d st :
  emits st (uc_lcd_write_chip2 cfg d st) [data_to 0 1 d].
Proof. unfold uc_lcd_write_chip2, emits. destruct (lcd_mode cfg); cbn; auto. Qed.
End TransportFrame.

(** ** The full-buffer send *)

Lemma data_transfers_data_to c1 c2 (l : list Z) :
  data_transfers (data_to c1 c2 <$> l) = data_to c1 c2 <$> l.
Proof.
  unfold data_transfers. induction l as [|b l IH]; [reflexivity|].
  rewrite fmap_cons, filter_cons_True by (cbn; lia). rewrite IH. reflexivity.
Qed.

Lemma buf_get_seqZ (b : list Z) (a n : nat) :
  (a + n <= length b)%nat ->
  buf_get b <$> seqZ (Z.of_nat a) (Z.of_nat n) = take n (drop a b).
Proof.
  intros Hlen. apply list_eq. intros i. rewrite list_lookup_fmap.
  destruct (decide (i < n)%nat) as [Hi|Hi].
  - rewrite lookup_seqZ_lt by lia. rewrite lookup_take_lt, lookup_drop by lia.
    destruct (lookup_lt_is_Some_2 b (a + i)) as [v Hv]; [lia|].
    cbn. unfold buf_get. replace (Z.to_nat (Z.of_nat a + Z.of_nat i)) with (a + i)%nat by lia.
    rewrite Hv. reflexivity.
  - rewrite lookup_seqZ_ge by lia. rewrite lookup_take_ge by lia. reflexivity.
Qed.

Section FullSend.
Context (cfg : config).

Lemma send_columns_spec c1 c2 (n : nat) (i : Z) (st : lcd_state) :
  exists st',
    for_loop n
      (fun (column : Z) '(index, st) =>
         (index + 1, uc_lcd_send cfg c1 c2 1 (buf_get (uc_lcd_buffer st) index) st))
      (i, st) = (i + Z.of_nat n, st') /\
    emits st st' (data_to c1 c2 <$> (buf_get (uc_lcd_buffer st) <$> seqZ i (Z.of_nat n))).
Proof.
  induction n as [|n (st1 & Hloop & Hem)].
  - exists st. split; [unfold for_loop; cbn; f_equal; lia | apply emits_refl].
  - rewrite for_loop_S, Hloop. eexists. split.
    + f_equal. lia.
    + rewrite seqZ_S, !fmap_app. eapply emits_trans; [exact Hem|].
      destruct Hem as (_ & Hbuf & _). rewrite Hbuf. apply emits_send.
Qed.

Lemma send_pages_spec (set_page : Z -> lcd_state -> lcd_state) c1 c2
    (Hpage : forall page, command_step (set_page page)) (n : nat) (i : Z) (st : lcd_state) :
  exists st' tr,
    for_loop n
      (fun (page : Z) '(index, st) =>
         send_page_columns cfg c1 c2 (index, set_page page st))
      (i, st) = (i + 64 * Z.of_nat n, st') /\
    emits st st' tr /\
    data_transfers tr
    = data_to c1 c2 <$> (buf_get (uc_lcd_buffer st) <$> seqZ i (64 * Z.of_nat n)).
Proof.
  induction n as [|n (st1 & tr1 & Hloop & Hem & Hdata)].
  - exists st, []. split; [unfold for_loop; cbn; f_equal; lia|].
    split; [apply emits_refl | reflexivity].
  - rewrite for_loop_S, Hloop.
    destruct (Hpage (Z.of_nat n) st1) as (trp & Hemp & Hdatap).
    unfold send_page_columns.
    destruct (send_columns_spec c1 c2 64 (i + 64 * Z.of_nat n) (set_page (Z.of_nat n) st1))
      as (st2 & Hcols & Hemc).
    rewrite Hcols. eexists st2, (tr1 ++ trp ++ _). split; [f_equal; lia|]. split.
    + eapply emits_trans; [exact Hem|]. eapply emits_trans; [exact Hemp | exact Hemc].
    + rewrite !data_transfers_app, Hdata, Hdatap, data_transfers_data_to. cbn [app].
      destruct Hem as (_ & Hb1 & _). destruct Hemp as (_ & Hb2 & _).
      rewrite Hb2, Hb1.
      replace (64 * Z.of_nat (S n)) with (64 * Z.of_nat n + 64) by lia.
      rewrite seqZ_app, !fmap_app by lia. reflexivity.
Qed.

(** Whatever the address cache holds, a full send transfers each of the
    1024 bytes once, in order, as display data: the first 512 to chip 1,
    the last 512 to chip 2. *)
Lemma send_buffer_to_lcd_spec (st : lcd_state) :
  length (uc_lcd_buffer st) = 1024%nat ->
  exists tr,
    emits st (uc_lcd_send_buffer_to_lcd cfg st) tr /\
    data_transfers tr = buffer_payload (uc_lcd_buffer st).
Proof.
  intros Hlen. unfold uc_lcd_send_buffer_to_lcd.
  destruct (command_step_set_column_chip_1 cfg 0 st) as (tr1 & Hem1 & Hd1).
  destruct (send_pages_spec (uc_lcd_set_page_chip_1 cfg) 1 0
              (command_step_set_page_chip_1 cfg) 8 0 (uc_lcd_set_column_chip_1 cfg 0 st))
    as (st2 & tr2 & Hloop2 & Hem2 & Hd2).
  rewrite Hloop2.
  destruct (command_step_set_column_chip_2 cfg 0 st2) as (tr3 & Hem3 & Hd3).
  destruct (send_pages_spec (uc_lcd_set_page_chip_2 cfg) 0 1
              (command_step_set_page_chip_2 cfg) 8 (0 + 64 * Z.of_nat 8)
              (uc_lcd_set_column_chip_2 cfg 0 st2))
    as (st4 & tr4 & Hloop4 & Hem4 & Hd4).
  rewrite Hloop4.
  destruct (command_step_set_page_chip_1 cfg 0 st4) as (tr5 & Hem5 & Hd5).
  destruct (command_step_set_page_chip_2 cfg 0 (uc_lcd_set_page_chip_1 cfg 0 st4))
    as (tr6 & Hem6 & Hd6).
  exists (tr1 ++ tr2 ++ tr3 ++ tr4 ++ tr5 ++ tr6). split.
  - repeat (eapply emits_trans; [eassumption|]). exact Hem6.
  - rewrite !data_transfers_app, Hd1, Hd2, Hd3, Hd4, Hd5, Hd6, app_nil_r. cbn [app].
    destruct Hem1 as (_ & Hb1 & _). destruct Hem2 as (_ & Hb2 & _).
    destruct Hem3 as (_ & Hb3 & _).
    rewrite Hb3, Hb2, Hb1. unfold buffer_payload.
    change (0 + 64 * Z.of_nat 8) with (Z.of_nat 512).
    change (64 * Z.of_nat 8) with (Z.of_nat 512).
    change (seqZ 0 (Z.of_nat 512)) with (seqZ (Z.of_nat 0) (Z.of_nat 512)).
    rewrite !buf_get_seqZ by lia. rewrite drop_0.
    rewrite (take_ge (drop 512 _)) by (rewrite length_drop; lia). reflexivity.
Qed.
End FullSend.

(** ** Pixels *)

Section Pixels.
Context (cfg : config).

(** The byte [uc_lcd_set_pixel] stores for an in-range pixel. *)
Lemma set_pixel_in_range x y pixel st :
  x <= 127 -> y <= 63 ->
  let old := buf_get (uc_lcd_buffer st) (address_index x y) in
  let data :=
    if negb (uc_lcd_inverted st =? 0) then
      if negb (pixel =? 0) then u8 (Z.land old (Z.lnot (Z.shiftl 1 (y mod 8))))
      else u8 (Z.lor old (Z.shiftl 1 (y mod 8)))
    else
      if negb (pixel =? 0) then u8 (Z.lor old (Z.shiftl 1 (y mod 8)))
      else u8 (Z.land old (Z.lnot (Z.shiftl 1 (y mod 8)))) in
  uc_lcd_buffer (uc_lcd_set_pixel cfg x y pixel st)
    = buf_set (uc_lcd_buffer st) (address_index x y) data /\
  uc_lcd_inverted (uc_lcd_set_pixel cfg x y pixel st) = uc_lcd_inverted st.
Proof.
  intros Hx Hy old data. unfold uc_lcd_set_pixel.
  destruct (x >? 127) eqn:Ex; [lia|]. destruct (y >? 63) eqn:Ey; [lia|].
  assert (Hidx : (if negb (x <? 64) then x mod 64 + y / 8 * 64 + 512 else x mod 64 + y / 8 * 64)
                 = address_index x y).
  { unfold address_index. destruct (x <? 64) eqn:E1, (64 <=? x) eqn:E2; cbn [negb]; lia. }
  rewrite Hidx. fold old. fold data.
  set (st1 := set_buffer (buf_set (uc_lcd_buffer st) (address_index x y) data) st).
  destruct (lcd_mode cfg); [split; reflexivity|].
  destruct (uc_lcd_grouped_pixel_actions_level st1 =? 0); [|split; reflexivity].
  assert (Hem : exists tr, emits st1
            (if x <? 64
             then uc_lcd_write_chip1 cfg data
                    (uc_lcd_set_column_chip_1 cfg (x mod 64)
                       (uc_lcd_set_page_chip_1 cfg (y / 8) st1))
             else uc_lcd_write_chip2 cfg data
                    (uc_lcd_set_column_chip_2 cfg (x mod 64)
                       (uc_lcd_set_page_chip_2 cfg (y / 8) st1))) tr).
  { destruct (x <? 64).
    - destruct (command_step_set_page_chip_1 cfg (y / 8) st1) as (tr1 & H1 & _).
      destruct (command_step_set_column_chip_1 cfg (x mod 64)
                  (uc_lcd_set_page_chip_1 cfg (y / 8) st1)) as (tr2 & H2 & _).
      eexists. eapply emits_trans; [exact H1|]. eapply emits_trans; [exact H2|].
      apply emits_write_chip1.
    - destruct (command_step_set_page_chip_2 cfg (y / 8) st1) as (tr1 & H1 & _).
      destruct (command_step_set_column_chip_2 cfg (x mod 64)
                  (uc_lcd_set_page_chip_2 cfg (y / 8) st1)) as (tr2 & H2 & _).
      eexists. eapply emits_trans; [exact H1|]. eapply emits_trans; [exact H2|].
      apply emits_write_chip2. }
  destruct Hem as (tr & _ & Hb & Hi & _). rewrite Hb, Hi. split; reflexivity.
Qed.

Lemma address_index_range x y :
  0 <= x <= 127 -> 0 <= y <= 63 -> 0 <= address_index x y < 1024.
Proof.
  intros Hx Hy. unfold address_index.
  destruct (64 <=? x) eqn:E; Z.div_mod_to_equations; lia.
Qed.

(** C1: for x in [0,127] and y in [0,63], after [set_pixel(x, y, true)] the
    frame-buffer byte at the AddressMapping index has bit [y mod 8] set
    when the inversion flag is false and cleared when it is true, whatever
    the byte held before; the inversion flag itself is untouched. *)
Theorem set_pixel_true_stores_mapped_bit (st : lcd_state) (x y pixel : Z) :
  length (uc_lcd_buffer st) = 1024%nat ->
  0 <= x <= 127 -> 0 <= y <= 63 -> pixel <> 0 ->
  exists byte,
    uc_lcd_buffer (uc_lcd_set_pixel cfg x y pixel st) !! Z.to_nat (address_index x y)
      = Some byte /\
    Z.testbit byte (address_bit y) = (uc_lcd_inverted st =? 0) /\
    uc_lcd_inverted (uc_lcd_set_pixel cfg x y pixel st) = uc_lcd_inverted st.
Proof.
  intros Hlen Hx Hy Hp.
  destruct (set_pixel_in_range x y pixel st) as (Hb & Hi); [lia..|].
  pose proof (address_index_range x y Hx Hy) as Hidx.
  rewrite Hb, Hi. unfold buf_set. eexists. split; [|split; [|reflexivity]].
  - apply list_lookup_insert_eq. lia.
  - pose proof (Z.mod_pos_bound y 8 ltac:(lia)) as Hbit.
    unfold address_bit.
    destruct (pixel =? 0) eqn:Ep; [lia|]. cbn [negb].
    destruct (uc_lcd_inverted st =? 0); cbn [negb]; rewrite u8_idemp.
    + apply testbit_set_bit. lia.
    + apply testbit_clear_bit. lia.
Qed.

(** C3: for [uint8_t] coordinates with x > 127 or y > 63 and any pixel
    value, [set_pixel] returns the state it was given: the 1024 bytes, the
    inversion flag, the hardware and the list of transfers sent are all
    unchanged. *)
Theorem set_pixel_out_of_range_noop (st : lcd_state) (x y pixel : Z) :
  0 <= x < 256 -> 0 <= y < 256 -> x > 127 \/ y > 63 ->
  uc_lcd_set_pixel cfg x y pixel st = st.
Proof.
  intros _ _ Hxy. unfold uc_lcd_set_pixel.
  destruct (x >? 127) eqn:Ex; [reflexivity|].
  destruct (y >? 63) eqn:Ey; [reflexivity|]. lia.
Qed.

(** C2 (amended): on a cleared, non-inverted frame buffer, (0,0) lands on
    bit 0 of index 0, (63,7) on bit 7 of index 63 (page 7 / 8 = 0, not
    page 7), (64,0) on bit 0 of index 512 and (127,63) on bit 7 of index
    511 + 512 = 1023; every other byte stays 0. *)
Theorem set_pixel_boundary_cases (st : lcd_state) :
  uc_lcd_buffer st = replicate 1024 0 -> uc_lcd_inverted st = 0 ->
  (address_index 0 0 = 0 /\ address_index 63 7 = 63 /\
   address_index 64 0 = 512 /\ address_index 127 63 = 511 + 512) /\
  uc_lcd_buffer (uc_lcd_set_pixel cfg 0 0 1 st) = <[0%nat := 2 ^ 0]> (replicate 1024 0) /\
  uc_lcd_buffer (uc_lcd_set_pixel cfg 63 7 1 st) = <[63%nat := 2 ^ 7]> (replicate 1024 0) /\
  uc_lcd_buffer (uc_lcd_set_pixel cfg 64 0 1 st) = <[512%nat := 2 ^ 0]> (replicate 1024 0) /\
  uc_lcd_buffer (uc_lcd_set_pixel cfg 127 63 1 st) = <[1023%nat := 2 ^ 7]> (replicate 1024 0).
Proof.
  intros Hbuf Hinv. split; [repeat split; reflexivity|].
  repeat split.
  - destruct (set_pixel_in_range 0 0 1 st) as (Hb & _); [lia..|].
    rewrite Hb, Hbuf, Hinv. vm_compute. reflexivity.
  - destruct (set_pixel_in_range 63 7 1 st) as (Hb & _); [lia..|].
    rewrite Hb, Hbuf, Hinv. vm_compute. reflexivity.
  - destruct (set_pixel_in_range 64 0 1 st) as (Hb & _); [lia..|].
    rewrite Hb, Hbuf, Hinv. vm_compute. reflexivity.
  - destruct (set_pixel_in_range 127 63 1 st) as (Hb & _); [lia..|].
    rewrite Hb, Hbuf, Hinv. vm_compute. reflexivity.
Qed.
End Pixels.

Lemma set_pixel_true_stores_mapped_bit_witness :
  (length (uc_lcd_buffer power_on) = 1024%nat /\ 0 <= 70 <= 127 /\ 0 <= 13 <= 63 /\ 1 <> 0) /\
  exists byte,
    uc_lcd_buffer (uc_lcd_set_pixel immediate_config 70 13 1 power_on)
      !! Z.to_nat (address_index 70 13) = Some byte /\
    Z.testbit byte (address_bit 13) = (uc_lcd_inverted power_on =? 0) /\
    uc_lcd_inverted (uc_lcd_set_pixel immediate_config 70 13 1 power_on)
      = uc_lcd_inverted power_on.
Proof.
  split; [repeat split; (reflexivity || lia)|].
  apply (set_pixel_true_stores_mapped_bit immediate_config power_on 70 13 1);
    (reflexivity || lia).
Defined.

Lemma set_pixel_out_of_range_noop_witness :
  (0 <= 128 < 256 /\ 0 <= 5 < 256 /\ (128 > 127 \/ 5 > 63)) /\
  uc_lcd_set_pixel buffered_config 128 5 1 power_on = power_on.
Proof.
  split; [split; [lia|]; split; [lia | left; lia]|].
  apply (set_pixel_out_of_range_noop buffered_config power_on 128 5 1); [lia | lia |].
  left. lia.
Defined.

Lemma set_pixel_boundary_cases_witness :
  (uc_lcd_buffer power_on = replicate 1024 0 /\ uc_lcd_inverted power_on = 0) /\
  uc_lcd_buffer (uc_lcd_set_pixel buffered_config 63 7 1 power_on)
    = <[63%nat := 2 ^ 7]> (replicate 1024 0).
Proof.
  split; [split; reflexivity|].
  apply (set_pixel_boundary_cases buffered_config power_on); reflexivity.
Defined.

(** C2 as stated fails at (63,7): after [set_pixel(63,7,true)] on the
    cleared, non-inverted start-up buffer, the byte at index 511 is still 0,
    so its bit 7 is not set; the pixel went to index 63. *)
Lemma set_pixel_63_7_misses_index_511 :
  ~ (exists byte,
       uc_lcd_buffer (uc_lcd_set_pixel buffered_config 63 7 1 power_on) !! 511%nat = Some byte /\
       Z.testbit byte 7 = true).
Proof.
  intros (byte & Hbyte & Hbit).
  assert (Hzero : uc_lcd_buffer (uc_lcd_set_pixel buffered_config 63 7 1 power_on) !! 511%nat
                  = Some 0) by (vm_compute; reflexivity).
  rewrite Hzero in Hbyte. injection Hbyte as <-. discriminate Hbit.
Qed.

(** ** Inversion, clear and fill *)

Section GlobalOperations.
Context (cfg : config).

Lemma refresh_per_mode_frame st :
  length (uc_lcd_buffer st) = 1024%nat ->
  uc_lcd_buffer (refresh_per_mode cfg st) = uc_lcd_buffer st /\
  uc_lcd_inverted (refresh_per_mode cfg st) = uc_lcd_inverted st.
Proof.
  intros Hlen. unfold refresh_per_mode. destruct (lcd_mode cfg); [split; reflexivity|].
  destruct (send_buffer_to_lcd_spec cfg st Hlen) as (tr & (_ & Hb & Hi & _) & _). auto.
Qed.

(** A change of the flag complements every byte. *)
Lemma set_inverted_changed invert st :
  length (uc_lcd_buffer st) = 1024%nat -> invert <> uc_lcd_inverted st ->
  uc_lcd_buffer (uc_lcd_set_inverted cfg invert st)
    = (fun v => u8 (Z.lnot v)) <$> uc_lcd_buffer st /\
  uc_lcd_inverted (uc_lcd_set_inverted cfg invert st) = invert.
Proof.
  intros Hlen Hne. unfold uc_lcd_set_inverted.
  destruct (invert =? uc_lcd_inverted st) eqn:E; [lia|]. cbn [negb].
  rewrite (buffer_loop_all Z.lnot st Hlen).
  apply refresh_per_mode_frame. cbn. rewrite length_fmap. exact Hlen.
Qed.

Lemma set_inverted_unchanged st : uc_lcd_set_inverted cfg (uc_lcd_inverted st) st = st.
Proof. unfold uc_lcd_set_inverted. rewrite Z.eqb_refl. reflexivity. Qed.

(** C4: from a state whose inversion flag is false, [set_inverted(true)]
    followed by [set_inverted(false)] gives back every frame-buffer byte
    and the flag; and in any state, whatever its flag, [set_inverted(v)]
    with [v] the current flag returns the state it was given. *)
Theorem set_inverted_round_trip (st : lcd_state) :
  (buffer_ok (uc_lcd_buffer st) -> uc_lcd_inverted st = 0 ->
   uc_lcd_buffer (uc_lcd_set_inverted cfg 0 (uc_lcd_set_inverted cfg 1 st)) = uc_lcd_buffer st /\
   uc_lcd_inverted (uc_lcd_set_inverted cfg 0 (uc_lcd_set_inverted cfg 1 st))
     = uc_lcd_inverted st) /\
  (forall v, v = uc_lcd_inverted st -> uc_lcd_set_inverted cfg v st = st).
Proof.
  split; [|intros v ->; apply set_inverted_unchanged].
  intros (Hlen & Hbytes) Hinv.
  destruct (set_inverted_changed 1 st Hlen) as (Hb1 & Hi1); [lia|].
  destruct (set_inverted_changed 0 (uc_lcd_set_inverted cfg 1 st)) as (Hb2 & Hi2).
  { rewrite Hb1, length_fmap. exact Hlen. }
  { lia. }
  split; [|congruence].
  rewrite Hb2, Hb1, <- list_fmap_compose.
  rewrite <- (list_fmap_id (uc_lcd_buffer st)) at 2.
  apply Forall_fmap_ext. eapply Forall_impl; [exact Hbytes|].
  intros v Hv. cbn. apply u8_lnot_involutive. exact Hv.
Qed.

Lemma fill_loop (c : Z) (st : lcd_state) :
  length (uc_lcd_buffer st) = 1024%nat -> 0 <= c < 256 ->
  for_loop 1024 (fun i st => set_buffer (buf_set (uc_lcd_buffer st) i c) st) st
  = set_buffer (replicate 1024 c) st.
Proof.
  intros Hlen Hc. rewrite (buffer_loop_all (fun _ => c) st Hlen). f_equal.
  rewrite <- Hlen. apply const_fmap. intros i v Hv. apply u8_small. exact Hc.
Qed.

Lemma clear_spec st :
  length (uc_lcd_buffer st) = 1024%nat ->
  uc_lcd_buffer (uc_lcd_clear cfg st)
    = replicate 1024 (if uc_lcd_inverted st =? 0 then 0x00 else 0xFF) /\
  uc_lcd_inverted (uc_lcd_clear cfg st) = uc_lcd_inverted st.
Proof.
  intros Hlen. unfold uc_lcd_clear.
  destruct (uc_lcd_inverted st =? 0); cbn [negb]; rewrite fill_loop by (auto; lia);
    match goal with
    | |- context [refresh_per_mode cfg ?s] =>
        destruct (refresh_per_mode_frame s) as (Hb & Hi);
        [reflexivity|]; rewrite Hb, Hi; split; reflexivity
    end.
Qed.

Lemma fill_spec st :
  length (uc_lcd_buffer st) = 1024%nat ->
  uc_lcd_buffer (uc_lcd_fill cfg st)
    = replicate 1024 (if uc_lcd_inverted st =? 0 then 0xFF else 0x00) /\
  uc_lcd_inverted (uc_lcd_fill cfg st) = uc_lcd_inverted st.
Proof.
  intros Hlen. unfold uc_lcd_fill.
  destruct (uc_lcd_inverted st =? 0); cbn [negb]; rewrite fill_loop by (auto; lia);
    match goal with
    | |- context [refresh_per_mode cfg ?s] =>
        destruct (refresh_per_mode_frame s) as (Hb & Hi);
        [reflexivity|]; rewrite Hb, Hi; split; reflexivity
    end.
Qed.

Lemma logical_pixel_uniform st c x y :
  uc_lcd_buffer st = replicate 1024 c -> 0 <= x <= 127 -> 0 <= y <= 63 ->
  logical_pixel st x y = xorb (Z.testbit c (y mod 8)) (negb (uc_lcd_inverted st =? 0)).
Proof.
  intros Hb Hx Hy. unfold logical_pixel, address_bit, buf_get. rewrite Hb.
  pose proof (address_index_range x y Hx Hy).
  rewrite lookup_replicate_2 by lia. reflexivity.
Qed.

Lemma testbit_0xFF b : 0 <= b < 8 -> Z.testbit 0xFF b = true.
Proof.
  intros Hb. change 0xFF with (Z.ones 8). apply Z.ones_spec_low. lia.
Qed.

(** C5: [clear] makes every byte 0x00 when the display is not inverted and
    0xFF when it is, [fill] the other way round; neither changes the
    inversion flag; so afterwards every pixel of the 128x64 surface reads
    as off, respectively on, whatever the flag. *)
Theorem clear_fill_logical (st : lcd_state) :
  length (uc_lcd_buffer st) = 1024%nat ->
  (uc_lcd_buffer (uc_lcd_clear cfg st)
     = replicate 1024 (if uc_lcd_inverted st =? 0 then 0x00 else 0xFF) /\
   uc_lcd_inverted (uc_lcd_clear cfg st) = uc_lcd_inverted st /\
   forall x y, 0 <= x <= 127 -> 0 <= y <= 63 ->
     logical_pixel (uc_lcd_clear cfg st) x y = false) /\
  (uc_lcd_buffer (uc_lcd_fill cfg st)
     = replicate 1024 (if uc_lcd_inverted st =? 0 then 0xFF else 0x00) /\
   uc_lcd_inverted (uc_lcd_fill cfg st) = uc_lcd_inverted st /\
   forall x y, 0 <= x <= 127 -> 0 <= y <= 63 ->
     logical_pixel (uc_lcd_fill cfg st) x y = true).
Proof.
  intros Hlen.
  destruct (clear_spec st Hlen) as (Hcb & Hci).
  destruct (fill_spec st Hlen) as (Hfb & Hfi).
  split; (split; [assumption|]; split; [assumption|]); intros x y Hx Hy.
  - rewrite (logical_pixel_uniform _ _ x y Hcb Hx Hy), Hci.
    destruct (uc_lcd_inverted st =? 0); cbn [negb].
    + rewrite Z.bits_0. reflexivity.
    + rewrite testbit_0xFF by (apply Z.mod_pos_bound; lia). reflexivity.
  - rewrite (logical_pixel_uniform _ _ x y Hfb Hx Hy), Hfi.
    destruct (uc_lcd_inverted st =? 0); cbn [negb].
    + rewrite testbit_0xFF by (apply Z.mod_pos_bound; lia). reflexivity.
    + rewrite Z.bits_0. reflexivity.
Qed.
End GlobalOperations.

(** ** Buffered mode: flush *)

Lemma length_buffer_payload (b : list Z) : length (buffer_payload b) = length b.
Proof.
  unfold buffer_payload. rewrite length_app, !length_fmap, length_take, length_drop. lia.
Qed.

Section Buffered.
Context (cfg : config).

Lemma flush_clean st : uc_lcd_data_changed st = 0 -> uc_lcd_flush cfg st = st.
Proof. intros H. unfold uc_lcd_flush. rewrite H. reflexivity. Qed.

(** C6: in buffered mode, with the changed flag set, the first [flush]
    sends the 1024 bytes of the buffer once (512 to chip 1, then 512 to
    chip 2) and clears the flag; the second [flush] returns the state it
    was given, so the two together make exactly one transmission. *)
Theorem flush_twice_one_transmission (st : lcd_state) :
  lcd_mode cfg = LCD_MODE_BUFFERED ->
  length (uc_lcd_buffer st) = 1024%nat ->
  uc_lcd_data_changed st <> 0 ->
  exists tr,
    sent (uc_lcd_flush cfg st) = sent st ++ tr /\
    data_transfers tr = buffer_payload (uc_lcd_buffer st) /\
    length (data_transfers tr) = 1024%nat /\
    uc_lcd_buffer (uc_lcd_flush cfg st) = uc_lcd_buffer st /\
    uc_lcd_data_changed (uc_lcd_flush cfg st) = 0 /\
    uc_lcd_flush cfg (uc_lcd_flush cfg st) = uc_lcd_flush cfg st.
Proof.
  intros Hmode Hlen Hchanged.
  destruct (send_buffer_to_lcd_spec cfg st Hlen) as (tr & (Hs & Hb & _) & Hd).
  assert (Hflush : uc_lcd_flush cfg st = set_data_changed 0 (uc_lcd_send_buffer_to_lcd cfg st)).
  { unfold uc_lcd_flush. destruct (uc_lcd_data_changed st =? 0) eqn:E; [lia|]. reflexivity. }
  exists tr. rewrite Hflush. clear Hflush.
  generalize dependent (uc_lcd_send_buffer_to_lcd cfg st). intros s' Hs Hb.
  cbn [sent uc_lcd_buffer uc_lcd_data_changed set_data_changed].
  split; [exact Hs|]. split; [exact Hd|]. split; [|split; [exact Hb|split]].
  - rewrite Hd, length_buffer_payload. exact Hlen.
  - reflexivity.
  - apply flush_clean. reflexivity.
Qed.
End Buffered.

(** ** Immediate mode: grouped pixel changes *)

Section Grouping.
Context (cfg : config).
Hypothesis Himmediate : lcd_mode cfg = LCD_MODE_IMMEDIATE.

Lemma grouped_from_start st : grouped_from st (uc_lcd_grouped_pixel_actions_level st) st.
Proof. exists (uc_lcd_buffer st). split; [destruct st|]; reflexivity. Qed.

Lemma grouped_set_pixel st0 n st x y pixel :
  n <> 0 -> grouped_from st0 n st -> grouped_from st0 n (uc_lcd_set_pixel cfg x y pixel st).
Proof.
  intros Hn (b & -> & Hlen). unfold uc_lcd_set_pixel.
  destruct (x >? 127); [exists b; auto|]. destruct (y >? 63); [exists b; auto|].
  rewrite Himmediate. cbn [uc_lcd_grouped_pixel_actions_level set_buffer
    set_grouped_pixel_actions_level].
  destruct (n =? 0) eqn:E; [lia|].
  match goal with |- grouped_from _ _ (set_buffer ?b' _) => exists b' end.
  split; [reflexivity|]. unfold buf_set. rewrite length_insert. exact Hlen.
Qed.

Lemma grouped_set_pixels st0 n ps st :
  n <> 0 -> grouped_from st0 n st -> grouped_from st0 n (set_pixels cfg ps st).
Proof.
  intros Hn. revert st. unfold set_pixels.
  induction ps as [|[[x y] pixel] ps IH]; intros st Hst; [exact Hst|].
  cbn [foldl]. apply IH. apply grouped_set_pixel; assumption.
Qed.

Lemma grouped_enter st0 n st :
  grouped_from st0 n st ->
  grouped_from st0 (u8 (n + 1)) (uc_lcd_enter_grouped_pixel_changes st).
Proof. intros (b & -> & Hlen). exists b. split; [reflexivity | exact Hlen]. Qed.

Lemma grouped_leave st0 n st :
  u8 (n - 1) <> 0 -> grouped_from st0 n st ->
  grouped_from st0 (u8 (n - 1)) (uc_lcd_leave_grouped_pixel_changes cfg st).
Proof.
  intros Hn (b & -> & Hlen). exists b. split; [|exact Hlen].
  unfold uc_lcd_leave_grouped_pixel_changes.
  cbn [uc_lcd_grouped_pixel_actions_level set_grouped_pixel_actions_level set_buffer].
  destruct (u8 (n - 1) =? 0) eqn:E; [lia|]. reflexivity.
Qed.

(** While the level is not 0, [set_pixel] changes frame-buffer bytes only. *)
Lemma set_pixel_while_grouped st x y pixel :
  uc_lcd_grouped_pixel_actions_level st <> 0 ->
  exists b, uc_lcd_set_pixel cfg x y pixel st = set_buffer b st.
Proof.
  intros Hn.
  destruct (grouped_set_pixel st _ st x y pixel Hn (grouped_from_start st)) as (b & Hb & _).
  exists b. rewrite Hb. destruct st; reflexivity.
Qed.

(** C7: in immediate mode, from a grouping level of 0, through
    [enter; enter; leave] with any [set_pixel] calls in between nothing is
    sent and only frame-buffer bytes and the level change; the next
    [leave] brings the level to 0 and sends the 1024 bytes of the buffer
    exactly once. *)
Theorem grouping_defers_to_outermost_leave (st : lcd_state) (ps1 ps2 ps3 : list (Z * Z * Z)) :
  uc_lcd_grouped_pixel_actions_level st = 0 ->
  length (uc_lcd_buffer st) = 1024%nat ->
  let s1 := set_pixels cfg ps1 (uc_lcd_enter_grouped_pixel_changes st) in
  let s2 := set_pixels cfg ps2 (uc_lcd_enter_grouped_pixel_changes s1) in
  let s3 := set_pixels cfg ps3 (uc_lcd_leave_grouped_pixel_changes cfg s2) in
  let s4 := uc_lcd_leave_grouped_pixel_changes cfg s3 in
  (s3 = set_grouped_pixel_actions_level 1 (set_buffer (uc_lcd_buffer s3) st) /\
   sent s3 = sent st /\ hw s3 = hw st) /\
  (forall st' x y pixel,
      uc_lcd_grouped_pixel_actions_level st' <> 0 ->
      exists b, uc_lcd_set_pixel cfg x y pixel st' = set_buffer b st') /\
  (exists tr,
      sent s4 = sent st ++ tr /\
      data_transfers tr = buffer_payload (uc_lcd_buffer s3) /\
      length (data_transfers tr) = 1024%nat /\
      uc_lcd_buffer s4 = uc_lcd_buffer s3 /\
      uc_lcd_grouped_pixel_actions_level s4 = 0).
Proof.
  intros Hlevel Hlen s1 s2 s3 s4.
  assert (H1 : grouped_from st 1 s1).
  { apply grouped_set_pixels; [lia|].
    pose proof (grouped_enter st _ st (grouped_from_start st)) as H.
    rewrite Hlevel in H. exact H. }
  assert (H2 : grouped_from st 2 s2).
  { apply grouped_set_pixels; [lia|]. exact (grouped_enter st 1 s1 H1). }
  assert (H3 : grouped_from st 1 s3).
  { apply grouped_set_pixels; [lia|].
    apply (grouped_leave st 2 s2); [vm_compute; discriminate | exact H2]. }
  destruct H3 as (b & Hs3 & Hb).
  split; [|split; [intros; apply set_pixel_while_grouped; assumption|]].
  - rewrite Hs3. repeat split; reflexivity.
  - subst s4. rewrite Hs3. unfold uc_lcd_leave_grouped_pixel_changes.
    cbn [uc_lcd_grouped_pixel_actions_level set_grouped_pixel_actions_level set_buffer
         uc_lcd_buffer].
    change (u8 (1 - 1) =? 0) with true. cbn iota.
    match goal with
    | |- context [uc_lcd_send_buffer_to_lcd cfg ?s] =>
        destruct (send_buffer_to_lcd_spec cfg s) as (tr & (Hs & Hbuf & _ & Hl & _) & Hd);
        [cbn; lia|]
    end.
    exists tr. rewrite Hs, Hbuf, Hl, Hd. cbn [sent uc_lcd_buffer
      uc_lcd_grouped_pixel_actions_level]. repeat split.
    rewrite length_buffer_payload. cbn [uc_lcd_buffer set_buffer
      set_grouped_pixel_actions_level]. lia.
Qed.
End Grouping.

(** ** Command encoding *)

Section CommandEncoding.
Context (cfg : config).

Lemma setter_sends (f : lcd_state -> lcd_state) (t : transfer) (st : lcd_state)
    (g : lcd_state -> lcd_state) (skip : bool) :
  (forall s, sent (g s) = sent s) ->
  f st = match lcd_mode cfg with
         | LCD_MODE_IMMEDIATE =>
             if negb skip
             then g (uc_lcd_send cfg (t_csel1 t) (t_csel2 t) (t_command_data t) (t_data t) st)
             else st
         | LCD_MODE_BUFFERED =>
             uc_lcd_send cfg (t_csel1 t) (t_csel2 t) (t_command_data t) (t_data t) st
         end ->
  exists tr, sent (f st) = sent st ++ tr /\ sends_command cfg tr t.
Proof.
  intros Hg ->. unfold sends_command. destruct t as [c1 c2 cd d]. cbn [t_csel1 t_csel2
    t_command_data t_data].
  destruct (lcd_mode cfg); [eexists; split; reflexivity|].
  destruct skip; cbn [negb].
  - exists []. rewrite app_nil_r. auto.
  - eexists. rewrite Hg. split; [reflexivity|]. right. reflexivity.
Qed.

(** C10 (amended): [turn_on] and [turn_off] send 0x3F and 0x3E to both
    chips as command transfers (Command/Data = 0), [set_startline(l)]
    sends [0xC0 | l] to both chips as a command; a page setter sends
    [0xB8 | (p & 7)] and a column setter [0x40 | (c & 0x3F)] as a command
    to its own chip only, whenever it sends; [write_chip1] and
    [write_chip2] send the byte as data to their own chip only. *)
Theorem command_encoding (st : lcd_state) (l p c d : Z) :
  sent (uc_lcd_turn_on cfg st) = sent st ++ [command_to 1 1 0x3F] /\
  sent (uc_lcd_turn_off cfg st) = sent st ++ [command_to 1 1 0x3E] /\
  sent (uc_lcd_set_startline cfg l st) = sent st ++ [command_to 1 1 (Z.lor 0xC0 l)] /\
  (exists tr, sent (uc_lcd_set_page_chip_1 cfg p st) = sent st ++ tr /\
              sends_command cfg tr (command_to 1 0 (Z.lor 0xB8 (Z.land p 0x07)))) /\
  (exists tr, sent (uc_lcd_set_page_chip_2 cfg p st) = sent st ++ tr /\
              sends_command cfg tr (command_to 0 1 (Z.lor 0xB8 (Z.land p 0x07)))) /\
  (exists tr, sent (uc_lcd_set_column_chip_1 cfg c st) = sent st ++ tr /\
              sends_command cfg tr (command_to 1 0 (Z.lor 0x40 (Z.land c 0x3F)))) /\
  (exists tr, sent (uc_lcd_set_column_chip_2 cfg c st) = sent st ++ tr /\
              sends_command cfg tr (command_to 0 1 (Z.lor 0x40 (Z.land c 0x3F)))) /\
  sent (uc_lcd_write_chip1 cfg d st) = sent st ++ [data_to 1 0 d] /\
  sent (uc_lcd_write_chip2 cfg d st) = sent st ++ [data_to 0 1 d].
Proof.
  split; [reflexivity|]. split; [reflexivity|]. split; [reflexivity|].
  split; [|split; [|split; [|split; [|split]]]].
  - apply (setter_sends _ _ st (set_current_page_chip1 p)
             (p =? uc_lcd_current_page_chip1 st)); reflexivity.
  - apply (setter_sends _ _ st (set_current_page_chip2 p)
             (p =? uc_lcd_current_page_chip2 st)); reflexivity.
  - apply (setter_sends _ _ st (set_current_column_chip1 c)
             (c =? uc_lcd_current_page_chip1 st)); reflexivity.
  - apply (setter_sends _ _ st (set_current_column_chip2 c)
             (c =? uc_lcd_current_page_chip2 st)); reflexivity.
  - apply emits_write_chip1.
  - apply emits_write_chip2.
Qed.
End CommandEncoding.

(** C10 as stated fails for [turn_on]: the transfer it sends is not a data
    transfer, its Command/Data argument is 0. *)
Lemma turn_on_is_not_a_data_transfer :
  ~ Forall (fun t => t_command_data t <> 0) (sent (uc_lcd_turn_on buffered_config power_on)).
Proof.
  change (sent (uc_lcd_turn_on buffered_config power_on)) with [command_to 1 1 0x3F].
  intros H. apply Forall_cons in H as [H _]. apply H. reflexivity.
Qed.

(** ** The address cache of immediate mode *)

Section AddressCache.
Context (cfg : config).
Hypothesis Himmediate : lcd_mode cfg = LCD_MODE_IMMEDIATE.

(** The page setters consult the cached page of their chip. *)
Lemma set_page_chip_1_cache page st :
  uc_lcd_set_page_chip_1 cfg page st
  = if page =? uc_lcd_current_page_chip1 st then st
    else set_current_page_chip1 page
           (uc_lcd_send cfg 1 0 0 (Z.lor 0xB8 (Z.land page 0x07)) st).
Proof.
  unfold uc_lcd_set_page_chip_1. rewrite Himmediate.
  destruct (page =? uc_lcd_current_page_chip1 st); reflexivity.
Qed.

(** The column setters consult the cached page, too, not the cached
    column. *)
Lemma set_column_chip_1_cache column st :
  uc_lcd_set_column_chip_1 cfg column st
  = if column =? uc_lcd_current_page_chip1 st then st
    else set_current_column_chip1 column
           (uc_lcd_send cfg 1 0 0 (Z.lor 0x40 (Z.land column 0x3F)) st).
Proof.
  unfold uc_lcd_set_column_chip_1. rewrite Himmediate.
  destruct (column =? uc_lcd_current_page_chip1 st); reflexivity.
Qed.

Lemma set_column_chip_2_cache column st :
  uc_lcd_set_column_chip_2 cfg column st
  = if column =? uc_lcd_current_page_chip2 st then st
    else set_current_column_chip2 column
           (uc_lcd_send cfg 0 1 0 (Z.lor 0x40 (Z.land column 0x3F)) st).
Proof.
  unfold uc_lcd_set_column_chip_2. rewrite Himmediate.
  destruct (column =? uc_lcd_current_page_chip2 st); reflexivity.
Qed.
End AddressCache.

(** C8 at a failing input: the cache holds column 5 and page 0 for chip 1.
    [set_column_chip_1(0)] asks for a column other than the cached one, yet
    nothing is sent and the cache still says 5; [set_column_chip_1(5)]
    asks for the cached column, yet the command is sent. *)
Lemma set_column_chip_1_compares_with_page :
  uc_lcd_current_column_chip1 after_pixel_4_0 = 5 /\
  uc_lcd_current_page_chip1 after_pixel_4_0 = 0 /\
  uc_lcd_set_column_chip_1 immediate_config 0 after_pixel_4_0 = after_pixel_4_0 /\
  sent (uc_lcd_set_column_chip_1 immediate_config 5 after_pixel_4_0)
    = sent after_pixel_4_0 ++ [command_to 1 0 0x45].
Proof.
  assert (Hc : uc_lcd_current_column_chip1 after_pixel_4_0 = 5) by (vm_compute; reflexivity).
  assert (Hp : uc_lcd_current_page_chip1 after_pixel_4_0 = 0) by (vm_compute; reflexivity).
  split; [exact Hc|]. split; [exact Hp|].
  rewrite !set_column_chip_1_cache by reflexivity. rewrite Hp. split; reflexivity.
Qed.

(** ** The transports *)

Lemma lines_eqb_eq a b : lines_eqb a b = true -> a = b.
Proof.
  destruct a, b. unfold lines_eqb. cbn.
  rewrite !andb_true_iff, !eqb_true_iff, Z.eqb_eq. intros [[[-> ->] ->] ->]. reflexivity.
Qed.

Lemma presents_arguments_sound cfg c1 c2 cd d :
  presents_arguments cfg c1 c2 cd d = true ->
  first_send_lines cfg (Z.b2z c1) (Z.b2z c2) (Z.b2z cd) d
  = {| line_csel1 := c1; line_csel2 := c2; line_command_data := cd; line_data := d |}.
Proof. apply lines_eqb_eq. Qed.

Lemma forallb_bools (P : bool -> bool) (b : bool) :
  forallb P [false; true] = true -> P b = true.
Proof. cbn. rewrite andb_true_r, andb_true_iff. destruct b; tauto. Qed.

(** On the sample wiring, the shared-control parallel transport and the
    serial transport both put exactly the arguments of the first
    [uc_lcd_send] on the lines, for all 2048 argument tuples. *)
Lemma together_and_serial_present_arguments (c1 c2 cd : bool) (d : Z) :
  0 <= d < 256 ->
  first_send_lines together_wiring (Z.b2z c1) (Z.b2z c2) (Z.b2z cd) d
    = {| line_csel1 := c1; line_csel2 := c2; line_command_data := cd; line_data := d |} /\
  first_send_lines serial_wiring (Z.b2z c1) (Z.b2z c2) (Z.b2z cd) d
    = {| line_csel1 := c1; line_csel2 := c2; line_command_data := cd; line_data := d |}.
Proof.
  intros Hd.
  assert (Hall : forallb (fun d => forallb (fun c1 => forallb (fun c2 => forallb (fun cd =>
                   presents_arguments together_wiring c1 c2 cd d
                   && presents_arguments serial_wiring c1 c2 cd d)
                   [false; true]) [false; true]) [false; true]) (seqZ 0 256) = true)
    by (vm_compute; reflexivity).
  assert (Hin : In d (seqZ 0 256)).
  { apply list_elem_of_In, elem_of_seqZ. lia. }
  pose proof (proj1 (forallb_forall _ _) Hall d Hin) as H.
  apply (forallb_bools _ c1) in H. apply (forallb_bools _ c2) in H.
  apply (forallb_bools _ cd) in H. apply andb_true_iff in H as [Ht Hs].
  split; apply presents_arguments_sound; assumption.
Qed.

(** With individual control registers, what [uc_lcd_send] does to the
    hardware does not depend on its [csel2] and [command_data] arguments. *)
Lemma individual_control_ignores_csel2_and_command_data
    (cfg : config) (csel1 csel2 command_data csel2' command_data' data : Z) (h : hardware) :
  lcd_data_mode cfg = LCD_DMP_CONTROL_INDIVIDUAL ->
  uc_lcd_send_hw cfg csel1 csel2 command_data data h
  = uc_lcd_send_hw cfg csel1 csel2' command_data' data h.
Proof. intros Hmode. unfold uc_lcd_send_hw. rewrite Hmode. reflexivity. Qed.

(** C9 at a failing input: the first transfer after initialisation, a data
    byte 0xA5 for chip 2. The shared-control parallel transport and the
    serial transport present CSEL1 low, CSEL2 high, Command/Data high; the
    individual-control parallel transport presents all three lines low,
    each of them being driven from [csel1]. *)
Lemma individual_control_presents_csel1_on_every_line :
  first_send_lines together_wiring 0 1 1 0xA5
    = {| line_csel1 := false; line_csel2 := true; line_command_data := true;
         line_data := 0xA5 |} /\
  first_send_lines serial_wiring 0 1 1 0xA5
    = {| line_csel1 := false; line_csel2 := true; line_command_data := true;
         line_data := 0xA5 |} /\
  first_send_lines individual_wiring 0 1 1 0xA5
    = {| line_csel1 := false; line_csel2 := false; line_command_data := false;
         line_data := 0xA5 |}.
Proof. repeat split; vm_compute; reflexivity. Qed.

(** Both parallel variants only ever raise the control lines ([|=]): a
    command for chip 1 sent after a data byte for chip 2 still shows CSEL2
    and Command/Data high, where the serial transport shows them low. *)
Lemma parallel_control_lines_stay_high :
  device_lines together_wiring
    (uc_lcd_send_hw together_wiring 1 0 0 0x11
       (uc_lcd_send_hw together_wiring 0 1 1 0xA5 (uc_lcd_init_hw together_wiring power_on_hw)))
    = {| line_csel1 := true; line_csel2 := true; line_command_data := true;
         line_data := 0x11 |} /\
  device_lines serial_wiring
    (uc_lcd_send_hw serial_wiring 1 0 0 0x11
       (uc_lcd_send_hw serial_wiring 0 1 1 0xA5 (uc_lcd_init_hw serial_wiring power_on_hw)))
    = {| line_csel1 := true; line_csel2 := false; line_command_data := false;
         line_data := 0x11 |}.
Proof. repeat split; vm_compute; reflexivity. Qed.

(** ** The theorems at concrete inputs *)

(** The start-up state with one pixel set, in buffered mode: the changed
    flag is raised and byte 5 of the buffer is 0x08. *)
Lemma buffer_ok_after_pixel_5_3 :
  buffer_ok (uc_lcd_buffer (uc_lcd_set_pixel buffered_config 5 3 1 power_on)).
Proof.
  split; [vm_compute; reflexivity|].
  apply (bool_decide_unpack _). vm_compute. exact I.
Defined.

Lemma set_inverted_round_trip_witness :
  ((buffer_ok (uc_lcd_buffer (uc_lcd_set_pixel buffered_config 5 3 1 power_on)) /\
    uc_lcd_inverted (uc_lcd_set_pixel buffered_config 5 3 1 power_on) = 0) /\
   uc_lcd_buffer
     (uc_lcd_set_inverted buffered_config 0
        (uc_lcd_set_inverted buffered_config 1
           (uc_lcd_set_pixel buffered_config 5 3 1 power_on)))
   = uc_lcd_buffer (uc_lcd_set_pixel buffered_config 5 3 1 power_on)) /\
  (1 = uc_lcd_inverted (uc_lcd_set_inverted buffered_config 1 power_on) /\
   uc_lcd_set_inverted buffered_config 1 (uc_lcd_set_inverted buffered_config 1 power_on)
   = uc_lcd_set_inverted buffered_config 1 power_on).
Proof.
  assert (Hflag : 1 = uc_lcd_inverted (uc_lcd_set_inverted buffered_config 1 power_on))
    by (vm_compute; reflexivity).
  split.
  - split; [split; [exact buffer_ok_after_pixel_5_3 | reflexivity]|].
    apply (proj1 (set_inverted_round_trip buffered_config
                    (uc_lcd_set_pixel buffered_config 5 3 1 power_on)));
      [exact buffer_ok_after_pixel_5_3 | reflexivity].
  - split; [exact Hflag|].
    exact (proj2 (set_inverted_round_trip buffered_config
                    (uc_lcd_set_inverted buffered_config 1 power_on)) 1 Hflag).
Defined.

Lemma clear_fill_logical_witness :
  length (uc_lcd_buffer power_on) = 1024%nat /\
  uc_lcd_buffer (uc_lcd_fill immediate_config power_on) = replicate 1024 0xFF /\
  logical_pixel (uc_lcd_clear immediate_config power_on) 100 40 = false.
Proof.
  split; [reflexivity|].
  destruct (clear_fill_logical immediate_config power_on) as ((_ & _ & Hc) & (Hf & _ & _));
    [reflexivity|].
  split; [exact Hf | apply Hc; lia].
Defined.

Lemma flush_twice_one_transmission_witness :
  (lcd_mode buffered_config = LCD_MODE_BUFFERED /\
   length (uc_lcd_buffer (uc_lcd_set_pixel buffered_config 5 3 1 power_on)) = 1024%nat /\
   uc_lcd_data_changed (uc_lcd_set_pixel buffered_config 5 3 1 power_on) <> 0) /\
  exists tr,
    sent (uc_lcd_flush buffered_config (uc_lcd_set_pixel buffered_config 5 3 1 power_on))
      = sent (uc_lcd_set_pixel buffered_config 5 3 1 power_on) ++ tr /\
    length (data_transfers tr) = 1024%nat.
Proof.
  assert (Hlen : length (uc_lcd_buffer (uc_lcd_set_pixel buffered_config 5 3 1 power_on))
                 = 1024%nat) by (vm_compute; reflexivity).
  assert (Hchanged : uc_lcd_data_changed (uc_lcd_set_pixel buffered_config 5 3 1 power_on) <> 0)
    by (vm_compute; discriminate).
  split; [split; [reflexivity | split; assumption]|].
  destruct (flush_twice_one_transmission buffered_config
              (uc_lcd_set_pixel buffered_config 5 3 1 power_on) eq_refl Hlen Hchanged)
    as (tr & Hs & _ & Hn & _).
  exists tr. split; assumption.
Defined.

Lemma grouping_defers_to_outermost_leave_witness :
  (lcd_mode immediate_config = LCD_MODE_IMMEDIATE /\
   uc_lcd_grouped_pixel_actions_level power_on = 0 /\
   length (uc_lcd_buffer power_on) = 1024%nat) /\
  sent (set_pixels immediate_config [(70, 13, 1)]
          (uc_lcd_leave_grouped_pixel_changes immediate_config
             (set_pixels immediate_config [(200, 1, 1)]
                (uc_lcd_enter_grouped_pixel_changes
                   (set_pixels immediate_config [(1, 1, 1)]
                      (uc_lcd_enter_grouped_pixel_changes power_on))))))
  = sent power_on.
Proof.
  split; [repeat split; reflexivity|].
  apply (grouping_defers_to_outermost_leave immediate_config eq_refl power_on
           [(1, 1, 1)] [(200, 1, 1)] [(70, 13, 1)]); reflexivity.
Defined.

(** * Further properties of the driver *)

(** ** Reading pixels back *)

Lemma testbit_set_bit_other d b b' :
  0 <= b < 8 -> 0 <= b' < 8 -> b <> b' ->
  Z.testbit (u8 (Z.lor d (Z.shiftl 1 b))) b' = Z.testbit d b'.
Proof.
  intros Hb Hb' Hne. rewrite u8_testbit by lia.
  rewrite Z.lor_spec, Z.shiftl_1_l, Z.pow2_bits_false by lia.
  apply orb_false_r.
Qed.

Lemma testbit_clear_bit_other d b b' :
  0 <= b < 8 -> 0 <= b' < 8 -> b <> b' ->
  Z.testbit (u8 (Z.land d (Z.lnot (Z.shiftl 1 b)))) b' = Z.testbit d b'.
Proof.
  intros Hb Hb' Hne. rewrite u8_testbit by lia.
  rewrite Z.land_spec, Z.lnot_spec, Z.shiftl_1_l, Z.pow2_bits_false by lia.
  apply andb_true_r.
Qed.

(** Two pixels of the surface never share a bit of the buffer. *)
Lemma address_injective x y x' y' :
  0 <= x <= 127 -> 0 <= y <= 63 -> 0 <= x' <= 127 -> 0 <= y' <= 63 ->
  address_index x y = address_index x' y' -> address_bit y = address_bit y' ->
  x = x' /\ y = y'.
Proof.
  unfold address_index, address_bit. intros Hx Hy Hx' Hy'.
  destruct (64 <=? x) eqn:E, (64 <=? x') eqn:E'; Z.div_mod_to_equations; lia.
Qed.

Lemma buf_get_set_same (b : list Z) (i v : Z) :
  (Z.to_nat i < length b)%nat -> buf_get (buf_set b i v) i = u8 v.
Proof.
  intros Hi. unfold buf_get, buf_set. rewrite list_lookup_insert_eq by exact Hi. reflexivity.
Qed.

Lemma buf_get_set_other (b : list Z) (i j v : Z) :
  Z.to_nat i <> Z.to_nat j -> buf_get (buf_set b i v) j = buf_get b j.
Proof.
  intros Hij. unfold buf_get, buf_set. rewrite list_lookup_insert_ne by exact Hij. reflexivity.
Qed.

Section ReadBack.
Context (cfg : config).

Lemma set_pixel_off_display (st : lcd_state) (x y pixel : Z) :
  127 < x \/ 63 < y -> uc_lcd_set_pixel cfg x y pixel st = st.
Proof.
  intros Hxy. unfold uc_lcd_set_pixel.
  destruct (x >? 127) eqn:Ex; [reflexivity|].
  destruct (y >? 63) eqn:Ey; [reflexivity|]. lia.
Qed.

(** What [set_pixel] does to the pixels of the surface. *)
Lemma set_pixel_logical (st : lcd_state) (x y pixel x' y' : Z) :
  length (uc_lcd_buffer st) = 1024%nat -> 0 <= x -> 0 <= y ->
  0 <= x' <= 127 -> 0 <= y' <= 63 ->
  logical_pixel (uc_lcd_set_pixel cfg x y pixel st) x' y'
  = if bool_decide ((x', y') = (x, y)) then negb (pixel =? 0) else logical_pixel st x' y'.
Proof.
  intros Hlen Hx0 Hy0 Hx' Hy'. case_bool_decide as Hne.
  - injection Hne as -> ->.
    destruct (set_pixel_in_range cfg x y pixel st) as (Hb & Hi); [lia..|].
    pose proof (address_index_range x y Hx' Hy') as Hidx.
    pose proof (Z.mod_pos_bound y 8 ltac:(lia)) as Hbit.
    unfold logical_pixel, address_bit. rewrite Hb, Hi, buf_get_set_same by lia.
    destruct (uc_lcd_inverted st =? 0), (pixel =? 0); cbn [negb]; rewrite u8_idemp;
      rewrite ?testbit_set_bit, ?testbit_clear_bit by lia; reflexivity.
  - destruct (Z_le_gt_dec x 127) as [Hx1|Hx1];
      [|rewrite set_pixel_off_display by lia; reflexivity].
    destruct (Z_le_gt_dec y 63) as [Hy1|Hy1];
      [|rewrite set_pixel_off_display by lia; reflexivity].
    destruct (set_pixel_in_range cfg x y pixel st Hx1 Hy1) as (Hb & Hi).
    unfold logical_pixel. rewrite Hb, Hi. f_equal.
    pose proof (address_index_range x' y' Hx' Hy') as Hidx'.
    pose proof (address_index_range x y ltac:(lia) ltac:(lia)) as Hidx.
    destruct (decide (address_index x y = address_index x' y')) as [Hsame|Hdiff];
      [|rewrite buf_get_set_other by lia; reflexivity].
    assert (Hbits : y mod 8 <> y' mod 8).
    { intros Hb8. destruct (address_injective x y x' y') as [-> ->]; try lia; try assumption.
      apply Hne. reflexivity. }
    pose proof (Z.mod_pos_bound y 8 ltac:(lia)).
    pose proof (Z.mod_pos_bound y' 8 ltac:(lia)).
    rewrite <- Hsame, buf_get_set_same by lia. unfold address_bit.
    destruct (uc_lcd_inverted st =? 0), (pixel =? 0); cbn [negb]; rewrite u8_idemp;
      rewrite ?testbit_set_bit_other, ?testbit_clear_bit_other by lia; reflexivity.
Qed.

(** Whatever the inversion flag and the draw mode, a pixel written with
    [set_pixel] reads back as written: on for a nonzero value, off for 0. *)
Theorem set_pixel_read_back (st : lcd_state) (x y pixel : Z) :
  length (uc_lcd_buffer st) = 1024%nat -> 0 <= x <= 127 -> 0 <= y <= 63 ->
  logical_pixel (uc_lcd_set_pixel cfg x y pixel st) x y = negb (pixel =? 0).
Proof.
  intros Hlen Hx Hy. rewrite set_pixel_logical by (assumption || lia).
  rewrite bool_decide_eq_true_2 by reflexivity. reflexivity.
Qed.

(** [set_pixel] changes no pixel but the one it is given: for [uint8_t]
    coordinates (x, y), every other pixel of the surface reads as before,
    also when (x, y) itself is off the surface. *)
Theorem set_pixel_other_pixels (st : lcd_state) (x y pixel x' y' : Z) :
  length (uc_lcd_buffer st) = 1024%nat -> 0 <= x < 256 -> 0 <= y < 256 ->
  0 <= x' <= 127 -> 0 <= y' <= 63 -> (x', y') <> (x, y) ->
  logical_pixel (uc_lcd_set_pixel cfg x y pixel st) x' y' = logical_pixel st x' y'.
Proof.
  intros Hlen Hx0 Hy0 Hx' Hy' Hne. rewrite set_pixel_logical by (assumption || lia).
  rewrite bool_decide_eq_false_2 by exact Hne. reflexivity.
Qed.
End ReadBack.

(** ** Buffered mode: pixels, flush and the order of a full send *)

Section BufferedMore.
Context (cfg : config).
Hypothesis Hbuffered : lcd_mode cfg = LCD_MODE_BUFFERED.

Lemma set_pixel_buffered x y pixel st :
  x <= 127 -> y <= 63 ->
  exists b, uc_lcd_set_pixel cfg x y pixel st = set_data_changed 1 (set_buffer b st) /\
            length b = length (uc_lcd_buffer st).
Proof.
  intros Hx Hy. unfold uc_lcd_set_pixel.
  destruct (x >? 127) eqn:Ex; [lia|]. destruct (y >? 63) eqn:Ey; [lia|].
  rewrite Hbuffered. eexists. split; [reflexivity|].
  unfold buf_set. apply length_insert.
Qed.

(** In buffered mode a pixel on the surface reaches the display with the
    next [flush] and not before: [set_pixel] touches neither the registers
    nor the bus, whatever the changed flag was, and the following [flush]
    sends the 1024 bytes of the updated buffer once and lowers the flag. *)
Theorem set_pixel_then_flush (st : lcd_state) (x y pixel : Z) :
  length (uc_lcd_buffer st) = 1024%nat -> x <= 127 -> y <= 63 ->
  hw (uc_lcd_set_pixel cfg x y pixel st) = hw st /\
  sent (uc_lcd_set_pixel cfg x y pixel st) = sent st /\
  exists tr,
    sent (uc_lcd_flush cfg (uc_lcd_set_pixel cfg x y pixel st)) = sent st ++ tr /\
    data_transfers tr = buffer_payload (uc_lcd_buffer (uc_lcd_set_pixel cfg x y pixel st)) /\
    uc_lcd_data_changed (uc_lcd_flush cfg (uc_lcd_set_pixel cfg x y pixel st)) = 0.
Proof.
  intros Hlen Hx Hy.
  destruct (set_pixel_buffered x y pixel st Hx Hy) as (b & -> & Hb).
  split; [reflexivity|]. split; [reflexivity|].
  set (st1 := set_data_changed 1 (set_buffer b st)).
  assert (Hlen' : length (uc_lcd_buffer st1) = 1024%nat) by (cbn; lia).
  destruct (send_buffer_to_lcd_spec cfg st1 Hlen') as (tr & (Hs & _) & Hd).
  exists tr. unfold uc_lcd_flush. change (uc_lcd_data_changed st1) with 1. cbn [Z.eqb negb].
  generalize dependent (uc_lcd_send_buffer_to_lcd cfg st1). intros s' Hs.
  split; [exact Hs|]. split; [exact Hd | reflexivity].
Qed.

Lemma send_pages_exact (set_page : Z -> lcd_state -> lcd_state) c1 c2 (cmd : Z -> transfer)
    (Hpage : forall page st, emits st (set_page page st) [cmd page])
    (n offset : nat) (st : lcd_state) :
  exists st',
    for_loop n
      (fun (page : Z) '(index, st) =>
         send_page_columns cfg c1 c2 (index, set_page page st))
      (Z.of_nat offset, st) = (Z.of_nat offset + 64 * Z.of_nat n, st') /\
    emits st st'
      (concat ((fun p : nat =>
                  cmd (Z.of_nat p)
                  :: (data_to c1 c2 <$>
                      (buf_get (uc_lcd_buffer st) <$>
                       seqZ (Z.of_nat (offset + 64 * p)) (Z.of_nat 64)))) <$> seq 0 n)).
Proof.
  induction n as [|n (st1 & Hloop & Hem)].
  - exists st. split; [unfold for_loop; cbn; f_equal; lia | apply emits_refl].
  - rewrite for_loop_S, Hloop.
    pose proof (Hpage (Z.of_nat n) st1) as Hemp.
    unfold send_page_columns.
    destruct (send_columns_spec cfg c1 c2 64 (Z.of_nat offset + 64 * Z.of_nat n)
                (set_page (Z.of_nat n) st1)) as (st2 & Hcols & Hemc).
    rewrite Hcols. exists st2. split; [f_equal; lia|].
    rewrite seq_S, fmap_app, concat_app. cbn [fmap list_fmap concat Nat.add]. rewrite app_nil_r.
    eapply emits_trans; [exact Hem|].
    change (?a :: ?l) with ([a] ++ l). eapply emits_trans; [exact Hemp|].
    destruct Hem as (_ & Hb1 & _). destruct Hemp as (_ & Hb2 & _).
    rewrite Hb2, Hb1 in Hemc.
    replace (Z.of_nat (offset + 64 * n)) with (Z.of_nat offset + 64 * Z.of_nat n) by lia.
    exact Hemc.
Qed.

Lemma page_transfers_eq c1 c2 (b : list Z) (offset : nat) :
  (offset + 512 <= length b)%nat ->
  (fun p : nat =>
     command_to c1 c2 (Z.lor 0xB8 (Z.land (Z.of_nat p) 0x07))
     :: (data_to c1 c2 <$> (buf_get b <$> seqZ (Z.of_nat (offset + 64 * p)) (Z.of_nat 64))))
    <$> seq 0 8
  = page_transfers c1 c2 b offset <$> seq 0 8.
Proof.
  intros Hlen. apply Forall_fmap_ext, Forall_forall. intros p Hp.
  apply elem_of_seq in Hp. unfold page_transfers.
  rewrite buf_get_seqZ by lia. reflexivity.
Qed.

(** In buffered mode a full send is always the same 1044 transfers: the
    column command for chip 1, then per page the page command and the 64
    bytes of the page, the same for chip 2, and at the end page 0 for both
    chips. *)
Theorem send_buffer_to_lcd_order (st : lcd_state) :
  length (uc_lcd_buffer st) = 1024%nat ->
  sent (uc_lcd_send_buffer_to_lcd cfg st) = sent st ++ full_send_transfers (uc_lcd_buffer st) /\
  length (full_send_transfers (uc_lcd_buffer st)) = 1044%nat.
Proof.
  intros Hlen. split.
  - unfold uc_lcd_send_buffer_to_lcd.
    assert (Hp1 : forall page s, emits s (uc_lcd_set_page_chip_1 cfg page s)
                    [command_to 1 0 (Z.lor 0xB8 (Z.land page 0x07))]).
    { intros page s. unfold uc_lcd_set_page_chip_1. rewrite Hbuffered. apply emits_send. }
    assert (Hp2 : forall page s, emits s (uc_lcd_set_page_chip_2 cfg page s)
                    [command_to 0 1 (Z.lor 0xB8 (Z.land page 0x07))]).
    { intros page s. unfold uc_lcd_set_page_chip_2. rewrite Hbuffered. apply emits_send. }
    assert (Hc1 : forall s, emits s (uc_lcd_set_column_chip_1 cfg 0 s) [command_to 1 0 0x40]).
    { intros s. unfold uc_lcd_set_column_chip_1. rewrite Hbuffered. apply emits_send. }
    assert (Hc2 : forall s, emits s (uc_lcd_set_column_chip_2 cfg 0 s) [command_to 0 1 0x40]).
    { intros s. unfold uc_lcd_set_column_chip_2. rewrite Hbuffered. apply emits_send. }
    destruct (send_pages_exact (uc_lcd_set_page_chip_1 cfg) 1 0 _ Hp1 8 0
                (uc_lcd_set_column_chip_1 cfg 0 st)) as (st2 & Hloop2 & Hem2).
    change (Z.of_nat 0) with 0 in Hloop2. rewrite Hloop2.
    destruct (send_pages_exact (uc_lcd_set_page_chip_2 cfg) 0 1 _ Hp2 8 512
                (uc_lcd_set_column_chip_2 cfg 0 st2)) as (st4 & Hloop4 & Hem4).
    change (Z.of_nat 512) with (0 + 64 * Z.of_nat 8) in Hloop4. rewrite Hloop4.
    pose proof (Hc1 st) as Hem1. pose proof (Hc2 st2) as Hem3.
    pose proof (Hp1 0 st4) as Hem5.
    pose proof (Hp2 0 (uc_lcd_set_page_chip_1 cfg 0 st4)) as Hem6.
    pose proof (proj1 (proj2 Hem1)) as Hb1. pose proof (proj1 (proj2 Hem2)) as Hb2.
    pose proof (proj1 (proj2 Hem3)) as Hb3.
    rewrite Hb3, Hb2, Hb1 in Hem4. rewrite Hb1 in Hem2.
    rewrite page_transfers_eq in Hem2, Hem4 by lia.
    pose proof (emits_trans _ _ _ _ _ (Hc1 st)
                  (emits_trans _ _ _ _ _ Hem2
                     (emits_trans _ _ _ _ _ (Hc2 st2)
                        (emits_trans _ _ _ _ _ Hem4
                           (emits_trans _ _ _ _ _ Hem5 Hem6))))) as (Hs & _).
    exact Hs.
  - unfold full_send_transfers, page_transfers. cbn [seq fmap list_fmap concat].
    repeat rewrite ?length_app, ?length_cons, ?length_fmap, ?length_take, ?length_drop.
    rewrite Hlen. reflexivity.
Qed.
End BufferedMore.

(** ** Immediate mode: write-through, the page cache and the grouping level *)

Section ImmediateMore.
Context (cfg : config).
Hypothesis Himmediate : lcd_mode cfg = LCD_MODE_IMMEDIATE.

Lemma set_page_chip_2_cache page st :
  uc_lcd_set_page_chip_2 cfg page st
  = if page =? uc_lcd_current_page_chip2 st then st
    else set_current_page_chip2 page
           (uc_lcd_send cfg 0 1 0 (Z.lor 0xB8 (Z.land page 0x07)) st).
Proof.
  unfold uc_lcd_set_page_chip_2. rewrite Himmediate.
  destruct (page =? uc_lcd_current_page_chip2 st); reflexivity.
Qed.

(** Outside a group, [set_pixel] writes through: besides at most a page and
    a column command, it sends exactly one data byte, to the chip that holds
    column x, and that byte is the one now stored in the buffer. *)
Theorem set_pixel_writes_through (st : lcd_state) (x y pixel : Z) :
  uc_lcd_grouped_pixel_actions_level st = 0 ->
  length (uc_lcd_buffer st) = 1024%nat -> 0 <= x <= 127 -> 0 <= y <= 63 ->
  exists tr,
    sent (uc_lcd_set_pixel cfg x y pixel st) = sent st ++ tr /\
    (length tr <= 3)%nat /\
    data_transfers tr
    = [data_to (if x <? 64 then 1 else 0) (if x <? 64 then 0 else 1)
         (buf_get (uc_lcd_buffer (uc_lcd_set_pixel cfg x y pixel st)) (address_index x y))].
Proof.
  intros Hlevel Hlen Hx Hy.
  destruct (set_pixel_in_range cfg x y pixel st) as (Hb & _); [lia..|].
  pose proof (address_index_range x y Hx Hy) as Hidx.
  rewrite Hb, buf_get_set_same by lia. clear Hb.
  unfold uc_lcd_set_pixel.
  destruct (x >? 127) eqn:Ex; [lia|]. destruct (y >? 63) eqn:Ey; [lia|].
  assert (Hcode : (if negb (x <? 64) then x mod 64 + y / 8 * 64 + 512 else x mod 64 + y / 8 * 64)
                  = address_index x y).
  { unfold address_index. destruct (x <? 64) eqn:E1, (64 <=? x) eqn:E2; cbn [negb]; lia. }
  rewrite Hcode, Himmediate.
  set (data := if negb (uc_lcd_inverted st =? 0) then _ else _).
  assert (Hdata : u8 data = data).
  { subst data. destruct (negb (uc_lcd_inverted st =? 0)), (negb (pixel =? 0));
      apply u8_idemp. }
  rewrite Hdata.
  set (st1 := set_buffer (buf_set (uc_lcd_buffer st) (address_index x y) data) st).
  change (uc_lcd_grouped_pixel_actions_level st1) with (uc_lcd_grouped_pixel_actions_level st).
  rewrite Hlevel. cbn [Z.eqb].
  assert (Hcmd : forall f : lcd_state -> lcd_state,
             (exists t, forall s, f s = s \/ exists g, (forall s', sent (g s') = sent s') /\
                f s = g (uc_lcd_send cfg (t_csel1 t) (t_csel2 t) 0 (t_data t) s)) ->
             forall s, exists tr, sent (f s) = sent s ++ tr /\ (length tr <= 1)%nat /\
                                  data_transfers tr = []).
  { intros f (t & Hf) s. destruct (Hf s) as [->|(g & Hg & ->)].
    - exists []. rewrite app_nil_r. repeat split. cbn. lia.
    - eexists. rewrite Hg. split; [reflexivity|]. split; [cbn; lia | reflexivity]. }
  assert (Hpage1 : forall p s, exists tr, sent (uc_lcd_set_page_chip_1 cfg p s) = sent s ++ tr /\
                     (length tr <= 1)%nat /\ data_transfers tr = []).
  { intros p. apply Hcmd. exists (command_to 1 0 (Z.lor 0xB8 (Z.land p 0x07))). intros s.
    rewrite set_page_chip_1_cache by exact Himmediate.
    destruct (p =? uc_lcd_current_page_chip1 s); [left; reflexivity|].
    right. exists (set_current_page_chip1 p). split; reflexivity. }
  assert (Hpage2 : forall p s, exists tr, sent (uc_lcd_set_page_chip_2 cfg p s) = sent s ++ tr /\
                     (length tr <= 1)%nat /\ data_transfers tr = []).
  { intros p. apply Hcmd. exists (command_to 0 1 (Z.lor 0xB8 (Z.land p 0x07))). intros s.
    rewrite set_page_chip_2_cache.
    destruct (p =? uc_lcd_current_page_chip2 s); [left; reflexivity|].
    right. exists (set_current_page_chip2 p). split; reflexivity. }
  assert (Hcol1 : forall c s, exists tr, sent (uc_lcd_set_column_chip_1 cfg c s) = sent s ++ tr /\
                    (length tr <= 1)%nat /\ data_transfers tr = []).
  { intros c. apply Hcmd. exists (command_to 1 0 (Z.lor 0x40 (Z.land c 0x3F))). intros s.
    rewrite set_column_chip_1_cache by exact Himmediate.
    destruct (c =? uc_lcd_current_page_chip1 s); [left; reflexivity|].
    right. exists (set_current_column_chip1 c). split; reflexivity. }
  assert (Hcol2 : forall c s, exists tr, sent (uc_lcd_set_column_chip_2 cfg c s) = sent s ++ tr /\
                    (length tr <= 1)%nat /\ data_transfers tr = []).
  { intros c. apply Hcmd. exists (command_to 0 1 (Z.lor 0x40 (Z.land c 0x3F))). intros s.
    rewrite set_column_chip_2_cache by exact Himmediate.
    destruct (c =? uc_lcd_current_page_chip2 s); [left; reflexivity|].
    right. exists (set_current_column_chip2 c). split; reflexivity. }
  change (sent st) with (sent st1).
  destruct (x <? 64).
  - destruct (Hpage1 (y / 8) st1) as (tr1 & Hs1 & Hl1 & Hd1).
    destruct (Hcol1 (x mod 64) (uc_lcd_set_page_chip_1 cfg (y / 8) st1))
      as (tr2 & Hs2 & Hl2 & Hd2).
    exists (tr1 ++ tr2 ++ [data_to 1 0 data]).
    rewrite (proj1 (emits_write_chip1 cfg data _)), Hs2, Hs1, <- !app_assoc.
    split; [reflexivity|]. rewrite !length_app, !data_transfers_app, Hd1, Hd2.
    split; [cbn [length]; lia | reflexivity].
  - destruct (Hpage2 (y / 8) st1) as (tr1 & Hs1 & Hl1 & Hd1).
    destruct (Hcol2 (x mod 64) (uc_lcd_set_page_chip_2 cfg (y / 8) st1))
      as (tr2 & Hs2 & Hl2 & Hd2).
    exists (tr1 ++ tr2 ++ [data_to 0 1 data]).
    rewrite (proj1 (emits_write_chip2 cfg data _)), Hs2, Hs1, <- !app_assoc.
    split; [reflexivity|]. rewrite !length_app, !data_transfers_app, Hd1, Hd2.
    split; [cbn [length]; lia | reflexivity].
Qed.

Lemma set_page_caches (st : lcd_state) (page : Z) :
  uc_lcd_current_page_chip1 (uc_lcd_set_page_chip_1 cfg page st) = page /\
  uc_lcd_current_page_chip2 (uc_lcd_set_page_chip_2 cfg page st) = page.
Proof.
  rewrite set_page_chip_1_cache by exact Himmediate. rewrite set_page_chip_2_cache.
  split.
  - destruct (page =? uc_lcd_current_page_chip1 st) eqn:E; [|reflexivity].
    symmetry. apply Z.eqb_eq. exact E.
  - destruct (page =? uc_lcd_current_page_chip2 st) eqn:E; [|reflexivity].
    symmetry. apply Z.eqb_eq. exact E.
Qed.

(** The page setters keep their cache exact: the command is sent exactly
    when the page differs from the cached one, and afterwards the cache
    holds the page asked for. *)
Theorem set_page_cache_exact (st : lcd_state) (page : Z) :
  (sent (uc_lcd_set_page_chip_1 cfg page st)
   = sent st ++ (if page =? uc_lcd_current_page_chip1 st then []
                 else [command_to 1 0 (Z.lor 0xB8 (Z.land page 0x07))]) /\
   uc_lcd_current_page_chip1 (uc_lcd_set_page_chip_1 cfg page st) = page) /\
  (sent (uc_lcd_set_page_chip_2 cfg page st)
   = sent st ++ (if page =? uc_lcd_current_page_chip2 st then []
                 else [command_to 0 1 (Z.lor 0xB8 (Z.land page 0x07))]) /\
   uc_lcd_current_page_chip2 (uc_lcd_set_page_chip_2 cfg page st) = page).
Proof.
  rewrite set_page_chip_1_cache by exact Himmediate. rewrite set_page_chip_2_cache.
  split.
  - destruct (page =? uc_lcd_current_page_chip1 st) eqn:E.
    + rewrite app_nil_r. split; [reflexivity|]. symmetry. apply Z.eqb_eq. exact E.
    + split; reflexivity.
  - destruct (page =? uc_lcd_current_page_chip2 st) eqn:E.
    + rewrite app_nil_r. split; [reflexivity|]. symmetry. apply Z.eqb_eq. exact E.
    + split; reflexivity.
Qed.

(** After a full send the cache says page 0 for both chips, whatever it
    said before. *)
Theorem send_buffer_to_lcd_resets_pages (st : lcd_state) :
  uc_lcd_current_page_chip1 (uc_lcd_send_buffer_to_lcd cfg st) = 0 /\
  uc_lcd_current_page_chip2 (uc_lcd_send_buffer_to_lcd cfg st) = 0.
Proof.
  unfold uc_lcd_send_buffer_to_lcd.
  destruct (send_pages_spec cfg (uc_lcd_set_page_chip_1 cfg) 1 0
              (command_step_set_page_chip_1 cfg) 8 0 (uc_lcd_set_column_chip_1 cfg 0 st))
    as (st2 & tr2 & Hloop2 & _).
  rewrite Hloop2.
  destruct (send_pages_spec cfg (uc_lcd_set_page_chip_2 cfg) 0 1
              (command_step_set_page_chip_2 cfg) 8 (0 + 64 * Z.of_nat 8)
              (uc_lcd_set_column_chip_2 cfg 0 st2))
    as (st4 & tr4 & Hloop4 & _).
  rewrite Hloop4.
  destruct (set_page_caches st4 0) as (H1 & _).
  destruct (set_page_caches (uc_lcd_set_page_chip_1 cfg 0 st4) 0) as (_ & H2).
  split; [|exact H2].
  rewrite set_page_chip_2_cache.
  destruct (0 =? uc_lcd_current_page_chip2 _); exact H1.
Qed.

(** Entering and leaving a group inside a group is the identity: nothing is
    sent and no variable changes, as long as the level was not 0. *)
Theorem enter_leave_nested (st : lcd_state) :
  0 < uc_lcd_grouped_pixel_actions_level st < 256 ->
  uc_lcd_leave_grouped_pixel_changes cfg (uc_lcd_enter_grouped_pixel_changes st) = st.
Proof.
  intros Hn. unfold uc_lcd_leave_grouped_pixel_changes, uc_lcd_enter_grouped_pixel_changes.
  cbn [uc_lcd_grouped_pixel_actions_level set_grouped_pixel_actions_level].
  assert (Hback : u8 (u8 (uc_lcd_grouped_pixel_actions_level st + 1) - 1)
                  = uc_lcd_grouped_pixel_actions_level st).
  { unfold u8. Z.div_mod_to_equations. lia. }
  rewrite Hback. destruct (uc_lcd_grouped_pixel_actions_level st =? 0) eqn:E; [lia|].
  destruct st. cbn in *. reflexivity.
Qed.

(** A [leave] without a matching [enter] sends nothing and wraps the level
    from 0 to 255; from then on [set_pixel] no longer writes through. *)
Theorem leave_without_enter (st : lcd_state) (x y pixel : Z) :
  uc_lcd_grouped_pixel_actions_level st = 0 ->
  uc_lcd_leave_grouped_pixel_changes cfg st = set_grouped_pixel_actions_level 255 st /\
  sent (uc_lcd_set_pixel cfg x y pixel (uc_lcd_leave_grouped_pixel_changes cfg st)) = sent st /\
  hw (uc_lcd_set_pixel cfg x y pixel (uc_lcd_leave_grouped_pixel_changes cfg st)) = hw st.
Proof.
  intros Hlevel.
  assert (Hleave : uc_lcd_leave_grouped_pixel_changes cfg st
                   = set_grouped_pixel_actions_level 255 st).
  { unfold uc_lcd_leave_grouped_pixel_changes. rewrite Hlevel. reflexivity. }
  rewrite Hleave. split; [reflexivity|].
  destruct (set_pixel_while_grouped cfg Himmediate (set_grouped_pixel_actions_level 255 st)
              x y pixel) as (b & ->); [cbn; lia|].
  split; reflexivity.
Qed.
End ImmediateMore.

(** ** Global operations: inversion, clear, fill, reset and init *)

Lemma u8_lnot_testbit v k : 0 <= k < 8 -> Z.testbit (u8 (Z.lnot v)) k = negb (Z.testbit v k).
Proof. intros Hk. rewrite u8_testbit by lia. apply Z.lnot_spec. lia. Qed.

Lemma buf_get_fmap (f : Z -> Z) (b : list Z) (i : Z) :
  (Z.to_nat i < length b)%nat -> buf_get (f <$> b) i = f (buf_get b i).
Proof.
  intros Hi. unfold buf_get. rewrite list_lookup_fmap.
  destruct (lookup_lt_is_Some_2 b (Z.to_nat i) Hi) as [v ->]. reflexivity.
Qed.

Section GlobalMore.
Context (cfg : config).

(** Switching the inversion on or off complements every stored bit and
    keeps every pixel's logical value, so a later [set_pixel] or read-back
    means the same as before. Flag values are 0 and 1, as documented. *)
Theorem set_inverted_keeps_logical_pixels (st : lcd_state) (invert x y : Z) :
  length (uc_lcd_buffer st) = 1024%nat ->
  invert = 0 \/ invert = 1 -> uc_lcd_inverted st = 0 \/ uc_lcd_inverted st = 1 ->
  0 <= x <= 127 -> 0 <= y <= 63 ->
  logical_pixel (uc_lcd_set_inverted cfg invert st) x y = logical_pixel st x y /\
  (invert <> uc_lcd_inverted st ->
   Z.testbit (buf_get (uc_lcd_buffer (uc_lcd_set_inverted cfg invert st)) (address_index x y))
     (address_bit y)
   = negb (Z.testbit (buf_get (uc_lcd_buffer st) (address_index x y)) (address_bit y))).
Proof.
  intros Hlen Hinv Hflag Hx Hy.
  pose proof (address_index_range x y Hx Hy) as Hidx.
  pose proof (Z.mod_pos_bound y 8 ltac:(lia)) as Hbit.
  destruct (decide (invert = uc_lcd_inverted st)) as [->|Hne].
  - rewrite set_inverted_unchanged. split; [reflexivity|]. intros Hc. exfalso. apply Hc.
    reflexivity.
  - destruct (set_inverted_changed cfg invert st Hlen Hne) as (Hb & Hi).
    assert (Hbitflip :
      Z.testbit (buf_get (uc_lcd_buffer (uc_lcd_set_inverted cfg invert st)) (address_index x y))
        (address_bit y)
      = negb (Z.testbit (buf_get (uc_lcd_buffer st) (address_index x y)) (address_bit y))).
    { rewrite Hb, buf_get_fmap by lia. apply u8_lnot_testbit. exact Hbit. }
    split; [|intros _; exact Hbitflip].
    unfold logical_pixel. rewrite Hbitflip, Hi. clear Hbitflip Hb Hi.
    generalize (Z.testbit (buf_get (uc_lcd_buffer st) (address_index x y)) (address_bit y)).
    intros t. destruct Hinv as [->| ->], Hflag as [Hf|Hf]; rewrite Hf in *;
      try (exfalso; apply Hne; reflexivity); destruct t; reflexivity.
Qed.

(** How the global operations reach the display: in buffered mode [clear]
    and [fill] send nothing and raise the changed flag; in immediate mode
    they send the 1024 bytes of the new buffer at once. *)
Theorem clear_fill_refresh (st : lcd_state) :
  length (uc_lcd_buffer st) = 1024%nat ->
  match lcd_mode cfg with
  | LCD_MODE_BUFFERED =>
      (sent (uc_lcd_clear cfg st) = sent st /\ hw (uc_lcd_clear cfg st) = hw st /\
       uc_lcd_data_changed (uc_lcd_clear cfg st) = 1) /\
      (sent (uc_lcd_fill cfg st) = sent st /\ hw (uc_lcd_fill cfg st) = hw st /\
       uc_lcd_data_changed (uc_lcd_fill cfg st) = 1)
  | LCD_MODE_IMMEDIATE =>
      (exists tr, sent (uc_lcd_clear cfg st) = sent st ++ tr /\
                  data_transfers tr = buffer_payload (uc_lcd_buffer (uc_lcd_clear cfg st))) /\
      (exists tr, sent (uc_lcd_fill cfg st) = sent st ++ tr /\
                  data_transfers tr = buffer_payload (uc_lcd_buffer (uc_lcd_fill cfg st)))
  end.
Proof.
  intros Hlen.
  assert (Hrefresh : forall c, 0 <= c < 256 ->
    match lcd_mode cfg with
    | LCD_MODE_BUFFERED =>
        sent (refresh_per_mode cfg (set_buffer (replicate 1024 c) st)) = sent st /\
        hw (refresh_per_mode cfg (set_buffer (replicate 1024 c) st)) = hw st /\
        uc_lcd_data_changed (refresh_per_mode cfg (set_buffer (replicate 1024 c) st)) = 1
    | LCD_MODE_IMMEDIATE =>
        exists tr,
          sent (refresh_per_mode cfg (set_buffer (replicate 1024 c) st)) = sent st ++ tr /\
          data_transfers tr
          = buffer_payload
              (uc_lcd_buffer (refresh_per_mode cfg (set_buffer (replicate 1024 c) st)))
    end).
  { intros c Hc. unfold refresh_per_mode. destruct (lcd_mode cfg); [repeat split|].
    destruct (send_buffer_to_lcd_spec cfg (set_buffer (replicate 1024 c) st))
      as (tr & (Hs & Hb & _) & Hd); [apply length_replicate|].
    exists tr. rewrite Hb. split; assumption. }
  unfold uc_lcd_clear, uc_lcd_fill.
  pose proof (Hrefresh 0x00 ltac:(lia)) as H0. pose proof (Hrefresh 0xFF ltac:(lia)) as H1.
  destruct (negb (uc_lcd_inverted st =? 0)); rewrite !fill_loop by (auto; lia);
    destruct (lcd_mode cfg); split; assumption.
Qed.

(** [reset] and [init] end in the same driver state wherever they start:
    inversion off, all 1024 bytes 0x00, hence every pixel off; in buffered
    mode the changed flag is lowered, in immediate mode the grouping level
    is 0. *)
Theorem reset_init_postcondition (st : lcd_state) :
  length (uc_lcd_buffer st) = 1024%nat ->
  let after (s : lcd_state) :=
    uc_lcd_buffer s = replicate 1024 0 /\ uc_lcd_inverted s = 0 /\
    match lcd_mode cfg with
    | LCD_MODE_BUFFERED => uc_lcd_data_changed s = 0
    | LCD_MODE_IMMEDIATE => uc_lcd_grouped_pixel_actions_level s = 0
    end /\
    forall x y, 0 <= x <= 127 -> 0 <= y <= 63 -> logical_pixel s x y = false in
  after (uc_lcd_reset cfg st) /\ after (uc_lcd_init cfg st).
Proof.
  intros Hlen after.
  assert (Hreset : forall s, length (uc_lcd_buffer s) = 1024%nat -> after (uc_lcd_reset cfg s)).
  { clear st Hlen. intros st Hlen. unfold uc_lcd_reset.
    (* inversion off *)
    assert (H1 : length (uc_lcd_buffer (uc_lcd_set_inverted cfg 0 st)) = 1024%nat /\
                 uc_lcd_inverted (uc_lcd_set_inverted cfg 0 st) = 0).
    { destruct (decide (0 = uc_lcd_inverted st)) as [E|E].
      - assert (Heq : uc_lcd_set_inverted cfg 0 st = st)
          by (rewrite E; apply set_inverted_unchanged).
        rewrite Heq. split; [exact Hlen | symmetry; exact E].
      - destruct (set_inverted_changed cfg 0 st Hlen E) as (Hb & Hi).
        rewrite Hb, length_fmap. auto. }
    generalize dependent (uc_lcd_set_inverted cfg 0 st). clear st Hlen.
    intros s1 (Hlen1 & Hinv1).
    (* start line, pages, columns *)
    pose proof (emits_send cfg 1 1 0 (Z.lor 0xC0 0) s1) as E2.
    fold (uc_lcd_set_startline cfg 0 s1) in E2.
    set (s2 := uc_lcd_set_startline cfg 0 s1) in *.
    destruct (command_step_set_page_chip_1 cfg 0 s2) as (t3 & E3 & _).
    set (s3 := uc_lcd_set_page_chip_1 cfg 0 s2) in *.
    destruct (command_step_set_page_chip_2 cfg 0 s3) as (t4 & E4 & _).
    set (s4 := uc_lcd_set_page_chip_2 cfg 0 s3) in *.
    destruct (command_step_set_column_chip_1 cfg 0 s4) as (t5 & E5 & _).
    set (s5 := uc_lcd_set_column_chip_1 cfg 0 s4) in *.
    destruct (command_step_set_column_chip_2 cfg 0 s5) as (t6 & E6 & _).
    set (s6 := uc_lcd_set_column_chip_2 cfg 0 s5) in *.
    pose proof (emits_trans _ _ _ _ _ E2 (emits_trans _ _ _ _ _ E3
                 (emits_trans _ _ _ _ _ E4 (emits_trans _ _ _ _ _ E5 E6))))
      as (_ & Hb6 & Hi6 & _).
    clearbody s6. clear E2 E3 E4 E5 E6 s2 s3 s4 s5.
    rewrite <- Hb6 in Hlen1. rewrite <- Hi6 in Hinv1. clear Hb6 Hi6 s1.
    assert (Hclear : forall s, length (uc_lcd_buffer s) = 1024%nat -> uc_lcd_inverted s = 0 ->
              uc_lcd_buffer (uc_lcd_clear cfg s) = replicate 1024 0 /\
              uc_lcd_inverted (uc_lcd_clear cfg s) = 0).
    { intros s Hl Hi. destruct (clear_spec cfg s Hl) as (Hb & Hi'). rewrite Hi in Hb.
      split; [exact Hb | congruence]. }
    assert (Hpixels : forall s, uc_lcd_buffer s = replicate 1024 0 -> uc_lcd_inverted s = 0 ->
              forall x y, 0 <= x <= 127 -> 0 <= y <= 63 -> logical_pixel s x y = false).
    { intros s Hb Hi x y Hx Hy. rewrite (logical_pixel_uniform s 0 x y Hb Hx Hy), Hi.
      rewrite Z.bits_0. reflexivity. }
    subst after. cbv beta. destruct (lcd_mode cfg) eqn:Hmode.
    - (* buffered: clear, then flush *)
      destruct (Hclear s6 Hlen1 Hinv1) as (Hb & Hi).
      assert (Hdirty : uc_lcd_data_changed (uc_lcd_clear cfg s6) = 1).
      { unfold uc_lcd_clear.
        destruct (negb (uc_lcd_inverted s6 =? 0)); rewrite fill_loop by (assumption || lia);
          unfold refresh_per_mode; rewrite Hmode; reflexivity. }
      assert (Hlen7 : length (uc_lcd_buffer (uc_lcd_clear cfg s6)) = 1024%nat).
      { rewrite Hb. apply length_replicate. }
      generalize dependent (uc_lcd_clear cfg s6). intros s7 Hb Hi Hdirty Hlen7.
      unfold uc_lcd_flush. rewrite Hdirty. cbn [Z.eqb negb].
      destruct (send_buffer_to_lcd_spec cfg s7 Hlen7) as (tr & (_ & Hb8 & Hi8 & _) & _).
      generalize dependent (uc_lcd_send_buffer_to_lcd cfg s7). intros s8 Hb8 Hi8.
      cbn [uc_lcd_buffer uc_lcd_inverted uc_lcd_data_changed set_data_changed].
      rewrite Hb8, Hi8. repeat split; try assumption.
      apply (Hpixels (set_data_changed 0 s8));
        cbn [uc_lcd_buffer uc_lcd_inverted set_data_changed]; congruence.
    - (* immediate: level 0, then clear *)
      set (s7 := set_grouped_pixel_actions_level 0 s6).
      destruct (Hclear s7 Hlen1 Hinv1) as (Hb & Hi).
      assert (Hlevel : uc_lcd_grouped_pixel_actions_level (uc_lcd_clear cfg s7) = 0).
      { unfold uc_lcd_clear.
        destruct (negb (uc_lcd_inverted s7 =? 0)); rewrite fill_loop by (assumption || lia);
          unfold refresh_per_mode; rewrite Hmode;
          match goal with
          | |- context [uc_lcd_send_buffer_to_lcd cfg ?s] =>
              destruct (send_buffer_to_lcd_spec cfg s) as (tr & (_ & _ & _ & Hl & _) & _);
              [apply length_replicate|]; rewrite Hl; reflexivity
          end. }
      repeat split; try assumption. apply Hpixels; assumption. }
  split; [apply Hreset; exact Hlen|].
  unfold uc_lcd_init. apply Hreset. exact Hlen.
Qed.
End GlobalMore.

(** ** The transports, for any wiring *)

Lemma io_reg_write cfg r v h : io (reg_write cfg r v h) = <[r := u8 v]> (io h).
Proof.
  unfold reg_write. destruct (lcd_data_mode cfg); try reflexivity.
  destruct (_ && _); reflexivity.
Qed.

Lemma pin_level_reg_write cfg r v h r' p' :
  pin_level r' p' (reg_write cfg r v h)
  = if decide (r = r') then Z.testbit (u8 v) p' else pin_level r' p' h.
Proof.
  unfold pin_level, reg_read. rewrite io_reg_write, lookup_insert.
  destruct (decide (r = r')); reflexivity.
Qed.

(** [REG |= v] raises the bits of [v] in [REG] and leaves every other line
    as it is. *)
Lemma pin_level_reg_or cfg r v h r' p' :
  0 <= p' < 8 ->
  pin_level r' p' (reg_or cfg r v h)
  = if decide (r = r') then pin_level r' p' h || Z.testbit v p' else pin_level r' p' h.
Proof.
  intros Hp. unfold reg_or. rewrite pin_level_reg_write.
  destruct (decide (r = r')) as [->|]; [|reflexivity].
  rewrite u8_testbit, Z.lor_spec by lia. reflexivity.
Qed.

(** [REG &= ~v] lowers the bits of [v] in [REG] and leaves every other line
    as it is. *)
Lemma pin_level_reg_and_not cfg r v h r' p' :
  0 <= p' < 8 ->
  pin_level r' p' (reg_and_not cfg r v h)
  = if decide (r = r') then pin_level r' p' h && negb (Z.testbit v p')
    else pin_level r' p' h.
Proof.
  intros Hp. unfold reg_and_not. rewrite pin_level_reg_write.
  destruct (decide (r = r')) as [->|]; [|reflexivity].
  rewrite u8_testbit, Z.land_spec, Z.lnot_spec by lia. reflexivity.
Qed.

Lemma testbit_one_shifted p p' : 0 <= p -> Z.testbit (Z.shiftl 1 p) p' = bool_decide (p = p').
Proof.
  intros Hp. rewrite Z.shiftl_1_l. destruct (decide (p = p')) as [->|Hne].
  - rewrite Z.pow2_bits_true by lia. symmetry. apply bool_decide_eq_true. reflexivity.
  - rewrite Z.pow2_bits_false by lia. symmetry. apply bool_decide_eq_false. exact Hne.
Qed.

Lemma testbit_b2z_shifted (c : bool) p p' :
  0 <= p -> 0 <= p' -> Z.testbit (Z.shiftl (Z.b2z c) p) p' = c && bool_decide (p = p').
Proof.
  intros Hp Hp'. destruct c; cbn [Z.b2z andb].
  - apply testbit_one_shifted. exact Hp.
  - rewrite Z.shiftl_0_l. apply Z.bits_0.
Qed.

Lemma reg_read_reg_write cfg r v h r' :
  reg_read r' (reg_write cfg r v h) = if decide (r = r') then u8 v else reg_read r' h.
Proof.
  unfold reg_read. rewrite io_reg_write, lookup_insert.
  destruct (decide (r = r')); reflexivity.
Qed.

(** With one control register, [uc_lcd_send] puts the byte on the data
    lines and pulses enable back to low, but it only ever raises CSEL1,
    CSEL2 and Command/Data: each of them ends up high if it was high before
    or its argument is 1. *)
Theorem parallel_together_lines_only_rise (cfg : config) (h : hardware)
    (c1 c2 cd : bool) (d : Z) :
  together_wiring_ok cfg -> 0 <= d < 256 ->
  device_lines cfg (uc_lcd_send_hw cfg (Z.b2z c1) (Z.b2z c2) (Z.b2z cd) d h)
  = {| line_csel1 := line_csel1 (device_lines cfg h) || c1;
       line_csel2 := line_csel2 (device_lines cfg h) || c2;
       line_command_data := line_command_data (device_lines cfg h) || cd;
       line_data := d |} /\
  pin_level (LCD_DMP_PORT_CONTROL cfg) (LCD_DMP_PIN_ENABLE cfg)
    (uc_lcd_send_hw cfg (Z.b2z c1) (Z.b2z c2) (Z.b2z cd) d h) = false.
Proof.
  intros (Hmode & Hports & H1 & H2 & H3 & H4 & Hnodup) Hd.
  apply NoDup_cons in Hnodup as (Hn1 & Hnodup). apply NoDup_cons in Hnodup as (Hn2 & Hnodup).
  apply NoDup_cons in Hnodup as (Hn3 & _).
  repeat rewrite not_elem_of_cons in Hn1. repeat rewrite not_elem_of_cons in Hn2.
  repeat rewrite not_elem_of_cons in Hn3.
  destruct Hn1 as (N12 & N13 & N14 & _), Hn2 as (N23 & N24 & _), Hn3 as (N34 & _).
  unfold device_lines, uc_lcd_send_hw. rewrite Hmode.
  assert (Hbits : forall p, 0 <= p < 8 -> p <> LCD_DMP_PIN_ENABLE cfg ->
            pin_level (LCD_DMP_PORT_CONTROL cfg) p
              (reg_and_not cfg (LCD_DMP_PORT_CONTROL cfg) (Z.shiftl 1 (LCD_DMP_PIN_ENABLE cfg))
                 (reg_or cfg (LCD_DMP_PORT_CONTROL cfg) (Z.shiftl 1 (LCD_DMP_PIN_ENABLE cfg))
                    (reg_or cfg (LCD_DMP_PORT_CONTROL cfg)
                       (Z.lor (Z.lor (Z.shiftl (Z.b2z c1) (LCD_DMP_PIN_CSEL1 cfg))
                                     (Z.shiftl (Z.b2z c2) (LCD_DMP_PIN_CSEL2 cfg)))
                              (Z.shiftl (Z.b2z cd) (LCD_DMP_PIN_COMMAND_DATA cfg)))
                       (reg_write cfg (LCD_DMP_PORT_DATA cfg) d h))))
            = pin_level (LCD_DMP_PORT_CONTROL cfg) p h
              || (c1 && bool_decide (LCD_DMP_PIN_CSEL1 cfg = p)
                  || c2 && bool_decide (LCD_DMP_PIN_CSEL2 cfg = p)
                  || cd && bool_decide (LCD_DMP_PIN_COMMAND_DATA cfg = p))).
  { intros p Hp Hpe.
    rewrite pin_level_reg_and_not, !pin_level_reg_or, pin_level_reg_write by lia.
    rewrite !decide_True by reflexivity. rewrite decide_False by exact Hports.
    rewrite !Z.lor_spec, !testbit_b2z_shifted, testbit_one_shifted by lia.
    rewrite (bool_decide_eq_false_2 (LCD_DMP_PIN_ENABLE cfg = p)) by congruence.
    cbn [negb]. rewrite orb_false_r, andb_true_r. reflexivity. }
  split.
  - f_equal.
    + rewrite Hbits by (lia || congruence).
      repeat case_bool_decide; try congruence;
        destruct c1, c2, cd, (pin_level _ _ h); reflexivity.
    + rewrite Hbits by (lia || congruence).
      repeat case_bool_decide; try congruence;
        destruct c1, c2, cd, (pin_level _ _ h); reflexivity.
    + rewrite Hbits by (lia || congruence).
      repeat case_bool_decide; try congruence;
        destruct c1, c2, cd, (pin_level _ _ h); reflexivity.
    + unfold reg_and_not, reg_or. rewrite !reg_read_reg_write.
      rewrite !(decide_False (P := LCD_DMP_PORT_CONTROL cfg = LCD_DMP_PORT_DATA cfg))
        by congruence.
      rewrite decide_True by reflexivity. apply u8_small. exact Hd.
  - rewrite pin_level_reg_and_not by lia. rewrite decide_True by reflexivity.
    rewrite testbit_one_shifted, bool_decide_eq_true_2 by (lia || reflexivity).
    apply andb_false_r.
Qed.

(** Raising or lowering one line, seen from any line. *)
Lemma line_reg_or cfg r0 p0 (c : bool) h r p :
  0 <= p0 < 8 -> 0 <= p < 8 ->
  pin_level r p (reg_or cfg r0 (Z.shiftl (Z.b2z c) p0) h)
  = pin_level r p h || c && bool_decide ((r0, p0) = (r, p)).
Proof.
  intros Hp0 Hp. rewrite pin_level_reg_or, testbit_b2z_shifted by lia.
  destruct (decide (r0 = r)) as [->|Hne].
  - f_equal. f_equal. apply bool_decide_ext. split; congruence.
  - rewrite (bool_decide_eq_false_2 (_ = _)) by congruence.
    rewrite andb_false_r, orb_false_r. reflexivity.
Qed.

Lemma line_reg_and_not cfg r0 p0 h r p :
  0 <= p0 < 8 -> 0 <= p < 8 ->
  pin_level r p (reg_and_not cfg r0 (Z.shiftl 1 p0) h)
  = pin_level r p h && negb (bool_decide ((r0, p0) = (r, p))).
Proof.
  intros Hp0 Hp. rewrite pin_level_reg_and_not, testbit_one_shifted by lia.
  destruct (decide (r0 = r)) as [->|Hne].
  - f_equal. f_equal. apply bool_decide_ext. split; congruence.
  - rewrite (bool_decide_eq_false_2 (_ = _)) by congruence.
    rewrite andb_true_r. reflexivity.
Qed.

(** With a register per control line, [uc_lcd_send] drives all three of
    CSEL1, CSEL2 and Command/Data from its [csel1] argument, and like the
    shared-register variant it only ever raises them: each line ends up
    high if it was high before or [csel1] is 1. *)
Theorem parallel_individual_lines_follow_csel1 (cfg : config) (h : hardware)
    (c1 c2 cd : bool) (d : Z) :
  individual_wiring_ok cfg -> 0 <= d < 256 ->
  device_lines cfg (uc_lcd_send_hw cfg (Z.b2z c1) (Z.b2z c2) (Z.b2z cd) d h)
  = {| line_csel1 := line_csel1 (device_lines cfg h) || c1;
       line_csel2 := line_csel2 (device_lines cfg h) || c1;
       line_command_data := line_command_data (device_lines cfg h) || c1;
       line_data := d |}.
Proof.
  intros (Hmode & D1 & D2 & D3 & D4 & H1 & H2 & H3 & H4 & Hnodup) Hd.
  apply NoDup_cons in Hnodup as (Hn1 & Hnodup). apply NoDup_cons in Hnodup as (Hn2 & Hnodup).
  apply NoDup_cons in Hnodup as (Hn3 & _).
  repeat rewrite not_elem_of_cons in Hn1. repeat rewrite not_elem_of_cons in Hn2.
  repeat rewrite not_elem_of_cons in Hn3.
  destruct Hn1 as (N12 & N13 & N14 & _), Hn2 as (N23 & N24 & _), Hn3 as (N34 & _).
  unfold device_lines, uc_lcd_send_hw. rewrite Hmode.
  assert (Hbits : forall r p, 0 <= p < 8 -> r <> LCD_DMP_PORT_DATA cfg ->
            (r, p) <> (LCD_DMP_PORT_ENABLE cfg, LCD_DMP_PIN_ENABLE cfg) ->
            pin_level r p
              (reg_and_not cfg (LCD_DMP_PORT_ENABLE cfg) (Z.shiftl 1 (LCD_DMP_PIN_ENABLE cfg))
                 (reg_or cfg (LCD_DMP_PORT_ENABLE cfg) (Z.shiftl 1 (LCD_DMP_PIN_ENABLE cfg))
                    (reg_or cfg (LCD_DMP_PORT_COMMAND_DATA cfg)
                       (Z.shiftl (Z.b2z c1) (LCD_DMP_PIN_COMMAND_DATA cfg))
                       (reg_or cfg (LCD_DMP_PORT_CSEL2 cfg)
                          (Z.shiftl (Z.b2z c1) (LCD_DMP_PIN_CSEL2 cfg))
                          (reg_or cfg (LCD_DMP_PORT_CSEL1 cfg)
                             (Z.shiftl (Z.b2z c1) (LCD_DMP_PIN_CSEL1 cfg))
                             (reg_write cfg (LCD_DMP_PORT_DATA cfg) d h))))))
            = pin_level r p h
              || c1 && (bool_decide ((LCD_DMP_PORT_CSEL1 cfg, LCD_DMP_PIN_CSEL1 cfg) = (r, p))
                        || bool_decide
                             ((LCD_DMP_PORT_CSEL2 cfg, LCD_DMP_PIN_CSEL2 cfg) = (r, p))
                        || bool_decide
                             ((LCD_DMP_PORT_COMMAND_DATA cfg, LCD_DMP_PIN_COMMAND_DATA cfg)
                              = (r, p)))).
  { intros r p Hp Hr Hpe.
    rewrite line_reg_and_not, (line_reg_or _ _ _ true), !line_reg_or by lia.
    rewrite pin_level_reg_write, decide_False by congruence.
    rewrite (bool_decide_eq_false_2
               ((LCD_DMP_PORT_ENABLE cfg, LCD_DMP_PIN_ENABLE cfg) = (r, p))) by congruence.
    cbn [negb andb]. rewrite orb_false_r, andb_true_r.
    destruct c1, (pin_level r p h), (bool_decide _), (bool_decide _), (bool_decide _);
      reflexivity. }
  f_equal.
  - rewrite Hbits by (lia || congruence).
    repeat case_bool_decide; try congruence; destruct c1, (pin_level _ _ h); reflexivity.
  - rewrite Hbits by (lia || congruence).
    repeat case_bool_decide; try congruence; destruct c1, (pin_level _ _ h); reflexivity.
  - rewrite Hbits by (lia || congruence).
    repeat case_bool_decide; try congruence; destruct c1, (pin_level _ _ h); reflexivity.
  - unfold reg_and_not, reg_or. rewrite !reg_read_reg_write.
    rewrite !decide_False by congruence. rewrite decide_True by reflexivity.
    apply u8_small. exact Hd.
Qed.

(** Eight bits shifted out most significant first and read back with the
    last one as bit 0 give the byte again. *)
Lemma data_bits_round_trip d :
  0 <= d < 256 -> bits_to_Z (rev (shifted_out_bits d 128 8)) = d.
Proof.
  intros Hd.
  assert (Hall : forallb (fun d => bits_to_Z (rev (shifted_out_bits d 128 8)) =? d)
                   (seqZ 0 256) = true) by (vm_compute; reflexivity).
  assert (Hin : In d (seqZ 0 256)) by (apply list_elem_of_In, elem_of_seqZ; lia).
  pose proof (proj1 (forallb_forall _ _) Hall d Hin) as H.
  apply Z.eqb_eq in H. exact H.
Qed.

(** The three instruction bits arrive on the stage they are configured for. *)
Lemma control_bits_round_trip (b1 b2 b3 : Z) (c1 c2 cd : bool) :
  0 <= b1 <= 2 -> 0 <= b2 <= 2 -> 0 <= b3 <= 2 -> b1 <> b2 -> b1 <> b3 -> b2 <> b3 ->
  let bits :=
    rev (shifted_out_bits
           (u8 (Z.lor (Z.lor (Z.shiftl (Z.b2z c1) b1) (Z.shiftl (Z.b2z c2) b2))
                      (Z.shiftl (Z.b2z cd) b3))) 4 3) in
  bits !! Z.to_nat b1 = Some c1 /\ bits !! Z.to_nat b2 = Some c2 /\
  bits !! Z.to_nat b3 = Some cd.
Proof.
  intros H1 H2 H3 N12 N13 N23.
  assert (E1 : b1 = 0 \/ b1 = 1 \/ b1 = 2) by lia.
  assert (E2 : b2 = 0 \/ b2 = 1 \/ b2 = 2) by lia.
  assert (E3 : b3 = 0 \/ b3 = 1 \/ b3 = 2) by lia.
  destruct E1 as [->|[->| ->]], E2 as [->|[->| ->]], E3 as [->|[->| ->]];
    try (exfalso; lia); destruct c1, c2, cd; vm_compute; repeat split; reflexivity.
Qed.

Lemma length_shifted_out_bits v mask n : length (shifted_out_bits v mask n) = n.
Proof. revert v. induction n as [|n IH]; intros v; cbn; [reflexivity|]. rewrite IH. reflexivity. Qed.

Section SerialTransport.
Context (cfg : config).
Hypothesis Hwiring : serial_wiring_ok cfg.

Local Abbreviation clk h := (pin_level (LCD_DMS_PORT_CLOCK cfg) (LCD_DMS_PIN_CLOCK cfg) h).
Local Abbreviation ser h := (pin_level (LCD_DMS_PORT_SERIAL cfg) (LCD_DMS_PIN_SERIAL cfg) h).

(** Clock low, shift stages [l], output latches [o]. *)
Local Abbreviation chain h l o := (clk h = false /\ sr_shift h = l /\ sr_out h = o).

Lemma sr_reg_write r v h :
  (sr_shift (reg_write cfg r v h), sr_out (reg_write cfg r v h))
  = if negb (clk h) && clk (reg_write cfg r v h)
    then (ser (reg_write cfg r v h) :: removelast (sr_shift h), sr_shift h)
    else (sr_shift h, sr_out h).
Proof.
  destruct Hwiring as (Hmode & _).
  unfold pin_level at 2 3, reg_read. rewrite io_reg_write.
  unfold reg_write. rewrite Hmode. cbv zeta.
  unfold pin_level at 2 3, reg_read. cbn [io].
  destruct (negb _ && _); reflexivity.
Qed.

Lemma serial_line_set (on : bool) h l o :
  chain h l o ->
  chain ((if on then LCD_TURN_ON_SERIAL cfg else LCD_TURN_OFF_SERIAL cfg) h) l o /\
  ser ((if on then LCD_TURN_ON_SERIAL cfg else LCD_TURN_OFF_SERIAL cfg) h) = on.
Proof.
  destruct Hwiring as (_ & Hc & Hs & _ & Hcs & _).
  intros (Hclk & Hl & Ho).
  assert (Hclk' : forall v, Z.testbit v (LCD_DMS_PIN_SERIAL cfg) = true ->
            (forall p, p <> LCD_DMS_PIN_SERIAL cfg -> 0 <= p -> Z.testbit v p = false) ->
            pin_level (LCD_DMS_PORT_CLOCK cfg) (LCD_DMS_PIN_CLOCK cfg)
              (reg_or cfg (LCD_DMS_PORT_SERIAL cfg) v h) = false /\
            pin_level (LCD_DMS_PORT_CLOCK cfg) (LCD_DMS_PIN_CLOCK cfg)
              (reg_and_not cfg (LCD_DMS_PORT_SERIAL cfg) v h) = false).
  { intros v _ Hv. rewrite pin_level_reg_or, pin_level_reg_and_not by lia.
    destruct (decide (LCD_DMS_PORT_SERIAL cfg = LCD_DMS_PORT_CLOCK cfg)) as [E|E];
      [|auto].
    rewrite Hv, Hclk by (try lia; intros E'; apply Hcs; congruence). auto. }
  destruct (Hclk' (Z.shiftl 1 (LCD_DMS_PIN_SERIAL cfg))) as (Hon & Hoff).
  { rewrite testbit_one_shifted by lia. apply bool_decide_eq_true_2. reflexivity. }
  { intros p Hp Hp0. rewrite testbit_one_shifted by lia. apply bool_decide_eq_false_2.
    congruence. }
  destruct on.
  - unfold LCD_TURN_ON_SERIAL. split; [split; [exact Hon|]|].
    + pose proof (sr_reg_write (LCD_DMS_PORT_SERIAL cfg)
                    (Z.lor (reg_read (LCD_DMS_PORT_SERIAL cfg) h)
                           (Z.shiftl 1 (LCD_DMS_PIN_SERIAL cfg))) h) as Hsr.
      fold (reg_or cfg (LCD_DMS_PORT_SERIAL cfg) (Z.shiftl 1 (LCD_DMS_PIN_SERIAL cfg)) h) in Hsr.
      cbv beta in Hsr. rewrite Hon, andb_false_r in Hsr.
      injection Hsr as -> ->. auto.
    + rewrite pin_level_reg_or, decide_True by (lia || reflexivity).
      rewrite testbit_one_shifted, bool_decide_eq_true_2 by (lia || reflexivity).
      apply orb_true_r.
  - unfold LCD_TURN_OFF_SERIAL. split; [split; [exact Hoff|]|].
    + pose proof (sr_reg_write (LCD_DMS_PORT_SERIAL cfg)
                    (Z.land (reg_read (LCD_DMS_PORT_SERIAL cfg) h)
                            (Z.lnot (Z.shiftl 1 (LCD_DMS_PIN_SERIAL cfg)))) h) as Hsr.
      fold (reg_and_not cfg (LCD_DMS_PORT_SERIAL cfg)
              (Z.shiftl 1 (LCD_DMS_PIN_SERIAL cfg)) h) in Hsr.
      cbv beta in Hsr. rewrite Hoff, andb_false_r in Hsr.
      injection Hsr as -> ->. auto.
    + rewrite pin_level_reg_and_not, decide_True by (lia || reflexivity).
      rewrite testbit_one_shifted, bool_decide_eq_true_2 by (lia || reflexivity).
      apply andb_false_r.
Qed.

(** One clock pulse: the stages go to the output latches and the level of
    the serial line enters stage 0. *)
Lemma toggle_clock_chain h l o :
  chain h l o -> chain (LCD_TOGGLE_CLOCK cfg h) (ser h :: removelast l) l.
Proof.
  destruct Hwiring as (_ & Hc & Hs & _ & Hcs & _).
  intros (Hclk & Hl & Ho).
  unfold LCD_TOGGLE_CLOCK, LCD_TURN_OFF_CLOCK, LCD_TURN_ON_CLOCK.
  set (h1 := reg_or cfg (LCD_DMS_PORT_CLOCK cfg) (Z.shiftl 1 (LCD_DMS_PIN_CLOCK cfg)) h).
  assert (Hclk1 : pin_level (LCD_DMS_PORT_CLOCK cfg) (LCD_DMS_PIN_CLOCK cfg) h1 = true).
  { subst h1. rewrite pin_level_reg_or, decide_True by (lia || reflexivity).
    rewrite testbit_one_shifted, bool_decide_eq_true_2 by (lia || reflexivity).
    apply orb_true_r. }
  assert (Hser1 : pin_level (LCD_DMS_PORT_SERIAL cfg) (LCD_DMS_PIN_SERIAL cfg) h1
                  = pin_level (LCD_DMS_PORT_SERIAL cfg) (LCD_DMS_PIN_SERIAL cfg) h).
  { subst h1. rewrite pin_level_reg_or by lia.
    destruct (decide (LCD_DMS_PORT_CLOCK cfg = LCD_DMS_PORT_SERIAL cfg)) as [E|E];
      [|reflexivity].
    rewrite testbit_one_shifted, bool_decide_eq_false_2 by (try lia; intros E'; apply Hcs;
      congruence). apply orb_false_r. }
  assert (Hsr1 : sr_shift h1
                 = pin_level (LCD_DMS_PORT_SERIAL cfg) (LCD_DMS_PIN_SERIAL cfg) h
                   :: removelast l /\ sr_out h1 = l).
  { pose proof (sr_reg_write (LCD_DMS_PORT_CLOCK cfg)
                  (Z.lor (reg_read (LCD_DMS_PORT_CLOCK cfg) h)
                         (Z.shiftl 1 (LCD_DMS_PIN_CLOCK cfg))) h) as Hsr.
    fold (reg_or cfg (LCD_DMS_PORT_CLOCK cfg) (Z.shiftl 1 (LCD_DMS_PIN_CLOCK cfg)) h) in Hsr.
    fold h1 in Hsr. cbv beta in Hsr. rewrite Hclk, Hclk1, Hser1, Hl in Hsr. cbn [negb andb] in Hsr.
    injection Hsr as -> ->. auto. }
  destruct Hsr1 as (Hs1 & Ho1).
  pose proof (sr_reg_write (LCD_DMS_PORT_CLOCK cfg)
                (Z.land (reg_read (LCD_DMS_PORT_CLOCK cfg) h1)
                        (Z.lnot (Z.shiftl 1 (LCD_DMS_PIN_CLOCK cfg)))) h1) as Hsr.
  fold (reg_and_not cfg (LCD_DMS_PORT_CLOCK cfg) (Z.shiftl 1 (LCD_DMS_PIN_CLOCK cfg)) h1) in Hsr.
  cbv beta in Hsr. rewrite Hclk1 in Hsr. cbn [negb andb] in Hsr.
  injection Hsr as -> ->. split; [|auto].
  rewrite pin_level_reg_and_not, decide_True by (lia || reflexivity).
  rewrite testbit_one_shifted, bool_decide_eq_true_2 by (lia || reflexivity).
  apply andb_false_r.
Qed.

Lemma shift_bit_chain v mask h l o :
  chain h l o -> chain (shift_bit cfg v mask h) (negb (Z.land v mask =? 0) :: removelast l) l.
Proof.
  intros Hchain. unfold shift_bit.
  destruct (serial_line_set (negb (Z.land v mask =? 0)) h l o Hchain) as (Hc & Hs).
  destruct (Z.land v mask =? 0); cbn [negb] in *;
    pose proof (toggle_clock_chain _ _ _ Hc) as H; rewrite Hs in H; exact H.
Qed.
Lemma shift_out_unrolled instructions data h :
  uc_lcd_shift_out cfg instructions data h
  = LCD_TOGGLE_CLOCK cfg (shift_n cfg data 128 8 (shift_n cfg instructions 4 3 h)).
Proof. reflexivity. Qed.

Lemma shift_n_chain v mask n : forall h l o,
  chain h l o -> (n <= length l)%nat ->
  exists o',
    chain (shift_n cfg v mask n h)
      (rev (shifted_out_bits v mask n) ++ take (length l - n) l) o'.
Proof.
  revert v. induction n as [|n IH]; intros v h l o Hchain Hn.
  - exists o. cbn [shift_n shifted_out_bits rev app].
    rewrite Nat.sub_0_r, take_ge by lia. exact Hchain.
  - cbn [shift_n shifted_out_bits rev].
    pose proof (shift_bit_chain v mask h l o Hchain) as H1.
    assert (Hlen1 : length (negb (Z.land v mask =? 0) :: removelast l) = length l).
    { rewrite removelast_firstn_len. cbn [length]. rewrite length_take. lia. }
    destruct (IH (u8 (Z.shiftl v 1)) _ _ _ H1) as (o' & H2); [lia|].
    exists o'. rewrite Hlen1 in H2.
    replace (length l - n)%nat with (S (length l - S n)) in H2 by lia.
    cbn [take firstn] in H2. rewrite firstn_removelast in H2 by lia.
    rewrite <- app_assoc. exact H2.
Qed.

(** A store that raises or lowers a line other than the clock line leaves
    the chain alone. *)
Lemma other_line_chain r p h l o :
  (LCD_DMS_PORT_CLOCK cfg, LCD_DMS_PIN_CLOCK cfg) <> (r, p) -> 0 <= p < 8 ->
  chain h l o ->
  chain (reg_or cfg r (Z.shiftl 1 p) h) l o /\ chain (reg_and_not cfg r (Z.shiftl 1 p) h) l o.
Proof.
  destruct Hwiring as (_ & Hc & _).
  intros Hline Hp (Hclk & Hl & Ho).
  assert (Hon : clk (reg_or cfg r (Z.shiftl 1 p) h) = false).
  { rewrite pin_level_reg_or by lia. destruct (decide (r = _)) as [E|E]; [|exact Hclk].
    rewrite testbit_one_shifted, bool_decide_eq_false_2, Hclk
      by (try lia; intros E'; apply Hline; congruence). reflexivity. }
  assert (Hoff : clk (reg_and_not cfg r (Z.shiftl 1 p) h) = false).
  { rewrite pin_level_reg_and_not by lia. destruct (decide (r = _)) as [E|E]; [|exact Hclk].
    rewrite Hclk. reflexivity. }
  split; (split; [assumption|]).
  - pose proof (sr_reg_write r (Z.lor (reg_read r h) (Z.shiftl 1 p)) h) as Hsr.
    fold (reg_or cfg r (Z.shiftl 1 p) h) in Hsr. rewrite Hon, andb_false_r in Hsr.
    injection Hsr as -> ->. auto.
  - pose proof (sr_reg_write r (Z.land (reg_read r h) (Z.lnot (Z.shiftl 1 p))) h) as Hsr.
    fold (reg_and_not cfg r (Z.shiftl 1 p) h) in Hsr. rewrite Hoff, andb_false_r in Hsr.
    injection Hsr as -> ->. auto.
Qed.

(** The serial transport is exact for every transfer: with the clock line
    idle, [uc_lcd_send] leaves exactly its four arguments on the display's
    lines, whatever the registers and the shift stages held before, and the
    clock line is idle again afterwards. *)
Theorem serial_send_presents_arguments (h : hardware) (c1 c2 cd : bool) (d : Z) :
  serial_idle cfg h -> 0 <= d < 256 ->
  device_lines cfg (uc_lcd_send_hw cfg (Z.b2z c1) (Z.b2z c2) (Z.b2z cd) d h)
  = {| line_csel1 := c1; line_csel2 := c2; line_command_data := cd; line_data := d |} /\
  serial_idle cfg (uc_lcd_send_hw cfg (Z.b2z c1) (Z.b2z c2) (Z.b2z cd) d h).
Proof.
  intros (Hclk & Hlen) Hd.
  pose proof Hwiring as (Hmode & Hc & Hs & He & Hcs & Hce & B1 & B2 & B3 & Hnodup).
  apply NoDup_cons in Hnodup as (Hn1 & Hnodup). apply NoDup_cons in Hnodup as (Hn2 & _).
  repeat rewrite not_elem_of_cons in Hn1. repeat rewrite not_elem_of_cons in Hn2.
  destruct Hn1 as (N12 & N13 & _), Hn2 as (N23 & _).
  unfold device_lines, uc_lcd_send_hw, serial_idle. rewrite Hmode.
  set (instructions := u8 _).
  rewrite shift_out_unrolled.
  destruct (shift_n_chain instructions 4 3 h (sr_shift h) (sr_out h)) as (o1 & H1);
    [auto | lia |].
  match type of H1 with _ /\ sr_shift _ = ?l /\ _ =>
    destruct (shift_n_chain d 128 8 _ l o1 H1) as (o2 & H2);
      [rewrite length_app, length_rev, length_shifted_out_bits, length_take; lia|]
  end.
  rewrite length_app, length_rev, length_shifted_out_bits, length_take, Hlen in H2.
  change (16 - 3)%nat with 13%nat in H2. change (3 + 13 `min` 16 - 8)%nat with 8%nat in H2.
  rewrite take_app, length_rev, length_shifted_out_bits in H2.
  rewrite (take_ge (rev _)) in H2 by (rewrite length_rev, length_shifted_out_bits; lia).
  change (8 - 3)%nat with 5%nat in H2. rewrite take_take in H2.
  change (5 `min` 13)%nat with 5%nat in H2.
  apply toggle_clock_chain in H2.
  apply (other_line_chain (LCD_DMS_PORT_ENABLE cfg) (LCD_DMS_PIN_ENABLE cfg)) in H2 as (H3 & _);
    [|assumption|assumption].
  apply (other_line_chain (LCD_DMS_PORT_ENABLE cfg) (LCD_DMS_PIN_ENABLE cfg)) in H3 as (_ & H4);
    [|assumption|assumption].
  destruct H4 as (Hclk4 & Hshift4 & Hout4).
  destruct (control_bits_round_trip (LCD_DMS_SR_BIT_CSEL1 cfg) (LCD_DMS_SR_BIT_CSEL2 cfg)
              (LCD_DMS_SR_BIT_COMMAND_DATA cfg) c1 c2 cd B1 B2 B3 N12 N13 N23)
    as (Hb1 & Hb2 & Hb3).
  fold instructions in Hb1, Hb2, Hb3.
  assert (Hq : forall b v, 0 <= b <= 2 ->
            rev (shifted_out_bits instructions 4 3) !! Z.to_nat b = Some v ->
            default false
              ((rev (shifted_out_bits d 128 8) ++ rev (shifted_out_bits instructions 4 3)
                ++ take 5 (sr_shift h)) !! Z.to_nat (8 + b)) = v).
  { intros b v Hb Hv.
    rewrite lookup_app_r by (rewrite length_rev, length_shifted_out_bits; lia).
    rewrite length_rev, length_shifted_out_bits.
    replace (Z.to_nat (8 + b) - 8)%nat with (Z.to_nat b) by lia.
    rewrite lookup_app_l by (rewrite length_rev, length_shifted_out_bits; lia).
    rewrite Hv. reflexivity. }
  split.
  - unfold sr_q. rewrite Hout4. f_equal; try (apply Hq; assumption).
    rewrite take_app_length' by (rewrite length_rev, length_shifted_out_bits; reflexivity).
    apply data_bits_round_trip. exact Hd.
  - split; [exact Hclk4|]. rewrite Hshift4. cbn [length].
    rewrite removelast_firstn_len, length_take, !length_app, !length_rev,
      !length_shifted_out_bits, length_take. lia.
Qed.
End SerialTransport.

(** ** Rectangles *)

Section Rectangles.
Context (cfg : config).

Lemma set_pixel_length x y pixel st :
  length (uc_lcd_buffer (uc_lcd_set_pixel cfg x y pixel st)) = length (uc_lcd_buffer st).
Proof.
  destruct (Z_le_gt_dec x 127) as [Hx|Hx];
    [|rewrite set_pixel_off_display by lia; reflexivity].
  destruct (Z_le_gt_dec y 63) as [Hy|Hy];
    [|rewrite set_pixel_off_display by lia; reflexivity].
  destruct (set_pixel_in_range cfg x y pixel st Hx Hy) as (Hb & _).
  rewrite Hb. unfold buf_set. apply length_insert.
Qed.

Lemma set_pixels_app ps1 ps2 st :
  set_pixels cfg (ps1 ++ ps2) st = set_pixels cfg ps2 (set_pixels cfg ps1 st).
Proof. unfold set_pixels. apply foldl_app. Qed.

(** A run of [set_pixel] calls with one pixel value turns exactly the
    pixels it names to that value. *)
Lemma set_pixels_logical (ps : list (Z * Z * Z)) (p : Z) : forall st px py,
  length (uc_lcd_buffer st) = 1024%nat ->
  Forall (fun '(x, y, q) => 0 <= x /\ 0 <= y /\ q = p) ps ->
  0 <= px <= 127 -> 0 <= py <= 63 ->
  ((px, py, p) ∈ ps -> logical_pixel (set_pixels cfg ps st) px py = negb (p =? 0)) /\
  ((px, py, p) ∉ ps -> logical_pixel (set_pixels cfg ps st) px py = logical_pixel st px py).
Proof.
  induction ps as [|[[x y] q] ps IH]; intros st px py Hlen Hall Hpx Hpy.
  - split; [intros H; apply elem_of_nil in H; contradiction | reflexivity].
  - apply Forall_cons in Hall as ((Hx & Hy & ->) & Hall).
    change (set_pixels cfg ((x, y, p) :: ps) st)
      with (set_pixels cfg ps (uc_lcd_set_pixel cfg x y p st)).
    destruct (IH (uc_lcd_set_pixel cfg x y p st) px py) as (IHin & IHout); try assumption.
    { rewrite set_pixel_length. exact Hlen. }
    split.
    + intros Hin. destruct (decide ((px, py, p) ∈ ps)) as [Hps|Hps]; [apply IHin, Hps|].
      rewrite IHout by exact Hps.
      apply elem_of_cons in Hin as [Heq|Hin]; [|contradiction].
      injection Heq as -> ->. rewrite set_pixel_logical by assumption.
      rewrite bool_decide_eq_true_2 by reflexivity. reflexivity.
    + intros Hout. apply not_elem_of_cons in Hout as (Hne & Hps).
      rewrite IHout, set_pixel_logical by assumption.
      rewrite bool_decide_eq_false_2; [reflexivity|].
      intros Heq. apply Hne. injection Heq as -> ->. reflexivity.
Qed.

(** A loop of [LCD_API_SET_PIXEL] calls is a run of [set_pixel] calls. *)
Lemma for_loop_set_pixels (fx fy : Z -> Z) (pixel : Z) (n : nat) (st : lcd_state) :
  for_loop n (fun i st => LCD_API_SET_PIXEL cfg (fx i) (fy i) pixel st) st
  = set_pixels cfg ((fun i => (u8 (fx i), u8 (fy i), u8 pixel)) <$> seqZ 0 (Z.of_nat n)) st.
Proof.
  induction n as [|n IH]; [reflexivity|].
  rewrite for_loop_S, IH, seqZ_S, fmap_app, set_pixels_app. reflexivity.
Qed.

Lemma for_loop_rows (row : Z -> list (Z * Z * Z)) (body : Z -> lcd_state -> lcd_state)
    (n : nat) (st : lcd_state) :
  (forall j s, body j s = set_pixels cfg (row j) s) ->
  for_loop n body st = set_pixels cfg (concat (row <$> seqZ 0 (Z.of_nat n))) st.
Proof.
  intros Hbody. induction n as [|n IH]; [reflexivity|].
  rewrite for_loop_S, IH, Hbody, seqZ_S, fmap_app, concat_app, set_pixels_app.
  cbn [fmap list_fmap concat]. rewrite app_nil_r. reflexivity.
Qed.

Lemma elem_of_pixel_run (fx fy : Z -> Z) (p : Z) (n : Z) (px py : Z) :
  (px, py, p) ∈ ((fun i => (fx i, fy i, p)) <$> seqZ 0 n)
  <-> exists i, 0 <= i < n /\ px = fx i /\ py = fy i.
Proof.
  rewrite list_elem_of_fmap. split.
  - intros (i & Heq & Hi). apply elem_of_seqZ in Hi. injection Heq as -> ->.
    exists i. repeat split; lia.
  - intros (i & Hi & -> & ->). exists i. split; [reflexivity|]. apply elem_of_seqZ. lia.
Qed.
Lemma pixel_run_ok (fx fy : Z -> Z) (pixel n : Z) :
  Forall (fun '(x, y, q) => 0 <= x /\ 0 <= y /\ q = u8 pixel)
    ((fun i => (u8 (fx i), u8 (fy i), u8 pixel)) <$> seqZ 0 n).
Proof.
  apply Forall_fmap, Forall_forall. intros i _. cbn.
  pose proof (u8_range (fx i)). pose proof (u8_range (fy i)). repeat split; lia.
Qed.

(** A run of [set_pixel] calls with one pixel value that names exactly the
    pixels of a region of the surface paints that region and nothing else. *)
Lemma set_pixels_region (ps : list (Z * Z * Z)) (p : Z) (st : lcd_state) (px py : Z)
    (R : Prop) `{!Decision R} :
  length (uc_lcd_buffer st) = 1024%nat ->
  Forall (fun '(x, y, q) => 0 <= x /\ 0 <= y /\ q = u8 p) ps ->
  0 <= p < 256 -> 0 <= px <= 127 -> 0 <= py <= 63 ->
  ((px, py, u8 p) ∈ ps <-> R) ->
  logical_pixel (set_pixels cfg ps st) px py
  = if bool_decide R then negb (p =? 0) else logical_pixel st px py.
Proof.
  intros Hlen Hall Hp Hpx Hpy Hiff.
  destruct (set_pixels_logical ps (u8 p) st px py Hlen Hall Hpx Hpy) as (Hin & Hout).
  rewrite (u8_small p Hp) in Hin, Hout, Hiff.
  case_bool_decide as HR; [apply Hin, Hiff, HR | apply Hout; rewrite Hiff; exact HR].
Qed.

(** [fill_rect] paints the pixels of the rectangle that lie on the surface
    and leaves every other pixel as it was; what sticks out beyond column
    127 or row 63 is clipped. The rectangle must not run past coordinate
    255, where the [uint8_t] coordinates would wrap around. *)
Theorem fill_rect_pixels (st : lcd_state) (x y width height pixel px py : Z) :
  length (uc_lcd_buffer st) = 1024%nat ->
  0 <= x -> 0 <= y -> 0 <= width -> 0 <= height ->
  x + width <= 256 -> y + height <= 256 -> 0 <= pixel < 256 ->
  0 <= px <= 127 -> 0 <= py <= 63 ->
  logical_pixel (uc_graphics_fill_rect cfg x y width height pixel st) px py
  = if bool_decide (x <= px < x + width /\ y <= py < y + height)
    then negb (pixel =? 0) else logical_pixel st px py.
Proof.
  intros Hlen Hx Hy Hw Hh Hxw Hyh Hp Hpx Hpy. unfold uc_graphics_fill_rect.
  destruct ((width >? 1) && (height >? 1)) eqn:C1;
    [|destruct ((width =? 1) && (height >? 1)) eqn:C2;
      [|destruct ((height =? 1) && (width >? 1)) eqn:C3;
        [|destruct ((width =? 1) && (height =? 1)) eqn:C4]]].
  - rewrite (for_loop_rows
               (fun j => (fun i => (u8 (x + i), u8 (y + j), u8 pixel)) <$> seqZ 0 width)).
    2:{ intros j s. rewrite for_loop_set_pixels, Z2Nat.id by lia. reflexivity. }
    rewrite Z2Nat.id by lia. apply set_pixels_region; try assumption.
    + apply Forall_concat, Forall_fmap, Forall_forall. intros j _. apply pixel_run_ok.
    + rewrite list_elem_of_In, in_concat. split.
      * intros (row & Hrow & Hin). apply list_elem_of_In, list_elem_of_fmap in Hrow.
        destruct Hrow as (j & -> & Hj). apply elem_of_seqZ in Hj.
        apply list_elem_of_In, list_elem_of_fmap in Hin. destruct Hin as (i & Heq & Hi).
        apply elem_of_seqZ in Hi. injection Heq as -> ->.
        rewrite !u8_small by lia. lia.
      * intros (Hin1 & Hin2). exists ((fun i => (u8 (x + i), u8 (y + (py - y)), u8 pixel))
                                       <$> seqZ 0 width). split.
        -- apply list_elem_of_In, list_elem_of_fmap. exists (py - y). split; [reflexivity|].
           apply elem_of_seqZ. lia.
        -- apply list_elem_of_In, list_elem_of_fmap. exists (px - x). split.
           ++ rewrite !u8_small by lia.
              replace (x + (px - x)) with px by lia. replace (y + (py - y)) with py by lia.
              reflexivity.
           ++ apply elem_of_seqZ. lia.
  - rewrite for_loop_set_pixels, Z2Nat.id by lia. apply set_pixels_region; try assumption.
    + apply pixel_run_ok.
    + rewrite (elem_of_pixel_run (fun _ => u8 x) (fun i => u8 (y + i))). split.
      * intros (i & Hi & -> & ->). rewrite !u8_small by lia. lia.
      * intros (Hin1 & Hin2). exists (py - y). rewrite !u8_small by lia. lia.
  - rewrite for_loop_set_pixels, Z2Nat.id by lia. apply set_pixels_region; try assumption.
    + apply pixel_run_ok.
    + rewrite (elem_of_pixel_run (fun i => u8 (x + i)) (fun _ => u8 y)). split.
      * intros (i & Hi & -> & ->). rewrite !u8_small by lia. lia.
      * intros (Hin1 & Hin2). exists (px - x). rewrite !u8_small by lia. lia.
  - unfold LCD_API_SET_PIXEL.
    change (uc_lcd_set_pixel cfg (u8 x) (u8 y) (u8 pixel) st)
      with (set_pixels cfg [(u8 x, u8 y, u8 pixel)] st).
    apply set_pixels_region; try assumption.
    + apply Forall_singleton. pose proof (u8_range x). pose proof (u8_range y).
      repeat split; lia.
    + rewrite list_elem_of_singleton, !u8_small by lia. split.
      * intros Heq. injection Heq as -> ->. lia.
      * intros (Hin1 & Hin2). replace px with x by lia. replace py with y by lia.
        reflexivity.
  - rewrite bool_decide_eq_false_2 by lia. reflexivity.
Qed.

(** A rectangle of width 0 or height 0 is no rectangle: [fill_rect] and
    [draw_rect] return the state they were given, changed flag and bus
    included. *)
Theorem empty_rect_noop (st : lcd_state) (x y width height pixel : Z) :
  width = 0 \/ height = 0 ->
  uc_graphics_fill_rect cfg x y width height pixel st = st /\
  uc_graphics_draw_rect cfg x y width height pixel st = st.
Proof.
  intros Hempty. unfold uc_graphics_fill_rect, uc_graphics_draw_rect.
  destruct (width >? 1) eqn:W1, (height >? 1) eqn:H1, (width =? 1) eqn:W2,
    (height =? 1) eqn:H2; cbn [andb]; try (exfalso; lia); split; reflexivity.
Qed.
(** [draw_rect] paints the outline of the rectangle, as far as it lies on
    the surface, and nothing else: not the inside, not the outside. *)
Theorem draw_rect_pixels (st : lcd_state) (x y width height pixel px py : Z) :
  length (uc_lcd_buffer st) = 1024%nat ->
  0 <= x -> 0 <= y -> 0 <= width -> 0 <= height ->
  x + width <= 256 -> y + height <= 256 -> 0 <= pixel < 256 ->
  0 <= px <= 127 -> 0 <= py <= 63 ->
  logical_pixel (uc_graphics_draw_rect cfg x y width height pixel st) px py
  = if bool_decide ((x <= px < x + width /\ y <= py < y + height) /\
                    (px = x \/ px = x + width - 1 \/ py = y \/ py = y + height - 1))
    then negb (pixel =? 0) else logical_pixel st px py.
Proof.
  intros Hlen Hx Hy Hw Hh Hxw Hyh Hp Hpx Hpy. unfold uc_graphics_draw_rect.
  destruct ((width >? 1) && (height >? 1)) eqn:C1;
    [|destruct ((width =? 1) && (height >? 1)) eqn:C2;
      [|destruct ((height =? 1) && (width >? 1)) eqn:C3;
        [|destruct ((width =? 1) && (height =? 1)) eqn:C4]]].
  - cbv zeta. rewrite !for_loop_set_pixels, <- !set_pixels_app, !Z2Nat.id by lia.
    apply set_pixels_region; try assumption.
    + repeat (apply Forall_app; split); apply pixel_run_ok.
    + rewrite !elem_of_app.
      rewrite (elem_of_pixel_run (fun i => u8 (x + i)) (fun _ => u8 y)).
      rewrite (elem_of_pixel_run (fun _ => u8 x) (fun i => u8 (y + i))).
      rewrite (elem_of_pixel_run (fun _ => u8 (u8 (x + width - 1))) (fun i => u8 (y + i))).
      rewrite (elem_of_pixel_run (fun i => u8 (x + i)) (fun _ => u8 (u8 (y + height - 1)))).
      rewrite !u8_idemp. split.
      * intros [(i & Hi & -> & ->)|[(i & Hi & -> & ->)|[(i & Hi & -> & ->)
               |(i & Hi & -> & ->)]]]; rewrite !u8_small by lia; lia.
      * intros ((Hin1 & Hin2) & [->|[->|[->| ->]]]).
        -- right. left. exists (py - y). rewrite !u8_small by lia. lia.
        -- right. right. left. exists (py - y). rewrite !u8_small by lia. lia.
        -- left. exists (px - x). rewrite !u8_small by lia. lia.
        -- right. right. right. exists (px - x). rewrite !u8_small by lia. lia.
  - rewrite for_loop_set_pixels, Z2Nat.id by lia. apply set_pixels_region; try assumption.
    + apply pixel_run_ok.
    + rewrite (elem_of_pixel_run (fun _ => u8 x) (fun i => u8 (y + i))). split.
      * intros (i & Hi & -> & ->). rewrite !u8_small by lia. lia.
      * intros ((Hin1 & Hin2) & _). exists (py - y). rewrite !u8_small by lia. lia.
  - rewrite for_loop_set_pixels, Z2Nat.id by lia. apply set_pixels_region; try assumption.
    + apply pixel_run_ok.
    + rewrite (elem_of_pixel_run (fun i => u8 (x + i)) (fun _ => u8 y)). split.
      * intros (i & Hi & -> & ->). rewrite !u8_small by lia. lia.
      * intros ((Hin1 & Hin2) & _). exists (px - x). rewrite !u8_small by lia. lia.
  - unfold LCD_API_SET_PIXEL.
    change (uc_lcd_set_pixel cfg (u8 x) (u8 y) (u8 pixel) st)
      with (set_pixels cfg [(u8 x, u8 y, u8 pixel)] st).
    apply set_pixels_region; try assumption.
    + apply Forall_singleton. pose proof (u8_range x). pose proof (u8_range y).
      repeat split; lia.
    + rewrite list_elem_of_singleton, !u8_small by lia. split.
      * intros Heq. injection Heq as -> ->. lia.
      * intros ((Hin1 & Hin2) & _). replace px with x by lia. replace py with y by lia.
        reflexivity.
  - rewrite bool_decide_eq_false_2 by lia. reflexivity.
Qed.
End Rectangles.

(** ** Images *)

Lemma div_mod_succ k w :
  0 <= k -> 0 < w ->
  (k mod w + 1 = w -> (k + 1) mod w = 0 /\ (k + 1) / w = k / w + 1) /\
  (k mod w + 1 <> w -> (k + 1) mod w = k mod w + 1 /\ (k + 1) / w = k / w).
Proof.
  intros Hk Hw. pose proof (Z.div_mod k w ltac:(lia)) as Hdm.
  pose proof (Z.mod_pos_bound k w Hw) as Hm. split; intros Hc.
  - split; symmetry.
    + apply (Z.mod_unique_pos _ _ (k / w + 1)); lia.
    + apply (Z.div_unique_pos _ _ _ 0); lia.
  - split; symmetry.
    + apply (Z.mod_unique_pos _ _ (k / w)); lia.
    + apply (Z.div_unique_pos _ _ _ (k mod w + 1)); lia.
Qed.

Lemma row_major_index a b w :
  0 < w -> 0 <= a < w -> 0 <= b -> (b * w + a) / w = b /\ (b * w + a) mod w = a.
Proof.
  intros Hw Ha Hb. split; symmetry.
  - apply (Z.div_unique_pos _ _ _ a); lia.
  - apply (Z.mod_unique_pos _ _ b); lia.
Qed.

Lemma land_1_testbit c : (Z.land c 0x01 =? 0) = negb (Z.testbit c 0).
Proof.
  change 0x01 with (Z.ones 1). rewrite Z.land_ones by lia. change (2 ^ 1) with 2.
  rewrite <- Z.bit0_mod. destruct (Z.testbit c 0); reflexivity.
Qed.

Lemma shiftr_byte b m : 0 <= b < 256 -> 0 <= m -> 0 <= Z.shiftr b m < 256.
Proof.
  intros Hb Hm. rewrite Z.shiftr_div_pow2 by lia.
  pose proof (Z.pow_pos_nonneg 2 m ltac:(lia) Hm) as Hpow.
  split; [apply Z.div_pos; lia|].
  apply Z.div_lt_upper_bound; [lia|]. nia.
Qed.

Lemma pgm_read_byte_range (img : list Z) (i : Z) :
  Forall (fun v => 0 <= v < 256) img -> 0 <= pgm_read_byte img i < 256.
Proof.
  intros Himg. unfold pgm_read_byte.
  destruct (img !! Z.to_nat i) as [v|] eqn:E; cbn; [|lia].
  exact (proj1 (Forall_lookup _ _) Himg _ _ E).
Qed.

Lemma api_set_pixel_bytes cfg x y p st :
  0 <= x < 256 -> 0 <= y < 256 -> 0 <= p < 256 ->
  LCD_API_SET_PIXEL cfg x y p st = uc_lcd_set_pixel cfg x y p st.
Proof. intros. unfold LCD_API_SET_PIXEL. rewrite !u8_small by lia. reflexivity. Qed.

Lemma draw_one_logical cfg dw (bit : bool) cx cy st px py :
  length (uc_lcd_buffer st) = 1024%nat -> 0 <= cx < 256 -> 0 <= cy < 256 ->
  0 <= px <= 127 -> 0 <= py <= 63 ->
  let st' := if bit then LCD_API_SET_PIXEL cfg cx cy 1 st
             else if negb (dw =? 0) then LCD_API_SET_PIXEL cfg cx cy 0 st else st in
  length (uc_lcd_buffer st') = 1024%nat /\
  logical_pixel st' px py
  = if bool_decide (px = cx /\ py = cy) then drawn_over dw bit (logical_pixel st px py)
    else logical_pixel st px py.
Proof.
  intros Hlen Hcx Hcy Hpx Hpy st'. subst st'.
  rewrite !api_set_pixel_bytes by lia. split.
  - destruct bit; [|destruct (negb (dw =? 0))]; rewrite ?set_pixel_length; exact Hlen.
  - unfold drawn_over. case_bool_decide as Hsame.
    + destruct Hsame as (-> & ->).
      destruct bit; [|destruct (negb (dw =? 0))];
        rewrite ?set_pixel_logical by (assumption || lia);
        rewrite ?bool_decide_eq_true_2 by reflexivity; reflexivity.
    + destruct bit; [|destruct (negb (dw =? 0))];
        rewrite ?set_pixel_logical by (assumption || lia);
        rewrite ?bool_decide_eq_false_2 by (intros E; injection E as -> ->; tauto);
        reflexivity.
Qed.

Section ImageDrawing.
Context (cfg : config) (img : list Z) (x y dw : Z) (st : lcd_state).

Local Abbreviation w := (pgm_read_byte img 1).
Local Abbreviation h := (pgm_read_byte img 2).

Hypothesis Himg : Forall (fun v => 0 <= v < 256) img.
Hypothesis Hx : 0 <= x.
Hypothesis Hy : 0 <= y < 256.
Hypothesis Hxw : x + w <= 255.
Hypothesis Hyh : y + h <= 256.
Hypothesis Hlen : length (uc_lcd_buffer st) = 1024%nat.

Lemma hv_step_invariant k c :
  0 <= k < w * h ->
  hv_invariant img x y w dw st k c ->
  hv_invariant img x y w dw st (k + 1) (hv_step cfg x w dw img k c).
Proof.
  intros Hk (Hbi & Hcx & Hcy & Hcb & Hlenc & Hpix).
  pose proof (pgm_read_byte_range img 1 Himg) as Hw.
  pose proof (pgm_read_byte_range img 2 Himg) as Hh.
  assert (Hw0 : 0 < w) by nia.
  pose proof (Z.mod_pos_bound k w Hw0) as Hkm.
  assert (Hkd : 0 <= k / w < h).
  { split; [apply Z.div_pos; lia | apply Z.div_lt_upper_bound; lia]. }
  pose proof (Z.div_mod k w ltac:(lia)) as Hdm.
  pose proof (div_mod_succ k w ltac:(lia) Hw0) as (Hwrap & Hnowrap).
  set (B := pgm_read_byte img (3 + k / 8)).
  pose proof (pgm_read_byte_range img (3 + k / 8) Himg) as HB. fold B in HB.
  assert (Hcy' : current_y c = y + k / w) by (rewrite Hcy; apply u8_small; lia).
  assert (Hload :
    (if k mod 8 =? 0
     then (u16 (byte_index c + 1), pgm_read_byte img (byte_index c))
     else (byte_index c, current_byte c))
    = (3 + (k + 1 + 7) / 8, Z.shiftr B (k mod 8))).
  { destruct (k mod 8 =? 0) eqn:E8.
    - apply Z.eqb_eq in E8. rewrite E8, Z.shiftr_0_r, Hbi.
      replace (3 + (k + 7) / 8) with (3 + k / 8) by (Z.div_mod_to_equations; lia).
      f_equal. unfold u16. rewrite Z.mod_small by (Z.div_mod_to_equations; nia).
      Z.div_mod_to_equations; lia.
    - apply Z.eqb_neq in E8. rewrite (Hcb E8), Hbi. f_equal.
      Z.div_mod_to_equations; lia. }
  unfold hv_step, draw_next_pixel. rewrite Hload. cbv zeta beta iota.
  cbn [byte_index current_x current_y current_byte cursor_lcd].
  rewrite land_1_testbit, negb_involutive.
  assert (Hbit : Z.testbit (Z.shiftr B (k mod 8)) 0 = image_bit img k).
  { unfold image_bit. fold B. rewrite Z.shiftr_spec by lia. reflexivity. }
  rewrite Hbit, Hcx, Hcy'.
  set (st' := if image_bit img k then _ else _).
  assert (Hst' : length (uc_lcd_buffer st') = 1024%nat /\
                 forall px py, 0 <= px <= 127 -> 0 <= py <= 63 ->
                   logical_pixel st' px py
                   = if bool_decide (px = x + k mod w /\ py = y + k / w)
                     then drawn_over dw (image_bit img k) (logical_pixel (cursor_lcd c) px py)
                     else logical_pixel (cursor_lcd c) px py).
  { split.
    - exact (proj1 (draw_one_logical cfg dw (image_bit img k) (x + k mod w) (y + k / w)
                      (cursor_lcd c) 0 0 Hlenc ltac:(lia) ltac:(lia) ltac:(lia) ltac:(lia))).
    - intros px py Hpx Hpy.
      exact (proj2 (draw_one_logical cfg dw (image_bit img k) (x + k mod w) (y + k / w)
                      (cursor_lcd c) px py Hlenc ltac:(lia) ltac:(lia) Hpx Hpy)). }
  clearbody st'. destruct Hst' as (Hlen' & Hpix').
  assert (Hbyte' : (k + 1) mod 8 <> 0 ->
            u8 (Z.shiftr (Z.shiftr B (k mod 8)) 1)
            = Z.shiftr (pgm_read_byte img (3 + (k + 1) / 8)) ((k + 1) mod 8)).
  { intros Hne. rewrite Z.shiftr_shiftr by lia.
    replace ((k + 1) / 8) with (k / 8) by (Z.div_mod_to_equations; lia).
    replace ((k + 1) mod 8) with (k mod 8 + 1) by (Z.div_mod_to_equations; lia).
    fold B. apply u8_small, shiftr_byte; [exact HB|]. Z.div_mod_to_equations; lia. }
  assert (Hpixels : forall px py, 0 <= px <= 127 -> 0 <= py <= 63 ->
            logical_pixel st' px py
            = if bool_decide (x <= px < x + w /\ y <= py /\ (py - y) * w + (px - x) < k + 1)
              then drawn_over dw (image_bit img ((py - y) * w + (px - x)))
                     (logical_pixel st px py)
              else logical_pixel st px py).
  { intros px py Hpx Hpy. rewrite (Hpix' px py Hpx Hpy), (Hpix px py Hpx Hpy).
    destruct (decide (x <= px < x + w /\ y <= py)) as [(Hin1 & Hin2)|Hout].
    - destruct (row_major_index (px - x) (py - y) w Hw0 ltac:(lia) ltac:(lia)) as (Hq & Hr).
      set (n := (py - y) * w + (px - x)) in *.
      destruct (Z.lt_trichotomy n k) as [Hlt|[Heq|Hgt]].
      + rewrite (bool_decide_eq_false_2 (px = _ /\ _))
          by (intros (E1 & E2); subst n; nia).
        rewrite !bool_decide_eq_true_2 by lia. reflexivity.
      + rewrite (bool_decide_eq_true_2 (px = _ /\ _))
          by (rewrite <- Heq, Hq, Hr; lia).
        rewrite (bool_decide_eq_false_2 (_ /\ _ /\ n < k)) by lia.
        rewrite bool_decide_eq_true_2 by lia. rewrite Heq. reflexivity.
      + rewrite (bool_decide_eq_false_2 (px = _ /\ _))
          by (intros (E1 & E2); subst n; nia).
        rewrite !bool_decide_eq_false_2 by lia. reflexivity.
    - rewrite (bool_decide_eq_false_2 (px = _ /\ _)) by lia.
      rewrite !bool_decide_eq_false_2 by tauto. reflexivity. }
  rewrite (u8_small (x + k mod w + 1)) by lia.
  destruct (x + k mod w + 1 - x =? w) eqn:Ewrap.
  - apply Z.eqb_eq in Ewrap. destruct Hwrap as (Hm1 & Hd1); [lia|].
    unfold hv_invariant. cbn [byte_index current_x current_y current_byte cursor_lcd].
    rewrite Hm1, Hd1.
    repeat split; try assumption; try (rewrite ?u8_small by lia; lia); try (f_equal; lia).
  - apply Z.eqb_neq in Ewrap. destruct Hnowrap as (Hm1 & Hd1); [lia|].
    unfold hv_invariant. cbn [byte_index current_x current_y current_byte cursor_lcd].
    rewrite Hm1, Hd1.
    repeat split; try assumption; try (rewrite ?u8_small by lia; lia); try (f_equal; lia).
Qed.
Lemma hv_loop_invariant (n : nat) :
  Z.of_nat n <= w * h ->
  hv_invariant img x y w dw st (Z.of_nat n)
    (for_loop n (hv_step cfg x w dw img)
       {| byte_index := 3; current_x := x; current_y := y; current_byte := 0;
          cursor_lcd := st |}).
Proof.
  pose proof (pgm_read_byte_range img 1 Himg) as Hw.
  pose proof (pgm_read_byte_range img 2 Himg) as Hh.
  induction n as [|n IH]; intros Hn.
  - unfold hv_invariant, for_loop. cbn [seq foldl byte_index current_x current_y current_byte
      cursor_lcd Z.of_nat]. rewrite Zmod_0_l, Zdiv_0_l, !Z.add_0_r.
    split; [reflexivity|]. split; [reflexivity|]. split; [symmetry; apply u8_small; lia|].
    split; [intros H0; exfalso; apply H0; reflexivity|]. split; [exact Hlen|].
    intros px py Hpx Hpy. rewrite bool_decide_eq_false_2; [reflexivity|].
    intros (H1 & H2 & H3). assert (0 <= (py - y) * w) by (apply Z.mul_nonneg_nonneg; lia).
    lia.
  - rewrite for_loop_S. replace (Z.of_nat (S n)) with (Z.of_nat n + 1) by lia.
    apply hv_step_invariant; [lia|]. apply IH. lia.
Qed.

(** An image stored left to right, top to bottom is drawn pixel for pixel:
    the display pixel at (x + i, y + j) gets bit [j * width + i] of the
    pixel stream. A set bit turns the pixel on; a clear bit turns it off if
    [draw_white_pixels] is nonzero and leaves it as it was otherwise.
    Pixels outside the image area keep their value. The image's width
    times height is taken to fit the 16-bit [int] the source computes it in. *)
Theorem images_draw_hv (px py : Z) :
  w * h <= 32767 ->
  Z.land (uc_images_get_settings img) UC_IMG_SETTINGS_BIT_HV_MASK <> 0 ->
  0 <= px <= 127 -> 0 <= py <= 63 ->
  logical_pixel (uc_images_draw cfg x y dw img st) px py
  = if bool_decide (x <= px < x + w /\ y <= py < y + h)
    then drawn_over dw (image_bit img ((py - y) * w + (px - x))) (logical_pixel st px py)
    else logical_pixel st px py.
Proof.
  intros _ Hhv Hpx Hpy.
  pose proof (pgm_read_byte_range img 1 Himg) as Hw.
  pose proof (pgm_read_byte_range img 2 Himg) as Hh.
  unfold uc_images_draw, uc_images_get_settings in *.
  destruct (Z.land (pgm_read_byte img 0) UC_IMG_SETTINGS_BIT_HV_MASK =? 0) eqn:E;
    [apply Z.eqb_eq in E; contradiction|]. cbn [negb].
  assert (Hwh : u16 (w * h) = w * h) by (unfold u16; apply Z.mod_small; nia).
  rewrite Hwh.
  change (for_loop (Z.to_nat (w * h)) _ ?c) with (for_loop (Z.to_nat (w * h))
                                                     (hv_step cfg x w dw img) c).
  destruct (hv_loop_invariant (Z.to_nat (w * h))) as (_ & _ & _ & _ & _ & Hpix); [nia|].
  rewrite (Hpix px py Hpx Hpy), Z2Nat.id by nia.
  destruct (decide (x <= px < x + w /\ y <= py < y + h)) as [Hin|Hout].
  - rewrite !bool_decide_eq_true_2 by (try assumption; nia). reflexivity.
  - rewrite !bool_decide_eq_false_2 by (try assumption; nia). reflexivity.
Qed.
End ImageDrawing.

Section ImageDrawingColumns.
Context (cfg : config) (img : list Z) (x y dw : Z) (st : lcd_state).

Local Abbreviation w := (pgm_read_byte img 1).
Local Abbreviation h := (pgm_read_byte img 2).

Hypothesis Himg : Forall (fun v => 0 <= v < 256) img.
Hypothesis Hx : 0 <= x < 256.
Hypothesis Hy : 0 <= y.
Hypothesis Hxw : x + w <= 256.
Hypothesis Hyh : y + h <= 255.
Hypothesis Hlen : length (uc_lcd_buffer st) = 1024%nat.

Lemma vh_step_invariant k c :
  0 <= k < w * h ->
  vh_invariant img x y h dw st k c ->
  vh_invariant img x y h dw st (k + 1) (vh_step cfg y h dw img k c).
Proof.
  intros Hk (Hbi & Hcx & Hcy & Hcb & Hlenc & Hpix).
  pose proof (pgm_read_byte_range img 1 Himg) as Hw.
  pose proof (pgm_read_byte_range img 2 Himg) as Hh.
  assert (Hh0 : 0 < h) by nia.
  pose proof (Z.mod_pos_bound k h Hh0) as Hkm.
  assert (Hkd : 0 <= k / h < w).
  { split; [apply Z.div_pos; lia | apply Z.div_lt_upper_bound; lia]. }
  pose proof (Z.div_mod k h ltac:(lia)) as Hdm.
  pose proof (div_mod_succ k h ltac:(lia) Hh0) as (Hwrap & Hnowrap).
  set (B := pgm_read_byte img (3 + k / 8)).
  pose proof (pgm_read_byte_range img (3 + k / 8) Himg) as HB. fold B in HB.
  assert (Hcx' : current_x c = x + k / h) by (rewrite Hcx; apply u8_small; lia).
  assert (Hload :
    (if k mod 8 =? 0
     then (u16 (byte_index c + 1), pgm_read_byte img (byte_index c))
     else (byte_index c, current_byte c))
    = (3 + (k + 1 + 7) / 8, Z.shiftr B (k mod 8))).
  { destruct (k mod 8 =? 0) eqn:E8.
    - apply Z.eqb_eq in E8. rewrite E8, Z.shiftr_0_r, Hbi.
      replace (3 + (k + 7) / 8) with (3 + k / 8) by (Z.div_mod_to_equations; lia).
      f_equal. unfold u16. rewrite Z.mod_small by (Z.div_mod_to_equations; nia).
      Z.div_mod_to_equations; lia.
    - apply Z.eqb_neq in E8. rewrite (Hcb E8), Hbi. f_equal.
      Z.div_mod_to_equations; lia. }
  unfold vh_step, draw_next_pixel. rewrite Hload. cbv zeta beta iota.
  cbn [byte_index current_x current_y current_byte cursor_lcd].
  rewrite land_1_testbit, negb_involutive.
  assert (Hbit : Z.testbit (Z.shiftr B (k mod 8)) 0 = image_bit img k).
  { unfold image_bit. fold B. rewrite Z.shiftr_spec by lia. reflexivity. }
  rewrite Hbit, Hcx', Hcy.
  set (st' := if image_bit img k then _ else _).
  assert (Hst' : length (uc_lcd_buffer st') = 1024%nat /\
                 forall px py, 0 <= px <= 127 -> 0 <= py <= 63 ->
                   logical_pixel st' px py
                   = if bool_decide (px = x + k / h /\ py = y + k mod h)
                     then drawn_over dw (image_bit img k) (logical_pixel (cursor_lcd c) px py)
                     else logical_pixel (cursor_lcd c) px py).
  { split.
    - exact (proj1 (draw_one_logical cfg dw (image_bit img k) (x + k / h) (y + k mod h)
                      (cursor_lcd c) 0 0 Hlenc ltac:(lia) ltac:(lia) ltac:(lia) ltac:(lia))).
    - intros px py Hpx Hpy.
      exact (proj2 (draw_one_logical cfg dw (image_bit img k) (x + k / h) (y + k mod h)
                      (cursor_lcd c) px py Hlenc ltac:(lia) ltac:(lia) Hpx Hpy)). }
  clearbody st'. destruct Hst' as (Hlen' & Hpix').
  assert (Hbyte' : (k + 1) mod 8 <> 0 ->
            u8 (Z.shiftr (Z.shiftr B (k mod 8)) 1)
            = Z.shiftr (pgm_read_byte img (3 + (k + 1) / 8)) ((k + 1) mod 8)).
  { intros Hne. rewrite Z.shiftr_shiftr by lia.
    replace ((k + 1) / 8) with (k / 8) by (Z.div_mod_to_equations; lia).
    replace ((k + 1) mod 8) with (k mod 8 + 1) by (Z.div_mod_to_equations; lia).
    fold B. apply u8_small, shiftr_byte; [exact HB|]. Z.div_mod_to_equations; lia. }
  assert (Hpixels : forall px py, 0 <= px <= 127 -> 0 <= py <= 63 ->
            logical_pixel st' px py
            = if bool_decide (y <= py < y + h /\ x <= px /\ (px - x) * h + (py - y) < k + 1)
              then drawn_over dw (image_bit img ((px - x) * h + (py - y)))
                     (logical_pixel st px py)
              else logical_pixel st px py).
  { intros px py Hpx Hpy. rewrite (Hpix' px py Hpx Hpy), (Hpix px py Hpx Hpy).
    destruct (decide (y <= py < y + h /\ x <= px)) as [(Hin1 & Hin2)|Hout].
    - destruct (row_major_index (py - y) (px - x) h Hh0 ltac:(lia) ltac:(lia)) as (Hq & Hr).
      set (n := (px - x) * h + (py - y)) in *.
      destruct (Z.lt_trichotomy n k) as [Hlt|[Heq|Hgt]].
      + rewrite (bool_decide_eq_false_2 (px = _ /\ _))
          by (intros (E1 & E2); subst n; nia).
        rewrite !bool_decide_eq_true_2 by lia. reflexivity.
      + rewrite (bool_decide_eq_true_2 (px = _ /\ _))
          by (rewrite <- Heq, Hq, Hr; lia).
        rewrite (bool_decide_eq_false_2 (_ /\ _ /\ n < k)) by lia.
        rewrite bool_decide_eq_true_2 by lia. rewrite Heq. reflexivity.
      + rewrite (bool_decide_eq_false_2 (px = _ /\ _))
          by (intros (E1 & E2); subst n; nia).
        rewrite !bool_decide_eq_false_2 by lia. reflexivity.
    - rewrite (bool_decide_eq_false_2 (px = _ /\ _)) by lia.
      rewrite !bool_decide_eq_false_2 by tauto. reflexivity. }
  rewrite (u8_small (y + k mod h + 1)) by lia.
  destruct (y + k mod h + 1 - y =? h) eqn:Ewrap.
  - apply Z.eqb_eq in Ewrap. destruct Hwrap as (Hm1 & Hd1); [lia|].
    unfold vh_invariant. cbn [byte_index current_x current_y current_byte cursor_lcd].
    rewrite Hm1, Hd1.
    repeat split; try assumption; try (rewrite ?u8_small by lia; lia); try (f_equal; lia).
  - apply Z.eqb_neq in Ewrap. destruct Hnowrap as (Hm1 & Hd1); [lia|].
    unfold vh_invariant. cbn [byte_index current_x current_y current_byte cursor_lcd].
    rewrite Hm1, Hd1.
    repeat split; try assumption; try (rewrite ?u8_small by lia; lia); try (f_equal; lia).
Qed.

Lemma vh_loop_invariant (n : nat) :
  Z.of_nat n <= w * h ->
  vh_invariant img x y h dw st (Z.of_nat n)
    (for_loop n (vh_step cfg y h dw img)
       {| byte_index := 3; current_x := x; current_y := y; current_byte := 0;
          cursor_lcd := st |}).
Proof.
  pose proof (pgm_read_byte_range img 1 Himg) as Hw.
  pose proof (pgm_read_byte_range img 2 Himg) as Hh.
  induction n as [|n IH]; intros Hn.
  - unfold vh_invariant, for_loop. cbn [seq foldl byte_index current_x current_y current_byte
      cursor_lcd Z.of_nat]. rewrite Zmod_0_l, Zdiv_0_l, !Z.add_0_r.
    split; [reflexivity|]. split; [symmetry; apply u8_small; lia|]. split; [reflexivity|].
    split; [intros H0; exfalso; apply H0; reflexivity|]. split; [exact Hlen|].
    intros px py Hpx Hpy. rewrite bool_decide_eq_false_2; [reflexivity|].
    intros (H1 & H2 & H3). assert (0 <= (px - x) * h) by (apply Z.mul_nonneg_nonneg; lia).
    lia.
  - rewrite for_loop_S. replace (Z.of_nat (S n)) with (Z.of_nat n + 1) by lia.
    apply vh_step_invariant; [lia|]. apply IH. lia.
Qed.

(** An image stored top to bottom, left to right is drawn pixel for pixel,
    too: the display pixel at (x + i, y + j) gets bit [i * height + j] of
    the pixel stream, with the same meaning of set and clear bits and the
    same bound on width times height. *)
Theorem images_draw_vh (px py : Z) :
  w * h <= 32767 ->
  Z.land (uc_images_get_settings img) UC_IMG_SETTINGS_BIT_HV_MASK = 0 ->
  Z.land (uc_images_get_settings img) UC_IMG_SETTINGS_BIT_VH_MASK <> 0 ->
  0 <= px <= 127 -> 0 <= py <= 63 ->
  logical_pixel (uc_images_draw cfg x y dw img st) px py
  = if bool_decide (x <= px < x + w /\ y <= py < y + h)
    then drawn_over dw (image_bit img ((px - x) * h + (py - y))) (logical_pixel st px py)
    else logical_pixel st px py.
Proof.
  intros _ Hhv Hvh Hpx Hpy.
  pose proof (pgm_read_byte_range img 1 Himg) as Hw.
  pose proof (pgm_read_byte_range img 2 Himg) as Hh.
  unfold uc_images_draw, uc_images_get_settings in *. rewrite Hhv. cbn [Z.eqb negb].
  destruct (Z.land (pgm_read_byte img 0) UC_IMG_SETTINGS_BIT_VH_MASK =? 0) eqn:E;
    [apply Z.eqb_eq in E; contradiction|]. cbn [negb].
  assert (Hwh : u16 (w * h) = w * h) by (unfold u16; apply Z.mod_small; nia).
  rewrite Hwh.
  change (for_loop (Z.to_nat (w * h)) _ ?c) with (for_loop (Z.to_nat (w * h))
                                                     (vh_step cfg y h dw img) c).
  destruct (vh_loop_invariant (Z.to_nat (w * h))) as (_ & _ & _ & _ & _ & Hpix); [nia|].
  rewrite (Hpix px py Hpx Hpy), Z2Nat.id by nia.
  destruct (decide (x <= px < x + w /\ y <= py < y + h)) as [Hin|Hout].
  - rewrite !bool_decide_eq_true_2 by (try assumption; nia). reflexivity.
  - rewrite !bool_decide_eq_false_2 by (try assumption; nia). reflexivity.
Qed.
End ImageDrawingColumns.


(** An image whose settings byte names neither pixel order, or whose width
    times height is 0, draws nothing: the state comes back unchanged. *)
Theorem images_draw_nothing (cfg : config) (x y dw : Z) (img : list Z) (st : lcd_state) :
  (Z.land (uc_images_get_settings img) UC_IMG_SETTINGS_BIT_HV_MASK = 0 /\
   Z.land (uc_images_get_settings img) UC_IMG_SETTINGS_BIT_VH_MASK = 0) \/
  u16 (uc_images_get_width img * uc_images_get_height img) = 0 ->
  uc_images_draw cfg x y dw img st = st.
Proof.
  unfold uc_images_draw, uc_images_get_settings, uc_images_get_width, uc_images_get_height.
  intros [(-> & ->)| ->]; [reflexivity|].
  destruct (negb _); [reflexivity|]. destruct (negb _); reflexivity.
Qed.

(** ** The output levels after [uc_lcd_init] *)

Lemma length_sr_reg_write cfg r v h :
  length (sr_shift h) = 16%nat -> length (sr_shift (reg_write cfg r v h)) = 16%nat.
Proof.
  intros Hlen. unfold reg_write. destruct (lcd_data_mode cfg); try exact Hlen.
  cbv zeta. destruct (negb _ && _); [|exact Hlen].
  cbn [sr_clock_edge sr_shift length]. rewrite removelast_firstn_len, length_take.
  cbn [sr_shift]. rewrite Hlen. reflexivity.
Qed.

(** The register writes at the start of [uc_lcd_init] leave both parallel
    transports with CSEL1, CSEL2 and Command/Data low and the data lines at
    0, whatever the registers held before. *)
Theorem init_lowers_parallel_lines (cfg : config) (h : hardware) :
  together_wiring_ok cfg \/ individual_wiring_ok cfg ->
  device_lines cfg (uc_lcd_init_hw cfg h)
  = {| line_csel1 := false; line_csel2 := false; line_command_data := false;
       line_data := 0 |}.
Proof.
  intros [(Hmode & Hports & H1 & H2 & H3 & H4 & _)
         |(Hmode & D1 & D2 & D3 & D4 & H1 & H2 & H3 & H4 & _)];
    unfold device_lines, uc_lcd_init_hw; rewrite Hmode; cbv zeta.
  - assert (Hlow : forall p, 0 <= p < 8 ->
              p = LCD_DMP_PIN_CSEL1 cfg \/ p = LCD_DMP_PIN_CSEL2 cfg \/
              p = LCD_DMP_PIN_COMMAND_DATA cfg ->
              forall h', pin_level (LCD_DMP_PORT_CONTROL cfg) p
                (reg_and_not cfg (LCD_DMP_PORT_CONTROL cfg)
                   (Z.lor (Z.lor (Z.lor (Z.shiftl 1 (LCD_DMP_PIN_CSEL1 cfg))
                                        (Z.shiftl 1 (LCD_DMP_PIN_CSEL2 cfg)))
                                 (Z.shiftl 1 (LCD_DMP_PIN_COMMAND_DATA cfg)))
                          (Z.shiftl 1 (LCD_DMP_PIN_ENABLE cfg))) h') = false).
    { intros p Hp Hcase h'.
      rewrite pin_level_reg_and_not, decide_True by (lia || reflexivity).
      rewrite !Z.lor_spec, !testbit_one_shifted by lia.
      destruct Hcase as [->|[->| ->]];
        repeat match goal with
               | |- context [bool_decide (?a = ?a)] =>
                   rewrite (bool_decide_eq_true_2 (a = a)) by reflexivity
               end;
        rewrite ?orb_true_r; cbn [orb negb]; apply andb_false_r. }
    f_equal; try (apply Hlow; [lia | auto]).
    unfold reg_and_not. rewrite reg_read_reg_write, decide_False by congruence.
    rewrite reg_read_reg_write, decide_True by reflexivity. reflexivity.
  - f_equal.
    + rewrite !line_reg_and_not by lia.
      rewrite (bool_decide_eq_true_2
                 ((LCD_DMP_PORT_CSEL1 cfg, LCD_DMP_PIN_CSEL1 cfg) = _)) by reflexivity.
      cbn [negb]. rewrite andb_false_r. reflexivity.
    + rewrite !line_reg_and_not by lia.
      rewrite (bool_decide_eq_true_2
                 ((LCD_DMP_PORT_CSEL2 cfg, LCD_DMP_PIN_CSEL2 cfg) = _)) by reflexivity.
      cbn [negb]. rewrite andb_false_r. reflexivity.
    + rewrite !line_reg_and_not by lia.
      rewrite (bool_decide_eq_true_2
                 ((LCD_DMP_PORT_COMMAND_DATA cfg, LCD_DMP_PIN_COMMAND_DATA cfg) = _))
        by reflexivity.
      cbn [negb]. rewrite andb_false_r. reflexivity.
    + unfold reg_and_not. rewrite !reg_read_reg_write.
      rewrite !decide_False by congruence.
      rewrite decide_True by reflexivity. reflexivity.
Qed.

(** In serial mode the register writes at the start of [uc_lcd_init] leave
    the clock line low and the chain of sixteen shift stages in place: the
    state every later transfer starts from. *)
Theorem init_leaves_serial_idle (cfg : config) (h : hardware) :
  serial_wiring_ok cfg -> length (sr_shift h) = 16%nat ->
  serial_idle cfg (uc_lcd_init_hw cfg h).
Proof.
  intros (Hmode & Hc & Hs & He & _) Hlen.
  unfold serial_idle, uc_lcd_init_hw. rewrite Hmode. cbv zeta. split.
  - rewrite !line_reg_and_not by lia.
    rewrite (bool_decide_eq_true_2
               ((LCD_DMS_PORT_CLOCK cfg, LCD_DMS_PIN_CLOCK cfg) = _)) by reflexivity.
    cbn [negb]. rewrite andb_false_r. reflexivity.
  - unfold reg_and_not, reg_or. repeat apply length_sr_reg_write. exact Hlen.
Qed.

(** ** The further properties at concrete inputs *)

Lemma set_pixel_read_back_witness :
  (length (uc_lcd_buffer power_on) = 1024%nat /\ 0 <= 70 <= 127 /\ 0 <= 13 <= 63) /\
  logical_pixel (uc_lcd_set_pixel immediate_config 70 13 1 power_on) 70 13 = negb (1 =? 0).
Proof.
  split; [split; [reflexivity | lia]|].
  apply (set_pixel_read_back immediate_config power_on 70 13 1); [reflexivity | lia | lia].
Defined.

Lemma set_pixel_other_pixels_witness :
  (length (uc_lcd_buffer power_on) = 1024%nat /\ 0 <= 70 < 256 /\ 0 <= 13 < 256 /\
   0 <= 70 <= 127 /\ 0 <= 14 <= 63 /\ (70, 14) <> (70, 13)) /\
  logical_pixel (uc_lcd_set_pixel immediate_config 70 13 1 power_on) 70 14
  = logical_pixel power_on 70 14.
Proof.
  assert (Hne : (70, 14) <> (70, 13)) by congruence.
  split; [split; [reflexivity|]; repeat split; try lia; exact Hne|].
  apply (set_pixel_other_pixels immediate_config power_on 70 13 1 70 14);
    [reflexivity | lia | lia | lia | lia | exact Hne].
Defined.

Lemma set_pixel_then_flush_witness :
  (lcd_mode buffered_config = LCD_MODE_BUFFERED /\
   length (uc_lcd_buffer power_on) = 1024%nat /\ 5 <= 127 /\ 3 <= 63) /\
  exists tr,
    sent (uc_lcd_flush buffered_config (uc_lcd_set_pixel buffered_config 5 3 1 power_on))
      = sent power_on ++ tr /\
    data_transfers tr
      = buffer_payload (uc_lcd_buffer (uc_lcd_set_pixel buffered_config 5 3 1 power_on)).
Proof.
  split; [split; [reflexivity|]; split; [reflexivity | lia]|].
  destruct (set_pixel_then_flush buffered_config eq_refl power_on 5 3 1)
    as (_ & _ & tr & Hs & Hd & _); [reflexivity | lia | lia |].
  exists tr. split; assumption.
Defined.

Lemma send_buffer_to_lcd_order_witness :
  (lcd_mode buffered_config = LCD_MODE_BUFFERED /\
   length (uc_lcd_buffer power_on) = 1024%nat) /\
  sent (uc_lcd_send_buffer_to_lcd buffered_config power_on)
    = sent power_on ++ full_send_transfers (uc_lcd_buffer power_on) /\
  length (full_send_transfers (uc_lcd_buffer power_on)) = 1044%nat.
Proof.
  split; [split; reflexivity|].
  apply (send_buffer_to_lcd_order buffered_config eq_refl power_on). reflexivity.
Defined.

Lemma set_pixel_writes_through_witness :
  (lcd_mode immediate_config = LCD_MODE_IMMEDIATE /\
   uc_lcd_grouped_pixel_actions_level power_on = 0 /\
   length (uc_lcd_buffer power_on) = 1024%nat /\ 0 <= 70 <= 127 /\ 0 <= 13 <= 63) /\
  exists tr,
    sent (uc_lcd_set_pixel immediate_config 70 13 1 power_on) = sent power_on ++ tr /\
    (length tr <= 3)%nat /\
    data_transfers tr
      = [data_to (if 70 <? 64 then 1 else 0) (if 70 <? 64 then 0 else 1)
           (buf_get (uc_lcd_buffer (uc_lcd_set_pixel immediate_config 70 13 1 power_on))
              (address_index 70 13))].
Proof.
  split; [split; [reflexivity|]; split; [reflexivity|]; split; [reflexivity | lia]|].
  apply (set_pixel_writes_through immediate_config eq_refl power_on 70 13 1);
    [reflexivity | reflexivity | lia | lia].
Defined.

Lemma set_page_cache_exact_witness :
  lcd_mode immediate_config = LCD_MODE_IMMEDIATE /\
  sent (uc_lcd_set_page_chip_1 immediate_config 3 power_on)
    = sent power_on ++ (if 3 =? uc_lcd_current_page_chip1 power_on then []
                        else [command_to 1 0 (Z.lor 0xB8 (Z.land 3 0x07))]) /\
  uc_lcd_current_page_chip1 (uc_lcd_set_page_chip_1 immediate_config 3 power_on) = 3.
Proof.
  split; [reflexivity|].
  exact (proj1 (set_page_cache_exact immediate_config eq_refl power_on 3)).
Defined.

Lemma send_buffer_to_lcd_resets_pages_witness :
  lcd_mode immediate_config = LCD_MODE_IMMEDIATE /\
  uc_lcd_current_page_chip1
    (uc_lcd_send_buffer_to_lcd immediate_config
       (uc_lcd_set_page_chip_1 immediate_config 3 power_on)) = 0 /\
  uc_lcd_current_page_chip2
    (uc_lcd_send_buffer_to_lcd immediate_config
       (uc_lcd_set_page_chip_1 immediate_config 3 power_on)) = 0.
Proof.
  split; [reflexivity|].
  exact (send_buffer_to_lcd_resets_pages immediate_config eq_refl
           (uc_lcd_set_page_chip_1 immediate_config 3 power_on)).
Defined.

Lemma enter_leave_nested_witness :
  0 < uc_lcd_grouped_pixel_actions_level (uc_lcd_enter_grouped_pixel_changes power_on) < 256 /\
  uc_lcd_leave_grouped_pixel_changes immediate_config
    (uc_lcd_enter_grouped_pixel_changes (uc_lcd_enter_grouped_pixel_changes power_on))
  = uc_lcd_enter_grouped_pixel_changes power_on.
Proof.
  assert (H : 0 < uc_lcd_grouped_pixel_actions_level
                    (uc_lcd_enter_grouped_pixel_changes power_on) < 256)
    by (split; reflexivity).
  split; [exact H|].
  exact (enter_leave_nested immediate_config (uc_lcd_enter_grouped_pixel_changes power_on) H).
Defined.

Lemma leave_without_enter_witness :
  (lcd_mode immediate_config = LCD_MODE_IMMEDIATE /\
   uc_lcd_grouped_pixel_actions_level power_on = 0) /\
  uc_lcd_leave_grouped_pixel_changes immediate_config power_on
    = set_grouped_pixel_actions_level 255 power_on /\
  sent (uc_lcd_set_pixel immediate_config 5 3 1
          (uc_lcd_leave_grouped_pixel_changes immediate_config power_on)) = sent power_on /\
  hw (uc_lcd_set_pixel immediate_config 5 3 1
        (uc_lcd_leave_grouped_pixel_changes immediate_config power_on)) = hw power_on.
Proof.
  split; [split; reflexivity|].
  exact (leave_without_enter immediate_config eq_refl power_on 5 3 1 eq_refl).
Defined.

Lemma set_inverted_keeps_logical_pixels_witness :
  (length (uc_lcd_buffer (uc_lcd_set_pixel buffered_config 5 3 1 power_on)) = 1024%nat /\
   (1 = 0 \/ 1 = 1) /\
   (uc_lcd_inverted (uc_lcd_set_pixel buffered_config 5 3 1 power_on) = 0 \/
    uc_lcd_inverted (uc_lcd_set_pixel buffered_config 5 3 1 power_on) = 1) /\
   0 <= 5 <= 127 /\ 0 <= 3 <= 63) /\
  logical_pixel
    (uc_lcd_set_inverted buffered_config 1 (uc_lcd_set_pixel buffered_config 5 3 1 power_on))
    5 3
  = logical_pixel (uc_lcd_set_pixel buffered_config 5 3 1 power_on) 5 3.
Proof.
  assert (Hlen : length (uc_lcd_buffer (uc_lcd_set_pixel buffered_config 5 3 1 power_on))
                 = 1024%nat) by (vm_compute; reflexivity).
  assert (Hinv : uc_lcd_inverted (uc_lcd_set_pixel buffered_config 5 3 1 power_on) = 0 \/
                 uc_lcd_inverted (uc_lcd_set_pixel buffered_config 5 3 1 power_on) = 1)
    by (left; reflexivity).
  split; [split; [exact Hlen|]; split; [right; reflexivity|]; split; [exact Hinv | lia]|].
  refine (proj1 (set_inverted_keeps_logical_pixels buffered_config
                   (uc_lcd_set_pixel buffered_config 5 3 1 power_on) 1 5 3 Hlen
                   (or_intror eq_refl) Hinv _ _)); lia.
Defined.

Lemma clear_fill_refresh_witness :
  length (uc_lcd_buffer power_on) = 1024%nat /\
  (exists tr, sent (uc_lcd_clear immediate_config power_on) = sent power_on ++ tr /\
              data_transfers tr
              = buffer_payload (uc_lcd_buffer (uc_lcd_clear immediate_config power_on))) /\
  (exists tr, sent (uc_lcd_fill immediate_config power_on) = sent power_on ++ tr /\
              data_transfers tr
              = buffer_payload (uc_lcd_buffer (uc_lcd_fill immediate_config power_on))).
Proof.
  split; [reflexivity|].
  exact (clear_fill_refresh immediate_config power_on eq_refl).
Defined.

Lemma reset_init_postcondition_witness :
  length (uc_lcd_buffer (uc_lcd_set_pixel buffered_config 5 3 1 power_on)) = 1024%nat /\
  uc_lcd_buffer (uc_lcd_reset buffered_config (uc_lcd_set_pixel buffered_config 5 3 1 power_on))
    = replicate 1024 0 /\
  uc_lcd_data_changed
    (uc_lcd_init buffered_config (uc_lcd_set_pixel buffered_config 5 3 1 power_on)) = 0 /\
  logical_pixel
    (uc_lcd_init buffered_config (uc_lcd_set_pixel buffered_config 5 3 1 power_on)) 5 3 = false.
Proof.
  assert (Hlen : length (uc_lcd_buffer (uc_lcd_set_pixel buffered_config 5 3 1 power_on))
                 = 1024%nat) by (vm_compute; reflexivity).
  split; [exact Hlen|].
  destruct (reset_init_postcondition buffered_config
              (uc_lcd_set_pixel buffered_config 5 3 1 power_on) Hlen)
    as ((Hb & _) & (_ & _ & Hd & Hp)).
  split; [exact Hb|]. split; [exact Hd|]. apply Hp; lia.
Defined.

Lemma parallel_together_lines_only_rise_witness :
  (together_wiring_ok together_wiring /\ 0 <= 0xA5 < 256) /\
  device_lines together_wiring
    (uc_lcd_send_hw together_wiring (Z.b2z true) (Z.b2z false) (Z.b2z true) 0xA5 power_on_hw)
  = {| line_csel1 := line_csel1 (device_lines together_wiring power_on_hw) || true;
       line_csel2 := line_csel2 (device_lines together_wiring power_on_hw) || false;
       line_command_data := line_command_data (device_lines together_wiring power_on_hw) || true;
       line_data := 0xA5 |} /\
  pin_level (LCD_DMP_PORT_CONTROL together_wiring) (LCD_DMP_PIN_ENABLE together_wiring)
    (uc_lcd_send_hw together_wiring (Z.b2z true) (Z.b2z false) (Z.b2z true) 0xA5 power_on_hw)
  = false.
Proof.
  assert (Hok : together_wiring_ok together_wiring).
  { repeat split; try (vm_compute; congruence).
    apply (bool_decide_unpack _). vm_compute. exact I. }
  split; [split; [exact Hok | lia]|].
  apply (parallel_together_lines_only_rise together_wiring power_on_hw true false true 0xA5);
    [exact Hok | lia].
Defined.

Lemma parallel_individual_lines_follow_csel1_witness :
  (individual_wiring_ok individual_wiring /\ 0 <= 0xA5 < 256) /\
  device_lines individual_wiring
    (uc_lcd_send_hw individual_wiring (Z.b2z true) (Z.b2z false) (Z.b2z false) 0xA5 power_on_hw)
  = {| line_csel1 := line_csel1 (device_lines individual_wiring power_on_hw) || true;
       line_csel2 := line_csel2 (device_lines individual_wiring power_on_hw) || true;
       line_command_data :=
         line_command_data (device_lines individual_wiring power_on_hw) || true;
       line_data := 0xA5 |}.
Proof.
  assert (Hok : individual_wiring_ok individual_wiring).
  { repeat split; try (vm_compute; congruence).
    apply (bool_decide_unpack _). vm_compute. exact I. }
  split; [split; [exact Hok | lia]|].
  apply (parallel_individual_lines_follow_csel1 individual_wiring power_on_hw
           true false false 0xA5); [exact Hok | lia].
Defined.

Lemma serial_send_presents_arguments_witness :
  (serial_wiring_ok serial_wiring /\ serial_idle serial_wiring power_on_hw /\
   0 <= 0xA5 < 256) /\
  device_lines serial_wiring
    (uc_lcd_send_hw serial_wiring (Z.b2z false) (Z.b2z true) (Z.b2z true) 0xA5 power_on_hw)
  = {| line_csel1 := false; line_csel2 := true; line_command_data := true;
       line_data := 0xA5 |} /\
  serial_idle serial_wiring
    (uc_lcd_send_hw serial_wiring (Z.b2z false) (Z.b2z true) (Z.b2z true) 0xA5 power_on_hw).
Proof.
  assert (Hok : serial_wiring_ok serial_wiring).
  { repeat split; try (vm_compute; congruence).
    apply (bool_decide_unpack _). vm_compute. exact I. }
  assert (Hidle : serial_idle serial_wiring power_on_hw)
    by (split; vm_compute; reflexivity).
  split; [split; [exact Hok|]; split; [exact Hidle | lia]|].
  apply (serial_send_presents_arguments serial_wiring Hok power_on_hw false true true 0xA5);
    [exact Hidle | lia].
Defined.

Lemma fill_rect_pixels_witness :
  (length (uc_lcd_buffer power_on) = 1024%nat /\ 0 <= 10 /\ 0 <= 20 /\ 0 <= 3 /\ 0 <= 2 /\
   10 + 3 <= 256 /\ 20 + 2 <= 256 /\ 0 <= 1 < 256 /\ 0 <= 11 <= 127 /\ 0 <= 21 <= 63) /\
  logical_pixel (uc_graphics_fill_rect buffered_config 10 20 3 2 1 power_on) 11 21
  = if bool_decide (10 <= 11 < 10 + 3 /\ 20 <= 21 < 20 + 2)
    then negb (1 =? 0) else logical_pixel power_on 11 21.
Proof.
  split; [split; [reflexivity | lia]|].
  apply (fill_rect_pixels buffered_config power_on 10 20 3 2 1 11 21);
    [reflexivity | lia ..].
Defined.

Lemma empty_rect_noop_witness :
  (0 = 0 \/ 5 = 0) /\
  uc_graphics_fill_rect buffered_config 10 20 0 5 1 power_on = power_on /\
  uc_graphics_draw_rect buffered_config 10 20 0 5 1 power_on = power_on.
Proof.
  split; [left; reflexivity|].
  exact (empty_rect_noop buffered_config power_on 10 20 0 5 1 (or_introl eq_refl)).
Defined.

Lemma draw_rect_pixels_witness :
  (length (uc_lcd_buffer power_on) = 1024%nat /\ 0 <= 10 /\ 0 <= 20 /\ 0 <= 4 /\ 0 <= 3 /\
   10 + 4 <= 256 /\ 20 + 3 <= 256 /\ 0 <= 1 < 256 /\ 0 <= 11 <= 127 /\ 0 <= 21 <= 63) /\
  logical_pixel (uc_graphics_draw_rect buffered_config 10 20 4 3 1 power_on) 11 21
  = if bool_decide ((10 <= 11 < 10 + 4 /\ 20 <= 21 < 20 + 3) /\
                    (11 = 10 \/ 11 = 10 + 4 - 1 \/ 21 = 20 \/ 21 = 20 + 3 - 1))
    then negb (1 =? 0) else logical_pixel power_on 11 21.
Proof.
  split; [split; [reflexivity | lia]|].
  apply (draw_rect_pixels buffered_config power_on 10 20 4 3 1 11 21);
    [reflexivity | lia ..].
Defined.

Lemma images_draw_hv_witness :
  (Forall (fun v => 0 <= v < 256) [32; 3; 2; 53] /\ 0 <= 10 /\ 0 <= 20 < 256 /\
   10 + pgm_read_byte [32; 3; 2; 53] 1 <= 255 /\ 20 + pgm_read_byte [32; 3; 2; 53] 2 <= 256 /\
   length (uc_lcd_buffer power_on) = 1024%nat /\
   pgm_read_byte [32; 3; 2; 53] 1 * pgm_read_byte [32; 3; 2; 53] 2 <= 32767 /\
   Z.land (uc_images_get_settings [32; 3; 2; 53]) UC_IMG_SETTINGS_BIT_HV_MASK <> 0 /\
   0 <= 12 <= 127 /\ 0 <= 20 <= 63) /\
  logical_pixel (uc_images_draw buffered_config 10 20 1 [32; 3; 2; 53] power_on) 12 20
  = if bool_decide (10 <= 12 < 10 + pgm_read_byte [32; 3; 2; 53] 1 /\
                    20 <= 20 < 20 + pgm_read_byte [32; 3; 2; 53] 2)
    then drawn_over 1
           (image_bit [32; 3; 2; 53] ((20 - 20) * pgm_read_byte [32; 3; 2; 53] 1 + (12 - 10)))
           (logical_pixel power_on 12 20)
    else logical_pixel power_on 12 20.
Proof.
  assert (Himg : Forall (fun v => 0 <= v < 256) [32; 3; 2; 53])
    by (repeat constructor; lia).
  assert (Hw : 10 + pgm_read_byte [32; 3; 2; 53] 1 <= 255) by (vm_compute; congruence).
  assert (Hh : 20 + pgm_read_byte [32; 3; 2; 53] 2 <= 256) by (vm_compute; congruence).
  assert (Hhv : Z.land (uc_images_get_settings [32; 3; 2; 53]) UC_IMG_SETTINGS_BIT_HV_MASK <> 0)
    by (vm_compute; congruence).
  assert (Hwh : pgm_read_byte [32; 3; 2; 53] 1 * pgm_read_byte [32; 3; 2; 53] 2 <= 32767)
    by (vm_compute; congruence).
  split.
  { split; [exact Himg|]. split; [lia|]. split; [lia|]. split; [exact Hw|].
    split; [exact Hh|]. split; [reflexivity|]. split; [exact Hwh|].
    split; [exact Hhv | lia]. }
  apply (images_draw_hv buffered_config [32; 3; 2; 53] 10 20 1 power_on Himg);
    [lia | lia | exact Hw | exact Hh | reflexivity | exact Hwh | exact Hhv | lia | lia].
Defined.

Lemma images_draw_vh_witness :
  (Forall (fun v => 0 <= v < 256) [16; 3; 2; 53] /\ 0 <= 10 < 256 /\ 0 <= 20 /\
   10 + pgm_read_byte [16; 3; 2; 53] 1 <= 256 /\ 20 + pgm_read_byte [16; 3; 2; 53] 2 <= 255 /\
   length (uc_lcd_buffer power_on) = 1024%nat /\
   pgm_read_byte [16; 3; 2; 53] 1 * pgm_read_byte [16; 3; 2; 53] 2 <= 32767 /\
   Z.land (uc_images_get_settings [16; 3; 2; 53]) UC_IMG_SETTINGS_BIT_HV_MASK = 0 /\
   Z.land (uc_images_get_settings [16; 3; 2; 53]) UC_IMG_SETTINGS_BIT_VH_MASK <> 0 /\
   0 <= 11 <= 127 /\ 0 <= 20 <= 63) /\
  logical_pixel (uc_images_draw buffered_config 10 20 1 [16; 3; 2; 53] power_on) 11 20
  = if bool_decide (10 <= 11 < 10 + pgm_read_byte [16; 3; 2; 53] 1 /\
                    20 <= 20 < 20 + pgm_read_byte [16; 3; 2; 53] 2)
    then drawn_over 1
           (image_bit [16; 3; 2; 53] ((11 - 10) * pgm_read_byte [16; 3; 2; 53] 2 + (20 - 20)))
           (logical_pixel power_on 11 20)
    else logical_pixel power_on 11 20.
Proof.
  assert (Himg : Forall (fun v => 0 <= v < 256) [16; 3; 2; 53])
    by (repeat constructor; lia).
  assert (Hw : 10 + pgm_read_byte [16; 3; 2; 53] 1 <= 256) by (vm_compute; congruence).
  assert (Hh : 20 + pgm_read_byte [16; 3; 2; 53] 2 <= 255) by (vm_compute; congruence).
  assert (Hvh : Z.land (uc_images_get_settings [16; 3; 2; 53]) UC_IMG_SETTINGS_BIT_VH_MASK <> 0)
    by (vm_compute; congruence).
  assert (Hwh : pgm_read_byte [16; 3; 2; 53] 1 * pgm_read_byte [16; 3; 2; 53] 2 <= 32767)
    by (vm_compute; congruence).
  split.
  { split; [exact Himg|]. split; [lia|]. split; [lia|]. split; [exact Hw|].
    split; [exact Hh|]. split; [reflexivity|]. split; [exact Hwh|]. split; [reflexivity|].
    split; [exact Hvh | lia]. }
  apply (images_draw_vh buffered_config [16; 3; 2; 53] 10 20 1 power_on Himg);
    [lia | lia | exact Hw | exact Hh | reflexivity | exact Hwh | reflexivity | exact Hvh
    | lia | lia].
Defined.

Lemma images_draw_nothing_witness :
  ((Z.land (uc_images_get_settings [0; 3; 2; 53]) UC_IMG_SETTINGS_BIT_HV_MASK = 0 /\
    Z.land (uc_images_get_settings [0; 3; 2; 53]) UC_IMG_SETTINGS_BIT_VH_MASK = 0) \/
   u16 (uc_images_get_width [0; 3; 2; 53] * uc_images_get_height [0; 3; 2; 53]) = 0) /\
  uc_images_draw buffered_config 10 20 1 [0; 3; 2; 53] power_on = power_on.
Proof.
  assert (H : (Z.land (uc_images_get_settings [0; 3; 2; 53]) UC_IMG_SETTINGS_BIT_HV_MASK = 0 /\
               Z.land (uc_images_get_settings [0; 3; 2; 53]) UC_IMG_SETTINGS_BIT_VH_MASK = 0) \/
              u16 (uc_images_get_width [0; 3; 2; 53] * uc_images_get_height [0; 3; 2; 53]) = 0)
    by (left; split; reflexivity).
  split; [exact H|].
  exact (images_draw_nothing buffered_config 10 20 1 [0; 3; 2; 53] power_on H).
Defined.

Lemma init_lowers_parallel_lines_witness :
  (together_wiring_ok together_wiring \/ individual_wiring_ok together_wiring) /\
  device_lines together_wiring
    (uc_lcd_init_hw together_wiring
       (uc_lcd_send_hw together_wiring 1 1 1 0xA5 power_on_hw))
  = {| line_csel1 := false; line_csel2 := false; line_command_data := false;
       line_data := 0 |}.
Proof.
  assert (Hok : together_wiring_ok together_wiring).
  { repeat split; try (vm_compute; congruence).
    apply (bool_decide_unpack _). vm_compute. exact I. }
  split; [left; exact Hok|].
  exact (init_lowers_parallel_lines together_wiring
           (uc_lcd_send_hw together_wiring 1 1 1 0xA5 power_on_hw) (or_introl Hok)).
Defined.

Lemma init_leaves_serial_idle_witness :
  (serial_wiring_ok serial_wiring /\ length (sr_shift power_on_hw) = 16%nat) /\
  serial_idle serial_wiring (uc_lcd_init_hw serial_wiring power_on_hw).
Proof.
  assert (Hok : serial_wiring_ok serial_wiring).
  { repeat split; try (vm_compute; congruence).
    apply (bool_decide_unpack _). vm_compute. exact I. }
  split; [split; [exact Hok | reflexivity]|].
  exact (init_leaves_serial_idle serial_wiring power_on_hw Hok eq_refl).
Defined.
